(** * Booking workflow: extraction, human review and finalisation

    Shallow embedding of [langgraph_gemini_hil.py]: the three graph nodes
    ([extract_data_node], [human_review_node], [finalize_node]), the
    helpers they call ([setup_gemini], [format_display_data],
    [format_budget]) and the graph wired by [create_langgraph_hil], run by
    an explicit executor with a checkpoint per session; and the console
    loop of [run_langgraph_hil_demo], which reads the human's lines from
    the standard input.

    Conventions of the embedding.
    - A Python [str] is a [string] of bytes (UTF-8).  [lower] and [strip]
      act on the ASCII range.
    - Decoded JSON is the type [json]; numbers are integers (every numeric
      field of the collaborator contract is one), objects keep the order of
      their items.  The top level record [extracted_data] is a finite map
      from keys to values.
    - [print] is an effect: a node is a computation in [io], which collects
      the lines written to the console and either returns a value or raises
      an exception.
    - The language model is outside the program: what [model.invoke] does on
      one call is an input of the node ([reply]), and so are the standard
      decoder [json.loads] and the built-in [str()] on decoded values, which
      are parameters of the development. *)

From Stdlib Require Import ZArith Ascii String List Lia Bool.
From stdpp Require Import base option list strings gmap fin_maps pretty.

Local Open Scope string_scope.
Local Open Scope list_scope.
Local Open Scope Z_scope.

(** ** Exceptions and the [io] computations *)

Inductive exn_class :=
| ValueError | TypeError | AttributeError | OverflowError
| JSONDecodeError | OtherException (name : string).

Record exn := Exn { exn_type : exn_class; exn_str : string }.

(** [isinstance(e, ValueError)]: [json.JSONDecodeError] derives from it. *)
Definition is_ValueError (e : exn) : bool :=
  match exn_type e with
  | ValueError | JSONDecodeError => true
  | _ => false
  end.

Inductive outcome (A : Type) :=
| Returns (a : A)
| Raises (e : exn).
Arguments Returns {A} a.
Arguments Raises {A} e.

(** Lines printed, then how the computation ended. *)
Definition io (A : Type) : Type := list string * outcome A.

Definition ret {A} (a : A) : io A := ([], Returns a).
Definition raise {A} (e : exn) : io A := ([], Raises e).
Definition print (line : string) : io unit := ([line], Returns tt).

Definition bind {A B} (m : io A) (f : A -> io B) : io B :=
  match m with
  | (out, Returns a) => let '(out', r) := f a in (out ++ out', r)
  | (out, Raises e) => (out, Raises e)
  end.

(** [try: body except <filter>: handler]; an exception the filter rejects
    keeps propagating. *)
Definition try_except {A} (body : io A) (catches : exn -> bool)
    (handler : exn -> io A) : io A :=
  match body with
  | (out, Raises e) =>
      if catches e then let '(out', r) := handler e in (out ++ out', r)
      else (out, Raises e)
  | done => done
  end.

Definition any_Exception (e : exn) : bool := true.

Declare Scope io_scope.
Delimit Scope io_scope with io.
Notation "x <- m ;; k" := (bind m (fun x => k))
  (at level 100, m at next level, right associativity) : io_scope.
Notation "m ;;; k" := (bind m (fun _ => k))
  (at level 100, right associativity) : io_scope.

Definition stdout {A} (m : io A) : list string := fst m.
Definition result {A} (m : io A) : outcome A := snd m.

(** ** Python [str] operations used by the program *)

Definition code (c : ascii) : Z := Z.of_N (N_of_ascii c).

Definition lower_char (c : ascii) : ascii :=
  if (65 <=? code c) && (code c <=? 90)
  then ascii_of_N (N_of_ascii c + 32) else c.

(** [s.lower()] *)
Fixpoint lower (s : string) : string :=
  match s with
  | EmptyString => EmptyString
  | String c s' => String (lower_char c) (lower s')
  end.

(** [c.isspace()] on the ASCII range: tab to carriage return, the four
    separators 28..31, and the blank. *)
Definition isspace (c : ascii) : bool :=
  ((9 <=? code c) && (code c <=? 13)) || ((28 <=? code c) && (code c <=? 32)).

Fixpoint lstrip (s : string) : string :=
  match s with
  | EmptyString => EmptyString
  | String c s' => if isspace c then lstrip s' else s
  end.

Fixpoint rstrip (s : string) : string :=
  match s with
  | EmptyString => EmptyString
  | String c s' =>
      match rstrip s' with
      | EmptyString => if isspace c then EmptyString else String c EmptyString
      | r => String c r
      end
  end.

(** [s.strip()] *)
Definition strip (s : string) : string := lstrip (rstrip s).

(** [s.startswith(p)] *)
Definition startswith (s p : string) : bool := String.prefix p s.

(** [s.replace(old, new)]: occurrences of [old] are replaced from the left,
    without overlap.  [skip] counts the characters of an occurrence that
    are still to be dropped. *)
Fixpoint replace_from (old new : string) (skip : nat) (s : string) : string :=
  match s with
  | EmptyString => EmptyString
  | String c s' =>
      match skip with
      | S k => replace_from old new k s'
      | O =>
          if String.prefix old s
          then new +:+ replace_from old new (Nat.pred (String.length old)) s'
          else String c (replace_from old new O s')
      end
  end.

(** With an empty [old] Python puts [new] around every character. *)
Fixpoint intersperse_all (new s : string) : string :=
  match s with
  | EmptyString => new
  | String c s' => new +:+ String c (intersperse_all new s')
  end.

Definition replace (s old new : string) : string :=
  match old with
  | EmptyString => intersperse_all new s
  | _ => replace_from old new O s
  end.

(** [sep.join(parts)] *)
Definition join (sep : string) (parts : list string) : string :=
  String.concat sep parts.

(** [str(n)] of an integer. *)
Definition str_int (n : Z) : string := pretty n.

(** ["1234567"] to ["1,234,567"]: a comma after a digit that is followed by
    a positive multiple of three digits. *)
Fixpoint group_thousands (digits : string) : string :=
  match digits with
  | EmptyString => EmptyString
  | String c rest =>
      let r := Z.of_nat (String.length rest) in
      if (0 <? r) && (r mod 3 =? 0)
      then String c ("," +:+ group_thousands rest)
      else String c (group_thousands rest)
  end.

(** [format(n, ",")] of an integer: the [{budget:,}] of the f-strings. *)
Definition format_comma (n : Z) : string :=
  if n <? 0 then "-" +:+ group_thousands (pretty (- n))
  else group_thousands (pretty n).

(** The code points of a UTF-8 string, each as the string of its bytes
    (what iterating over a Python [str] yields). *)
Definition utf8_continuation (c : ascii) : bool :=
  (128 <=? code c) && (code c <? 192).

Fixpoint code_points_from (cur : string) (s : string) : list string :=
  match s with
  | EmptyString => match cur with EmptyString => [] | _ => [cur] end
  | String c s' =>
      if utf8_continuation c then code_points_from (cur +:+ String c EmptyString) s'
      else match cur with
           | EmptyString => code_points_from (String c EmptyString) s'
           | _ => cur :: code_points_from (String c EmptyString) s'
           end
  end.

Definition code_points (s : string) : list string :=
  code_points_from EmptyString s.

(** ** Decoded JSON values

    A number with a fraction or an exponent, which [json.loads] decodes to
    a [float], has no constructor here: the development covers the replies
    whose numbers are integers. *)

Set Warnings "-register-all".

Inductive json :=
| JNull
| JBool (b : bool)
| JInt (n : Z)
| JStr (s : string)
| JList (items : list json)
| JObj (items : list (string * json)).

(** Python's truth value: [None], [False], [0], [""], [[]] and [{}] are
    false. *)
Definition truthy (v : json) : bool :=
  match v with
  | JNull => false
  | JBool b => b
  | JInt n => negb (n =? 0)
  | JStr s => negb (String.eqb s "")
  | JList items => match items with [] => false | _ => true end
  | JObj items => match items with [] => false | _ => true end
  end.

(** [type(v).__name__] *)
Definition type_name (v : json) : string :=
  match v with
  | JNull => "NoneType"
  | JBool _ => "bool"
  | JInt _ => "int"
  | JStr _ => "str"
  | JList _ => "list"
  | JObj _ => "dict"
  end.

(** [a or b] *)
Definition py_or (a b : json) : json := if truthy a then a else b.

(** The record [extracted_data]: a [dict] with string keys. *)
Abbreviation dict := (gmap string json).

(** [d.get(key)]: the value, [None] when the key is missing. *)
Definition get (d : dict) (key : string) : json := default JNull (d !! key).

(** [d.get(key, fallback)] *)
Definition get_or (d : dict) (key : string) (fallback : json) : json :=
  default fallback (d !! key).

(** The [dict] a decoded object becomes: a repeated key keeps its last
    value. *)
Definition dict_of_items (items : list (string * json)) : dict :=
  foldl (fun d kv => <[kv.1 := kv.2]> d) ∅ items.

(** ** Calendar dates, after CPython's [datetime] *)

Record date := Date { year : Z; month : Z; day : Z }.

Definition MAXORDINAL : Z := 3652059.

Definition is_leap (y : Z) : bool :=
  (y mod 4 =? 0) && (negb (y mod 100 =? 0) || (y mod 400 =? 0)).

Definition days_before_year (y : Z) : Z :=
  let y := y - 1 in y * 365 + y / 4 - y / 100 + y / 400.

Definition DAYS_IN_MONTH (m : Z) : Z :=
  match m with
  | 1 => 31 | 2 => 28 | 3 => 31 | 4 => 30 | 5 => 31 | 6 => 30
  | 7 => 31 | 8 => 31 | 9 => 30 | 10 => 31 | 11 => 30 | 12 => 31
  | _ => -1
  end.

Definition DAYS_BEFORE_MONTH (m : Z) : Z :=
  match m with
  | 1 => 0 | 2 => 31 | 3 => 59 | 4 => 90 | 5 => 120 | 6 => 151
  | 7 => 181 | 8 => 212 | 9 => 243 | 10 => 273 | 11 => 304 | 12 => 334
  | _ => -1
  end.

Definition days_in_month (y m : Z) : Z :=
  if (m =? 2) && is_leap y then 29 else DAYS_IN_MONTH m.

Definition days_before_month (y m : Z) : Z :=
  DAYS_BEFORE_MONTH m + (if (2 <? m) && is_leap y then 1 else 0).

(** [date.toordinal()]: 1 for 0001-01-01. *)
Definition toordinal (d : date) : Z :=
  days_before_year (year d) + days_before_month (year d) (month d) + day d.

Definition DI400Y : Z := 146097.
Definition DI100Y : Z := 36524.
Definition DI4Y : Z := 1461.

(** The month and the day of the day numbered [n] (from 0) of a year: the
    month is estimated, and corrected when the estimate is too far. *)
Definition month_day (leapyear : bool) (n : Z) : Z * Z :=
  let m := Z.shiftr (n + 50) 5 in
  let preceding := DAYS_BEFORE_MONTH m + (if (2 <? m) && leapyear then 1 else 0) in
  if n <? preceding
  then
    let m := m - 1 in
    let preceding :=
      preceding - (DAYS_IN_MONTH m + (if (m =? 2) && leapyear then 1 else 0)) in
    (m, n - preceding + 1)
  else (m, n - preceding + 1).

(** [date.fromordinal(n)]: the cycles of 400, 100 and 4 years and the
    years that precede the day, then the day within its year. *)
Definition fromordinal (n : Z) : date :=
  let n := n - 1 in
  let n400 := n / DI400Y in
  let n := n mod DI400Y in
  let y := n400 * 400 + 1 in
  let n100 := n / DI100Y in
  let n := n mod DI100Y in
  let n4 := n / DI4Y in
  let n := n mod DI4Y in
  let n1 := n / 365 in
  let n := n mod 365 in
  let y := y + n100 * 100 + n4 * 4 + n1 in
  if (n1 =? 4) || (n100 =? 4) then Date (y - 1) 12 31
  else
    let leapyear := (n1 =? 3) && (negb (n4 =? 24) || (n100 =? 3)) in
    let '(m, d) := month_day leapyear n in
    Date y m d.

(** A date the constructor accepts: year 1..9999, a month, a day of it. *)
Definition valid_date (d : date) : bool :=
  (1 <=? year d) && (year d <=? 9999) &&
  (1 <=? month d) && (month d <=? 12) &&
  (1 <=? day d) && (day d <=? days_in_month (year d) (month d)).

(** [a <= b] on two midnights: the fields compared in order. *)
Definition date_le (a b : date) : bool :=
  if year a =? year b then
    if month a =? month b then day a <=? day b else month a <? month b
  else year a <? year b.

(** [(a - b).days] *)
Definition days_between (a b : date) : Z := toordinal a - toordinal b.

(** *** [datetime.strptime(s, "%Y-%m-%d")]

    The format compiles to the regular expression
    [(\d\d\d\d)-(1[0-2]|0[1-9]|[1-9])-(3[0-1]|[1-2]\d|0[1-9]|[1-9]| [1-9])];
    [re.match] takes the first match in the order of the alternatives.  A
    matcher returns its matches in that order, each with the text left. *)

Definition digit_in (lo hi : Z) (c : ascii) : bool :=
  (lo <=? code c - 48) && (code c - 48 <=? hi).

Definition two_digits (lo1 hi1 lo2 hi2 : Z) (s : string) : list (Z * string) :=
  match s with
  | String a (String b rest) =>
      if digit_in lo1 hi1 a && digit_in lo2 hi2 b
      then [((code a - 48) * 10 + (code b - 48), rest)] else []
  | _ => []
  end.

Definition one_digit (lo hi : Z) (s : string) : list (Z * string) :=
  match s with
  | String a rest => if digit_in lo hi a then [(code a - 48, rest)] else []
  | _ => []
  end.

Definition literal (c : ascii) (s : string) : list string :=
  match s with
  | String a rest => if Ascii.eqb a c then [rest] else []
  | _ => []
  end.

Definition re_Y (s : string) : list (Z * string) :=
  '(hi, s) ← two_digits 0 9 0 9 s;
  '(lo, s) ← two_digits 0 9 0 9 s;
  [(hi * 100 + lo, s)].

Definition re_m (s : string) : list (Z * string) :=
  two_digits 1 1 0 2 s ++ two_digits 0 0 1 9 s ++ one_digit 1 9 s.

Definition re_d (s : string) : list (Z * string) :=
  two_digits 3 3 0 1 s ++ two_digits 1 2 0 9 s ++ two_digits 0 0 1 9 s
  ++ one_digit 1 9 s ++ (s ← literal " " s; one_digit 1 9 s).

(** The pattern after the year. *)
Definition match_md (s : string) : list (Z * Z * string) :=
  s ← literal "-" s;
  '(m, s) ← re_m s;
  s ← literal "-" s;
  '(d, s) ← re_d s;
  [(m, d, s)].

Definition match_ymd (s : string) : option (date * string) :=
  head ('(y, s) ← re_Y s;
        '(m, d, s) ← match_md s;
        [(Date y m d, s)]).

(** [None] stands for the [ValueError] of a text that does not match, of
    text left after the match, and of a date that does not exist. *)
Definition strptime_ymd (s : string) : option date :=
  match match_ymd s with
  | Some (d, EmptyString) => if valid_date d then Some d else None
  | _ => None
  end.

Definition pad2 (n : Z) : string :=
  if n <? 10 then "0" +:+ str_int n else str_int n.

(** [%Y] of [strftime]: CPython hands the format to the C library, and
    glibc writes the decimal digits of the year without padding.  A year
    below 1000 so comes out with fewer than the four digits that the
    [%Y] of [strptime] asks for ([0500-01-01] is written [500-01-01]). *)
Definition strftime_Y (y : Z) : string := str_int y.

(** [d.strftime("%Y-%m-%d")] *)
Definition strftime_ymd (d : date) : string :=
  strftime_Y (year d) +:+ "-" +:+ pad2 (month d) +:+ "-" +:+ pad2 (day d).

Definition month_name (m : Z) : string :=
  match m with
  | 1 => "January" | 2 => "February" | 3 => "March" | 4 => "April"
  | 5 => "May" | 6 => "June" | 7 => "July" | 8 => "August"
  | 9 => "September" | 10 => "October" | 11 => "November" | _ => "December"
  end.

(** [d.strftime("%d %B %Y")] *)
Definition strftime_dBY (d : date) : string :=
  pad2 (day d) +:+ " " +:+ month_name (month d) +:+ " " +:+ strftime_Y (year d).

(** The calls as the nodes make them, on a decoded value. *)
Definition strptime (v : json) : io date :=
  match v with
  | JStr s =>
      match strptime_ymd s with
      | Some d => ret d
      | None =>
          raise (Exn ValueError
                   ("time data '" +:+ s +:+ "' does not match format '%Y-%m-%d'"))
      end
  | _ =>
      raise (Exn TypeError
               ("strptime() argument 1 must be str, not " +:+ type_name v))
  end.

(** [timedelta(days=v)]: the number of days. *)
Definition timedelta_days (v : json) : io Z :=
  match v with
  | JInt n =>
      if Z.abs n <=? 999999999 then ret n
      else if (- 2147483648 <=? n) && (n <=? 2147483647)
      then raise (Exn OverflowError
                    ("days=" +:+ str_int n +:+ "; must have magnitude <= 999999999"))
      else raise (Exn OverflowError "Python int too large to convert to C int")
  | JBool b => ret (if b then 1 else 0)
  | _ =>
      raise (Exn TypeError
               ("unsupported type for timedelta days component: " +:+ type_name v))
  end.

(** [d + timedelta(days=n)] *)
Definition date_add (d : date) (n : Z) : io date :=
  let o := toordinal d + n in
  if (0 <? o) && (o <=? MAXORDINAL) then ret (fromordinal o)
  else raise (Exn OverflowError "date value out of range").

(** ** The workflow state and what a node returns *)

(** [BookingState]: every key is required. *)
Record BookingState := {
  user_input : string;
  extracted_data : dict;
  iteration_count : Z;
  status : string;
  messages : list string
}.

(** The [dict] a node returns (or the [update] of a [Command]) names some
    of the keys; the graph writes those and keeps the others. *)
Record Update := {
  upd_user_input : option string;
  upd_extracted_data : option dict;
  upd_iteration_count : option Z;
  upd_status : option string;
  upd_messages : option (list string)
}.

Definition no_update : Update := {|
  upd_user_input := None; upd_extracted_data := None;
  upd_iteration_count := None; upd_status := None; upd_messages := None
|}.

Definition apply_update (state : BookingState) (u : Update) : BookingState := {|
  user_input := default (user_input state) (upd_user_input u);
  extracted_data := default (extracted_data state) (upd_extracted_data u);
  iteration_count := default (iteration_count state) (upd_iteration_count u);
  status := default (status state) (upd_status u);
  messages := default (messages state) (upd_messages u)
|}.

(** The nodes of the graph, and [Command(goto=..., update=...)]. *)
Inductive node := extract_data | human_review | finalize.

Record Command := { goto : node; update : Update }.

(** The value handed to [interrupt()]. *)
Record payload := {
  message : string;
  instruction : string;
  display : dict;
  raw_json : dict;
  options : list string
}.

(** What running [human_review_node] comes to: [interrupt()] suspends the
    run when no resume value is pending, and returns the pending value
    otherwise, after which the node routes. *)
Inductive review :=
| Interrupt (value : payload)
| Route (c : Command).

Definition interrupt (resume : option string) (value : payload)
    (k : string -> io review) : io review :=
  match resume with
  | None => ret (Interrupt value)
  | Some human_decision => k human_decision
  end.

(** ** The collaborator *)

Record environment := {
  GEMINI_AVAILABLE : bool;
  GOOGLE_API_KEY : option string
}.

(** The chat model object (its sampling temperature is left out). *)
Record chat_model := ChatGoogleGenerativeAI {
  model : string;
  max_tokens : Z
}.

(** What one call of [model.invoke(prompt)] does: it raises, or returns a
    message with this [content].  The prompt (built from [user_input] and
    the existing [extracted_data]) reaches only the collaborator. *)
Inductive reply :=
| InvokeRaises (e : exn)
| Content (text : string).

Definition setup_gemini (env : environment) : option chat_model :=
  if negb (GEMINI_AVAILABLE env)
     || negb (match GOOGLE_API_KEY env with
              | Some key => negb (String.eqb key "")
              | None => false
              end)
  then None
  else Some (ChatGoogleGenerativeAI "gemini-2.5-flash-preview-05-20" 1000).

Definition invoke (m : chat_model) (r : reply) : io string :=
  match r with
  | InvokeRaises e => raise e
  | Content text => ret text
  end.

Definition lift {A} (o : outcome A) : io A := ([], o).

Definition fence_json : string := "```json".
Definition fence : string := "```".

(** Lines 110-116: the reply stripped of blanks and of a code fence. *)
Definition clean_response (content : string) : string :=
  let response_text := strip content in
  if startswith response_text fence_json
  then strip (replace (replace response_text fence_json "") fence "")
  else if startswith response_text fence
  then strip (replace response_text fence "")
  else response_text.

(** [extracted_data.get]: only a [dict] has the method. *)
Definition as_dict (v : json) : io dict :=
  match v with
  | JObj items => ret (dict_of_items items)
  | _ =>
      raise (Exn AttributeError
               ("'" +:+ type_name v +:+ "' object has no attribute 'get'"))
  end.

Local Open Scope io_scope.

(** Lines 120-144: the dates of the decoded record checked against each
    other.  The record is changed by the last statement of a [try] block,
    so a handler finds it as it was. *)
Definition reconcile_dates (extracted_data : dict) : io dict :=
  if truthy (get extracted_data "tanggal_checkin")
     && truthy (get extracted_data "tanggal_checkout")
  then
    try_except
      (checkin_date <- strptime (get extracted_data "tanggal_checkin") ;;
       checkout_date <- strptime (get extracted_data "tanggal_checkout") ;;
       if date_le checkout_date checkin_date
       then print "⚠️ Warning: Checkout date invalid, akan diperbaiki oleh user" ;;;
            ret extracted_data
       else
         let nights := days_between checkout_date checkin_date in
         ret (<["jumlah_malam" := JInt nights]> extracted_data))
      is_ValueError
      (fun _ => print "⚠️ Warning: Format tanggal tidak valid" ;;;
                ret extracted_data)
  else if truthy (get extracted_data "tanggal_checkin")
          && truthy (get extracted_data "jumlah_malam")
  then
    try_except
      (checkin_date <- strptime (get extracted_data "tanggal_checkin") ;;
       nights <- timedelta_days (get extracted_data "jumlah_malam") ;;
       checkout_date <- date_add checkin_date nights ;;
       ret (<["tanggal_checkout" := JStr (strftime_ymd checkout_date)]>
              extracted_data))
      is_ValueError
      (fun _ => print "⚠️ Warning: Format tanggal checkin tidak valid" ;;;
                ret extracted_data)
  else ret extracted_data.

Definition error_update (state : BookingState) (marker line : string) : Update := {|
  upd_user_input := None;
  upd_extracted_data := Some {["error" := JStr marker]};
  upd_iteration_count := None;
  upd_status := Some "error";
  upd_messages := Some (messages state ++ [line])
|}.

Definition extracted_update (state : BookingState) (extracted_data : dict) : Update := {|
  upd_user_input := None;
  upd_extracted_data := Some extracted_data;
  upd_iteration_count := Some (iteration_count state + 1);
  upd_status := Some "extracted";
  upd_messages :=
    Some (messages state
          ++ ["✅ Data diekstrak (iterasi "
              +:+ str_int (iteration_count state + 1) +:+ ")"])
|}.

(** [format(v, ",")] on the decoded values of this development: integers
    (and booleans, which are integers) take the thousands separator, a
    text refuses it, the other values have no format of their own.  (A
    [float], which is not among these values, takes the separator too.) *)
Definition format_with_comma (v : json) : io string :=
  match v with
  | JInt n => ret (format_comma n)
  | JBool b => ret (if b then "1" else "0")
  | JStr _ => raise (Exn ValueError "Cannot specify ',' with 's'.")
  | _ =>
      raise (Exn TypeError
               ("unsupported format string passed to " +:+ type_name v
                +:+ ".__format__"))
  end.

Definition month_mapping : list (string * string) :=
  [("January", "Januari"); ("February", "Februari"); ("March", "Maret");
   ("April", "April"); ("May", "Mei"); ("June", "Juni");
   ("July", "Juli"); ("August", "Agustus"); ("September", "September");
   ("October", "Oktober"); ("November", "November"); ("December", "Desember")].

Definition indonesian (english_date : string) : string :=
  foldl (fun indonesian_date '(eng_month, ind_month) =>
           replace indonesian_date eng_month ind_month)
        english_date month_mapping.

(** The [try] blocks of [format_display_data]: the date spelled out, or the
    value as it is when anything goes wrong. *)
Definition display_date (v : json) : io json :=
  try_except
    (date_obj <- strptime v ;;
     ret (JStr (indonesian (strftime_dBY date_obj))))
    (fun _ => true)
    (fun _ => ret v).

Definition format_display_data (data : dict) : io dict :=
  let display_data := data in
  display_data <-
    (if truthy (get data "budget")
     then
       budget_formatted <- format_with_comma (get data "budget") ;;
       ret (<["budget_display" :=
                JStr (replace ("Rp " +:+ budget_formatted) "," ".")]> display_data)
     else ret (<["budget_display" := JStr "Tidak disebutkan"]> display_data)) ;;
  display_data <-
    (if truthy (get data "tanggal_checkin")
     then
       shown <- display_date (get data "tanggal_checkin") ;;
       ret (<["tanggal_checkin_display" := shown]> display_data)
     else ret display_data) ;;
  display_data <-
    (if truthy (get data "tanggal_checkout")
     then
       shown <- display_date (get data "tanggal_checkout") ;;
       ret (<["tanggal_checkout_display" := shown]> display_data)
     else ret display_data) ;;
  ret display_data.

Definition format_budget (budget : json) : io string :=
  if negb (truthy budget) then ret "Tidak disebutkan"
  else
    formatted <- format_with_comma budget ;;
    ret (replace ("Rp " +:+ formatted) "," ".").

(** ** The review gate *)

Definition affirm : list string := ["setuju"; "ok"; "benar"].
Definition finish : list string := ["selesai"; "lanjut"].

(** [s in [...]] *)
Definition py_in (s : string) (l : list string) : bool :=
  existsb (String.eqb s) l.

Definition required_fields : list (string * string) :=
  [("lokasi", "lokasi tujuan");
   ("tanggal_checkin", "tanggal check-in");
   ("jumlah_malam", "jumlah malam");
   ("jumlah_tamu", "jumlah tamu")].

(** The loop over [required_fields.items()]. *)
Definition missing_labels (extracted_data : dict) : list string :=
  foldl (fun missing '(field, label) =>
           if negb (truthy (get extracted_data field))
           then missing ++ [label] else missing)
        [] required_fields.

Definition not_mentioned : json := JStr "Belum disebutkan".

Definition review_payload (state : BookingState) (display_data : dict) : payload := {|
  message :=
    "📋 REVIEW DATA EKSTRAKSI (Iterasi "
    +:+ str_int (iteration_count state) +:+ ")";
  instruction :=
    "Silakan review data yang diekstrak AI. Ketik 'setuju' jika benar, atau berikan koreksi/tambahan.";
  display :=
    list_to_map
      [("lokasi", py_or (get display_data "lokasi") not_mentioned);
       ("tanggal_checkin",
        py_or (get display_data "tanggal_checkin_display") not_mentioned);
       ("tanggal_checkout",
        py_or (get display_data "tanggal_checkout_display") not_mentioned);
       ("jumlah_malam", py_or (get display_data "jumlah_malam") not_mentioned);
       ("jumlah_tamu", py_or (get display_data "jumlah_tamu") not_mentioned);
       ("budget", get_or display_data "budget_display" not_mentioned);
       ("preferensi",
        py_or (get_or display_data "preferensi" (JList [])) (JStr "Tidak ada"))];
  raw_json := extracted_data state;
  options :=
    ["'setuju' - Data sudah benar";
     "'selesai' - Lanjut ke booking";
     "Atau ketik koreksi/tambahan"]
|}.

Definition human_review_node (state : BookingState) (resume : option string)
    : io review :=
  let extracted_data := extracted_data state in
  display_data <- format_display_data extracted_data ;;
  interrupt resume (review_payload state display_data) (fun human_decision =>
    if py_in (lower human_decision) affirm then
      match missing_labels extracted_data with
      | (_ :: _) as missing =>
          let missing_text := join ", " missing in
          ret (Route {|
            goto := extract_data;
            update := {|
              upd_user_input :=
                Some ("Data masih kurang: " +:+ missing_text
                      +:+ ". Silakan lengkapi informasi yang belum disebutkan.");
              upd_extracted_data := None;
              upd_iteration_count := None;
              upd_status := None;
              upd_messages :=
                Some (messages state
                      ++ ["⚠️ Data belum lengkap: " +:+ missing_text])
            |}
          |})
      | [] => ret (Route {| goto := finalize; update := no_update |})
      end
    else if py_in (lower human_decision) finish then
      ret (Route {| goto := finalize; update := no_update |})
    else
      ret (Route {|
        goto := extract_data;
        update := {|
          upd_user_input := Some human_decision;
          upd_extracted_data := None;
          upd_iteration_count := None;
          upd_status := None;
          upd_messages :=
            Some (messages state
                  ++ ["🔄 Memproses input tambahan: " +:+ human_decision])
        |}
      |})).

Section Workflow.

(** [json.loads]: the decoded value, or the exception it raises. *)
Variable json_loads : string -> outcome json.

(** [repr()] of a decoded list or dict. *)
Variable py_repr : json -> string.

(** [str(v)], as an f-string renders a value. *)
Definition py_str (v : json) : string :=
  match v with
  | JNull => "None"
  | JBool true => "True"
  | JBool false => "False"
  | JInt n => str_int n
  | JStr s => s
  | JList _ | JObj _ => py_repr v
  end.

Definition extract_data_node (env : environment) (r : reply)
    (state : BookingState) : io Update :=
  print "🤖 Node: Ekstraksi data dengan Gemini..." ;;;
  match setup_gemini env with
  | None => ret (error_update state "Gemini not available" "❌ Gemini tidak tersedia")
  | Some m =>
      try_except
        (content <- invoke m r ;;
         let response_text := clean_response content in
         decoded <- lift (json_loads response_text) ;;
         extracted_data <- as_dict decoded ;;
         extracted_data <- reconcile_dates extracted_data ;;
         ret (extracted_update state extracted_data))
        any_Exception
        (fun e =>
           print ("❌ Error ekstraksi: " +:+ exn_str e) ;;;
           ret (error_update state (exn_str e) ("❌ Error: " +:+ exn_str e)))
  end.

(** The candidate record of an extraction pass: what lines 109-121 make of
    the reply before the dates are looked at, or the exception on the way
    ([model.invoke] raises, [json.loads] raises, the decoded value is no
    [dict]). *)
Definition decoded_record (r : reply) : outcome dict :=
  match r with
  | InvokeRaises e => Raises e
  | Content text =>
      match json_loads (clean_response text) with
      | Raises e => Raises e
      | Returns decoded => result (as_dict decoded)
      end
  end.

(** ["sep".join(v)]: a list of strings, the characters of a string, or the
    keys of a dict. *)
Fixpoint str_items (i : Z) (items : list json) : io (list string) :=
  match items with
  | [] => ret []
  | JStr s :: rest => parts <- str_items (i + 1) rest ;; ret (s :: parts)
  | v :: _ =>
      raise (Exn TypeError
               ("sequence item " +:+ str_int i +:+ ": expected str instance, "
                +:+ type_name v +:+ " found"))
  end.

Fixpoint dict_keys (seen : list string) (items : list (string * json))
    : list string :=
  match items with
  | [] => []
  | (k, _) :: rest =>
      if py_in k seen then dict_keys seen rest
      else k :: dict_keys (k :: seen) rest
  end.

Definition join_value (sep : string) (v : json) : io string :=
  match v with
  | JList items => parts <- str_items 0 items ;; ret (join sep parts)
  | JStr s => ret (join sep (code_points s))
  | JObj items => ret (join sep (dict_keys [] items))
  | _ => raise (Exn TypeError "can only join an iterable")
  end.

Definition nl : string := String (ascii_of_nat 10) EmptyString.

Definition or_not_mentioned (v : json) : string :=
  py_str (py_or v (JStr "Tidak disebutkan")).

Definition summary_message (final_data : dict) (iteration_count : Z)
    (budget preferensi : string) : string :=
  nl +:+ "🎉 DATA BOOKING FINAL:" +:+ nl
  +:+ "🏨 Lokasi: " +:+ or_not_mentioned (get final_data "lokasi") +:+ nl
  +:+ "📅 Check-in: " +:+ or_not_mentioned (get final_data "tanggal_checkin") +:+ nl
  +:+ "📅 Check-out: " +:+ or_not_mentioned (get final_data "tanggal_checkout") +:+ nl
  +:+ "🌙 Jumlah malam: " +:+ or_not_mentioned (get final_data "jumlah_malam") +:+ nl
  +:+ "👥 Jumlah tamu: " +:+ or_not_mentioned (get final_data "jumlah_tamu") +:+ nl
  +:+ "💰 Budget: " +:+ budget +:+ nl
  +:+ "⭐ Preferensi: " +:+ preferensi +:+ nl
  +:+ nl
  +:+ "📊 Total iterasi HIL: " +:+ str_int iteration_count +:+ nl
  +:+ "🤖 Model AI: Google Gemini 2.5 Flash" +:+ nl
  +:+ "✅ Status: Siap untuk pencarian hotel" +:+ nl
  +:+ "    ".

Definition finalize_node (state : BookingState) : io Update :=
  print "✅ Finalisasi data booking..." ;;;
  let final_data := extracted_data state in
  budget <- format_budget (get final_data "budget") ;;
  preferensi <-
    (if truthy (get final_data "preferensi")
     then join_value ", " (get_or final_data "preferensi" (JList []))
     else ret "Tidak ada") ;;
  ret {|
    upd_user_input := None;
    upd_extracted_data := None;
    upd_iteration_count := None;
    upd_status := Some "completed";
    upd_messages :=
      Some (messages state
            ++ [summary_message final_data (iteration_count state)
                  budget preferensi])
  |}.

(** ** The graph of [create_langgraph_hil] and its runs

    The edges: [START] to [extract_data], [extract_data] to
    [human_review], [finalize] to [END]; [human_review] names its successor
    in the [Command] it returns.  The graph is compiled with a
    checkpointer, which keeps for the session the values of the state and
    the node to run next. *)

Definition START : node := extract_data.

(** [None] is [END]. *)
Definition edge (n : node) : option node :=
  match n with
  | extract_data => Some human_review
  | finalize => None
  | human_review => None
  end.

Record checkpoint := {
  values : BookingState;
  next : option node
}.

(** The runner gives up after this many steps of one call. *)
Definition recursion_limit : nat := 25.

Definition GraphRecursionError : exn :=
  Exn (OtherException "GraphRecursionError")
      "Recursion limit of 25 reached without hitting a stop condition.".

(** One call of the runner: nodes are run, each one's update written to the
    state, until a node interrupts or [END] is reached.  The result is the
    checkpoint left behind and, when the run was interrupted, the value of
    the interrupt.  [resume] is the pending resume value; the first
    [interrupt()] uses it up.  [r] is what the collaborator does when asked
    during this call. *)
Fixpoint pregel_loop (steps : nat) (env : environment) (r : reply)
    (n : option node) (resume : option string) (state : BookingState)
    : io (checkpoint * option payload) :=
  match n with
  | None => ret ({| values := state; next := None |}, None)
  | Some nd =>
      match steps with
      | O => raise GraphRecursionError
      | S steps =>
          match nd with
          | extract_data =>
              u <- extract_data_node env r state ;;
              pregel_loop steps env r (edge extract_data) resume
                (apply_update state u)
          | human_review =>
              rv <- human_review_node state resume ;;
              match rv with
              | Interrupt value =>
                  ret ({| values := state; next := Some human_review |},
                       Some value)
              | Route c =>
                  pregel_loop steps env r (Some (goto c)) None
                    (apply_update state (update c))
              end
          | finalize =>
              u <- finalize_node state ;;
              pregel_loop steps env r (edge finalize) resume
                (apply_update state u)
          end
      end
  end.

(** The state a session starts from (lines 370-376). *)
Definition initial_state (user_input : string) : BookingState := {|
  user_input := user_input;
  extracted_data := ∅;
  iteration_count := 0;
  status := "start";
  messages := []
|}.

(** [graph.invoke(initial_state, config)] on a new thread. *)
Definition invoke_initial (env : environment) (r : reply)
    (state : BookingState) : io (checkpoint * option payload) :=
  pregel_loop recursion_limit env r (Some START) None state.

(** [graph.invoke(Command(resume=human_input), config)] on the thread whose
    checkpoint is [c]. *)
Definition invoke_resume (env : environment) (r : reply)
    (c : checkpoint) (human_input : string)
    : io (checkpoint * option payload) :=
  pregel_loop recursion_limit env r (next c) (Some human_input) (values c).

(** One node run on a state and its update written to it. *)
Inductive node_step : BookingState -> BookingState -> Prop :=
| step_extract_data env r state out u :
    extract_data_node env r state = (out, Returns u) ->
    node_step state (apply_update state u)
| step_human_review state resume out c :
    human_review_node state resume = (out, Returns (Route c)) ->
    node_step state (apply_update state (update c))
| step_finalize state out u :
    finalize_node state = (out, Returns u) ->
    node_step state (apply_update state u).

(** The checkpoints of a session: the one its first call leaves, and the one
    each resume leaves. *)
Inductive session : checkpoint -> Prop :=
| session_started user_input env r out c p :
    invoke_initial env r (initial_state user_input) = (out, Returns (c, p)) ->
    session c
| session_resumed c env r human_input out c' p :
    session c ->
    invoke_resume env r c human_input = (out, Returns (c', p)) ->
    session c'.

End Workflow.

(** ** The console demo, [run_langgraph_hil_demo] *)

(** What a run writes to the terminal: the argument of a [print] call, or
    the prompt of an [input] call (which ends no line). *)
Inductive event := Printed (text : string) | Prompted (prompt : string).

(** A run on a terminal comes to: what it wrote, the lines of the standard
    input it left unread, and how it ended. *)
Definition console (A : Type) : Type := list event * list string * outcome A.

(** [input()] at the end of the input. *)
Definition EOFError : exn :=
  Exn (OtherException "EOFError") "EOF when reading a line".

(** [s * n] *)
Fixpoint repeat_string (s : string) (n : nat) : string :=
  match n with
  | O => ""
  | S n => s +:+ repeat_string s n
  end.

(** [needle in hay] *)
Fixpoint contains (needle hay : string) : bool :=
  String.prefix needle hay
  || match hay with
     | EmptyString => false
     | String _ hay' => contains needle hay'
     end.

(** [d[key]] *)
Definition getitem (d : dict) (key : string) : io json :=
  match d !! key with
  | Some v => ret v
  | None => raise (Exn (OtherException "KeyError") ("'" +:+ key +:+ "'"))
  end.

(** [for item in items: body] *)
Definition for_each {A} (items : list A) (body : A -> io unit) : io unit :=
  foldr (fun item rest => body item ;;; rest) (ret tt) items.

Section Demo.

Variable json_loads : string -> outcome json.
Variable py_repr : json -> string.

(** Lines 388-420: the interrupt shown to the human. *)
Definition show_interrupt (value : payload) : io unit :=
  print (nl +:+ repeat_string "=" 60) ;;;
  print "🛑 LANGGRAPH INTERRUPT DETECTED!" ;;;
  print (repeat_string "=" 60) ;;;
  print ("📋 " +:+ message value) ;;;
  print (repeat_string "=" 60) ;;;
  print ("Instruksi: " +:+ instruction value) ;;;
  let extracted_info := display value in
  print (nl +:+ "📊 DATA YANG DIEKSTRAK:") ;;;
  lokasi <- getitem extracted_info "lokasi" ;;
  print ("🏨 Lokasi: " +:+ py_str py_repr lokasi) ;;;
  tanggal_checkin <- getitem extracted_info "tanggal_checkin" ;;
  print ("📅 Check-in: " +:+ py_str py_repr tanggal_checkin) ;;;
  tanggal_checkout <- getitem extracted_info "tanggal_checkout" ;;
  print ("📅 Check-out: " +:+ py_str py_repr tanggal_checkout) ;;;
  jumlah_malam <- getitem extracted_info "jumlah_malam" ;;
  print ("🌙 Jumlah malam: " +:+ py_str py_repr jumlah_malam) ;;;
  jumlah_tamu <- getitem extracted_info "jumlah_tamu" ;;
  print ("👥 Jumlah tamu: " +:+ py_str py_repr jumlah_tamu) ;;;
  budget <- getitem extracted_info "budget" ;;
  print ("💰 Budget: " +:+ py_str py_repr budget) ;;;
  (let preferensi := get extracted_info "preferensi" in
   if truthy preferensi
      && negb (match preferensi with
               | JStr s => String.eqb s "Tidak ada"
               | _ => false
               end)
   then
     match preferensi with
     | JList (_ :: _) =>
         joined <- join_value ", " preferensi ;;
         print ("⭐ Preferensi: " +:+ joined)
     | _ => print "⭐ Preferensi: Tidak ada"
     end
   else print "⭐ Preferensi: Tidak ada") ;;;
  print (nl +:+ "📋 PILIHAN:") ;;;
  for_each (options value) (fun option => print ("• " +:+ option)) ;;;
  print (nl +:+ repeat_string "-" 60).

(** Lines 385-425: the loop over the interrupts.  Every round reads one
    line, so the loop is written by recursion on the lines still there;
    [call] numbers the calls of the graph, and [replies call] is what the
    collaborator does during that call. *)
Fixpoint interrupt_loop (env : environment) (replies : nat -> reply)
    (call : nat) (stdin : list string) (c : checkpoint)
    (interrupted : option payload) : console checkpoint :=
  match interrupted with
  | None => ([], stdin, Returns c)
  | Some value =>
      match show_interrupt value with
      | (out, Raises e) => (map Printed out, stdin, Raises e)
      | (out, Returns _) =>
          match stdin with
          | [] =>
              (map Printed out ++ [Prompted "👤 Input Anda: "], [],
               Raises EOFError)
          | line :: stdin =>
              let human_input := strip line in
              match
                print (nl +:+ "🔄 Resuming LangGraph dengan input: '"
                       +:+ human_input +:+ "'") ;;;
                invoke_resume json_loads py_repr env (replies call) c human_input
              with
              | (out', Raises e) =>
                  (map Printed out ++ Prompted "👤 Input Anda: "
                     :: map Printed out',
                   stdin, Raises e)
              | (out', Returns (c', interrupted')) =>
                  let '(events, stdin', r) :=
                    interrupt_loop env replies (S call) stdin c' interrupted' in
                  (map Printed out ++ Prompted "👤 Input Anda: "
                     :: map Printed out' ++ events,
                   stdin', r)
              end
          end
      end
  end.

(** Lines 378-425: the first call, then the loop. *)
Definition demo_session (env : environment) (replies : nat -> reply)
    (user_input : string) (stdin : list string) : console checkpoint :=
  match
    print (nl +:+ "🔄 Memulai LangGraph execution...") ;;;
    invoke_initial json_loads py_repr env (replies O) (initial_state user_input)
  with
  | (out, Raises e) => (map Printed out, stdin, Raises e)
  | (out, Returns (c, interrupted)) =>
      let '(events, stdin', r) :=
        interrupt_loop env replies 1 stdin c interrupted in
      (map Printed out ++ events, stdin', r)
  end.

(** Lines 427-444: the report on the final result. *)
Definition report (final : BookingState) : list string :=
  [nl +:+ repeat_string "=" 60;
   "🎉 LANGGRAPH EXECUTION COMPLETED!";
   repeat_string "=" 60]
  ++ (if String.eqb (status final) "completed"
      then "✅ Proses HIL berhasil!"
           :: map (fun msg => nl +:+ msg)
                (filter (fun msg => contains "DATA BOOKING FINAL" msg = true)
                   (messages final))
      else [])
  ++ [nl +:+ "📚 YANG BARU SAJA TERJADI:";
      "✅ LangGraph interrupt() function digunakan";
      "✅ State persistence dengan MemorySaver";
      "✅ Command(resume=value) untuk melanjutkan";
      "✅ Graph routing berdasarkan human decision";
      "✅ True Human-in-the-Loop implementation!"].

(** Lines 341-344 and 356-357: what the demo writes first. *)
Definition demo_header : list event :=
  [Printed "🚀 LANGGRAPH HUMAN-IN-THE-LOOP DENGAN GEMINI FLASH";
   Printed (repeat_string "=" 60);
   Printed "Demo menggunakan interrupt() function yang sebenarnya!";
   Printed (repeat_string "=" 60)].

Definition query_prompt : list event :=
  [Printed (nl +:+ "📝 MASUKKAN PENCARIAN HOTEL:");
   Prompted "👤 Kata pencarian hotel: "].

(** [run_langgraph_hil_demo()].  The [except Exception] clause takes every
    exception of the [try] block; what [traceback.print_exc()] writes goes
    to the standard error and is left out, and so is a [KeyboardInterrupt]. *)
Definition run_langgraph_hil_demo (env : environment) (replies : nat -> reply)
    (stdin : list string) : console unit :=
  if negb (GEMINI_AVAILABLE env)
  then (demo_header ++ [Printed "❌ LangChain Google GenAI tidak tersedia!"],
        stdin, Returns tt)
  else if negb (match GOOGLE_API_KEY env with
                | Some key => negb (String.eqb key "")
                | None => false
                end)
  then (demo_header ++ [Printed "❌ GOOGLE_API_KEY tidak ditemukan!"],
        stdin, Returns tt)
  else
    match stdin with
    | [] => (demo_header ++ query_prompt, [], Raises EOFError)
    | line :: stdin =>
        let user_input := strip line in
        if String.eqb user_input ""
        then (demo_header ++ query_prompt
                ++ [Printed "❌ Input tidak boleh kosong!"],
              stdin, Returns tt)
        else
          match demo_session env replies user_input stdin with
          | (events, stdin', Returns c) =>
              (demo_header ++ query_prompt ++ events
                 ++ map Printed (report (values c)),
               stdin', Returns tt)
          | (events, stdin', Raises e) =>
              (demo_header ++ query_prompt ++ events
                 ++ [Printed (nl +:+ "❌ Error: " +:+ exn_str e)],
               stdin', Returns tt)
          end
    end.

End Demo.

(** ** A decoder and a [repr] to run the workflow on concrete replies

    [loads_basic] reads the JSON texts made of objects, arrays, strings
    without escapes, integers, [true], [false] and [null], as [json.loads]
    does, and rejects every other text.  [repr_basic] writes a value the
    way Python's [repr] writes one whose strings need no escape.  They
    instantiate the two parameters in the examples below; the theorems hold
    for every decoder. *)

Definition quote : ascii := ascii_of_nat 34.

(** A string between double quotes, and a JSON text for [key: value]. *)
Definition quoted (s : string) : string :=
  String quote s +:+ String quote EmptyString.

Definition json_ws (c : ascii) : bool :=
  (code c =? 32) || (code c =? 9) || (code c =? 10) || (code c =? 13).

Fixpoint skip_ws (s : string) : string :=
  match s with
  | String c s' => if json_ws c then skip_ws s' else s
  | EmptyString => EmptyString
  end.

Fixpoint strip_prefix (p s : string) : option string :=
  match p, s with
  | EmptyString, _ => Some s
  | String a p', String b s' => if Ascii.eqb a b then strip_prefix p' s' else None
  | _, _ => None
  end.

(** The characters up to the closing quote. *)
Fixpoint take_chars (s : string) : option (string * string) :=
  match s with
  | EmptyString => None
  | String c s' =>
      if Ascii.eqb c quote then Some (EmptyString, s')
      else if (code c =? 92) || (code c <? 32) then None
      else match take_chars s' with
           | Some (str, rest) => Some (String c str, rest)
           | None => None
           end
  end.

Fixpoint take_digits (acc : Z) (s : string) : Z * string :=
  match s with
  | String c s' =>
      if digit_in 0 9 c then take_digits (acc * 10 + (code c - 48)) s'
      else (acc, s)
  | EmptyString => (acc, s)
  end.

(** An integer: [0], or digits that do not start with [0]; a fraction or an
    exponent after it is not read. *)
Definition take_int (s : string) : option (Z * string) :=
  match s with
  | String c s' =>
      if digit_in 0 9 c then
        let '(n, rest) :=
          if digit_in 0 0 c then (0, s') else take_digits (code c - 48) s' in
        match rest with
        | String d _ =>
            if digit_in 0 9 d || (code d =? 46) || (code d =? 101) || (code d =? 69)
            then None else Some (n, rest)
        | EmptyString => Some (n, rest)
        end
      else None
  | EmptyString => None
  end.

Fixpoint parse_value (fuel : nat) (s : string) : option (json * string) :=
  match fuel with
  | O => None
  | S fuel =>
      match skip_ws s with
      | EmptyString => None
      | String c rest as s =>
          if Ascii.eqb c quote then
            match take_chars rest with
            | Some (str, rest) => Some (JStr str, rest)
            | None => None
            end
          else if Ascii.eqb c "[" then
            match skip_ws rest with
            | String "]" rest => Some (JList [], rest)
            | rest =>
                match parse_elements fuel rest with
                | Some (items, rest) => Some (JList items, rest)
                | None => None
                end
            end
          else if Ascii.eqb c "{" then
            match skip_ws rest with
            | String "}" rest => Some (JObj [], rest)
            | rest =>
                match parse_members fuel rest with
                | Some (items, rest) => Some (JObj items, rest)
                | None => None
                end
            end
          else if Ascii.eqb c "-" then
            match take_int rest with
            | Some (n, rest) => Some (JInt (- n), rest)
            | None => None
            end
          else
            match strip_prefix "null" s, strip_prefix "true" s,
                  strip_prefix "false" s with
            | Some rest, _, _ => Some (JNull, rest)
            | _, Some rest, _ => Some (JBool true, rest)
            | _, _, Some rest => Some (JBool false, rest)
            | _, _, _ =>
                match take_int s with
                | Some (n, rest) => Some (JInt n, rest)
                | None => None
                end
            end
      end
  end
with parse_elements (fuel : nat) (s : string) : option (list json * string) :=
  match fuel with
  | O => None
  | S fuel =>
      match parse_value fuel s with
      | Some (v, rest) =>
          match skip_ws rest with
          | String "," rest =>
              match parse_elements fuel rest with
              | Some (vs, rest) => Some (v :: vs, rest)
              | None => None
              end
          | String "]" rest => Some ([v], rest)
          | _ => None
          end
      | None => None
      end
  end
with parse_members (fuel : nat) (s : string)
    : option (list (string * json) * string) :=
  match fuel with
  | O => None
  | S fuel =>
      match skip_ws s with
      | String c rest =>
          if Ascii.eqb c quote then
            match take_chars rest with
            | Some (key, rest) =>
                match skip_ws rest with
                | String ":" rest =>
                    match parse_value fuel rest with
                    | Some (v, rest) =>
                        match skip_ws rest with
                        | String "," rest =>
                            match parse_members fuel rest with
                            | Some (kvs, rest) => Some ((key, v) :: kvs, rest)
                            | None => None
                            end
                        | String "}" rest => Some ([(key, v)], rest)
                        | _ => None
                        end
                    | None => None
                    end
                | _ => None
                end
            | None => None
            end
          else None
      | EmptyString => None
      end
  end.

Definition loads_basic (s : string) : outcome json :=
  match parse_value (2 * String.length s + 2) s with
  | Some (v, rest) =>
      match skip_ws rest with
      | EmptyString => Returns v
      | _ => Raises (Exn JSONDecodeError "Extra data")
      end
  | None => Raises (Exn JSONDecodeError "Expecting value")
  end.

Fixpoint repr_basic (v : json) : string :=
  match v with
  | JNull => "None"
  | JBool true => "True"
  | JBool false => "False"
  | JInt n => str_int n
  | JStr s => "'" +:+ s +:+ "'"
  | JList items => "[" +:+ join ", " (map repr_basic items) +:+ "]"
  | JObj items =>
      "{" +:+ join ", " (map (fun '(k, v) => "'" +:+ k +:+ "': " +:+ repr_basic v) items)
      +:+ "}"
  end.

(** ** Checks run by computation

    What the lemmas on dates need of [month_day], of [strftime_Y] and of
    the pattern of [strptime] is checked on every day of a year, on every
    year and on every day of every month. *)

Fixpoint holds_from (f : Z -> bool) (start : Z) (count : nat) : bool :=
  match count with
  | O => true
  | S count => f start && holds_from f (start + 1) count
  end.

(** [month_day] gives a month and a day of it that lie [n] days after the
    first of January. *)
Definition month_day_ok (leapyear : bool) (n : Z) : bool :=
  let '(m, d) := month_day leapyear n in
  (1 <=? m) && (m <=? 12) && (1 <=? d)
  && (d <=? DAYS_IN_MONTH m + (if (m =? 2) && leapyear then 1 else 0))
  && (DAYS_BEFORE_MONTH m + (if (2 <? m) && leapyear then 1 else 0) + d =? n + 1).

(** A year from 1000 on is written with four digits, which read back as
    the year. *)
Definition year_ok (y : Z) : bool :=
  match strftime_Y y with
  | String a (String b (String c (String e EmptyString))) =>
      digit_in 0 9 a && digit_in 0 9 b && digit_in 0 9 c && digit_in 0 9 e
      && (((code a - 48) * 10 + (code b - 48)) * 100
          + ((code c - 48) * 10 + (code e - 48)) =? y)
  | _ => false
  end.

(** A year below 1000 is written with one, two or three digits. *)
Definition short_year_ok (y : Z) : bool :=
  match strftime_Y y with
  | String a EmptyString => digit_in 0 9 a
  | String a (String b EmptyString) => digit_in 0 9 a && digit_in 0 9 b
  | String a (String b (String c EmptyString)) =>
      digit_in 0 9 a && digit_in 0 9 b && digit_in 0 9 c
  | _ => false
  end.

Definition md_ok (m d : Z) : bool :=
  match match_md ("-" +:+ pad2 m +:+ "-" +:+ pad2 d) with
  | (m', d', EmptyString) :: _ => (m' =? m) && (d' =? d)
  | _ => false
  end.

(** ** Scenarios used in the examples *)

Definition env_ready : environment :=
  {| GEMINI_AVAILABLE := true; GOOGLE_API_KEY := Some "key" |}.

Definition env_no_key : environment :=
  {| GEMINI_AVAILABLE := true; GOOGLE_API_KEY := None |}.

(** The JSON text of an object, from its keys and the texts of its values. *)
Definition object_text (members : list (string * string)) : string :=
  "{" +:+ join ", " (map (fun '(k, v) => quoted k +:+ ": " +:+ v) members) +:+ "}".

(** A state suspended for review with this record. *)
Definition reviewing (extracted_data : dict) : BookingState := {|
  user_input := "hotel";
  extracted_data := extracted_data;
  iteration_count := 1;
  status := "extracted";
  messages := ["✅ Data diekstrak (iterasi 1)"]
|}.

(** Records as the review may find them. *)
Definition ubud_without_guests : dict :=
  list_to_map
    [("lokasi", JStr "Ubud"); ("tanggal_checkin", JStr "2025-06-20");
     ("tanggal_checkout", JStr "2025-06-25"); ("jumlah_malam", JInt 5)].

Definition ubud_complete : dict := <["jumlah_tamu" := JInt 2]> ubud_without_guests.

Definition ubud_zero_nights : dict := <["jumlah_malam" := JInt 0]> ubud_complete.

Definition ubud_zero_guests : dict := <["jumlah_tamu" := JInt 0]> ubud_complete.

(** Replies of the collaborator. *)
Definition reversed_dates_text : string :=
  object_text [("tanggal_checkin", quoted "2025-06-25");
               ("tanggal_checkout", quoted "2025-06-20")].

Definition five_nights_text : string :=
  object_text [("tanggal_checkin", quoted "2025-06-20"); ("jumlah_malam", "5")].

Definition zero_nights_text : string :=
  object_text [("tanggal_checkin", quoted "2025-06-20"); ("jumlah_malam", "0")].

(** The reply the prompt itself gives as the wrong one: the new preference
    without the data already there. *)
Definition spa_only_text : string :=
  object_text [("lokasi", "null"); ("preferensi", "[" +:+ quoted "spa" +:+ "]")].

Definition nusa_dua_state : BookingState := {|
  user_input := "preferensi spa";
  extracted_data :=
    list_to_map [("lokasi", JStr "Nusa Dua"); ("budget", JInt 2000000)];
  iteration_count := 1;
  status := "extracted";
  messages := ["✅ Data diekstrak (iterasi 1)"]
|}.

(** The records those replies decode to. *)
Definition reversed_dates_record : dict :=
  list_to_map [("tanggal_checkin", JStr "2025-06-25");
               ("tanggal_checkout", JStr "2025-06-20")].

Definition five_nights_record : dict :=
  list_to_map [("tanggal_checkin", JStr "2025-06-20"); ("jumlah_malam", JInt 5)].

Definition zero_nights_record : dict :=
  list_to_map [("tanggal_checkin", JStr "2025-06-20"); ("jumlah_malam", JInt 0)].

Definition spa_only_record : dict :=
  list_to_map [("lokasi", JNull); ("preferensi", JList [JStr "spa"])].

(** The session of the end-to-end example: one extraction, then the human
    agrees. *)
Definition ubud_text : string :=
  object_text
    [("lokasi", quoted "Ubud");
     ("tanggal_checkin", quoted "2025-06-20");
     ("tanggal_checkout", quoted "2025-06-25");
     ("jumlah_malam", "5");
     ("jumlah_tamu", "2")].

Definition returned {A} (m : io A) (fallback : A) : A :=
  match result m with
  | Returns a => a
  | Raises _ => fallback
  end.

Definition no_checkpoint : checkpoint * option payload :=
  ({| values := initial_state ""; next := None |}, None).

Definition ubud_review : checkpoint * option payload :=
  returned (invoke_initial loads_basic repr_basic env_ready (Content ubud_text)
              (initial_state "hotel di ubud, 20-25 juni 2025, 2 orang"))
    no_checkpoint.

Definition ubud_completed : checkpoint * option payload :=
  returned (invoke_resume loads_basic repr_basic env_ready (Content "")
              ubud_review.1 "setuju")
    no_checkpoint.

(** The lines the extraction step prints. *)
Definition range_warning : string :=
  "⚠️ Warning: Checkout date invalid, akan diperbaiki oleh user".


Definition banner : string := "🤖 Node: Ekstraksi data dengan Gemini...".

(** ** Notions used in the further properties *)

(** Budgets that [format_display_data] and [format_budget] can show: the
    ones false in Python's sense, and the integers and booleans.  (Of the
    values left out of [json], a [float] can be shown as well.) *)
Definition formattable_budget (v : json) : bool :=
  negb (truthy v)
  || match v with JInt _ | JBool _ => true | _ => false end.

(** What [", ".join] takes: a list of texts, a text, a dict. *)
Definition joinable (v : json) : bool :=
  match v with
  | JList items =>
      forallb (fun item => match item with JStr _ => true | _ => false end) items
  | JStr _ | JObj _ => true
  | _ => false
  end.

(** The exceptions of a value that cannot be formatted or joined. *)
Definition formatting_error (e : exn) : Prop :=
  exn_type e = ValueError \/ exn_type e = TypeError.

(** A computation that stays within the recursion limit: it returns, or
    raises a formatting error. *)
Definition within_limit {A} (m : io A) : Prop :=
  match result m with
  | Returns _ => True
  | Raises e => formatting_error e
  end.

(** The message of a successful extraction. *)
Definition is_success_line (line : string) : bool :=
  String.prefix "✅ Data diekstrak (iterasi " line.

(** How many of the lines satisfy [f]. *)
Fixpoint count_lines (f : string -> bool) (lines : list string) : Z :=
  match lines with
  | [] => 0
  | line :: lines => (if f line then 1 else 0) + count_lines f lines
  end.

(** The counter agrees with the messages. *)
Definition counted (state : BookingState) : Prop :=
  iteration_count state = count_lines is_success_line (messages state).

(** The status [error] comes with the error marker. *)
Definition marked_when_error (state : BookingState) : Prop :=
  status state = "error" ->
  exists marker, extracted_data state = {["error" := JStr marker]}.

(** A call is interrupted exactly when it stops at the review. *)
Definition stopped_at (c : checkpoint) (interrupted : option payload) : Prop :=
  match interrupted with
  | Some _ => next c = Some human_review
  | None => next c = None
  end.

(** Where a session can be: at the review of an extraction, or at the end. *)
Definition pending_or_ended (c : checkpoint) : Prop :=
  (next c = Some human_review
   /\ (status (values c) = "extracted" \/ status (values c) = "error")
   /\ exists p, human_review_node (values c) None = ([], Returns (Interrupt p)))
  \/ (next c = None /\ status (values c) = "completed").

(** Does the character occur in the string? *)
Fixpoint has_char (c : ascii) (s : string) : bool :=
  match s with
  | EmptyString => false
  | String a s' => if ascii_dec c a then true else has_char c s'
  end.

(** A string of decimal digits. *)
Fixpoint digits_only (s : string) : bool :=
  match s with
  | EmptyString => true
  | String a s' => digit_in 0 9 a && digits_only s'
  end.

(** ** Further scenarios *)

(** A session whose first extraction fails: the reply is no JSON. *)
Definition failed_review : checkpoint * option payload :=
  returned (invoke_initial loads_basic repr_basic env_ready
              (Content "Maaf, saya tidak mengerti.")
              (initial_state "hotel di ubud"))
    no_checkpoint.

(** Records with dates and nights that do not agree, or cannot be read. *)
Definition wrong_nights_record : dict :=
  <["jumlah_malam" := JInt 2]> ubud_without_guests.

Definition negative_nights_record : dict :=
  <["jumlah_malam" := JInt (-5)]> five_nights_record.

Definition unreadable_checkin_record : dict :=
  list_to_map [("tanggal_checkin", JStr "20 Juni 2025");
               ("tanggal_checkout", JStr "2025-06-25")].

(** The collaborator of the example, asked in any call. *)
Definition ubud_replies (call : nat) : reply := Content ubud_text.

Definition ubud_query : string := "hotel di ubud, 20-25 juni 2025, 2 orang".

(** The state a correction of the example leaves for the extraction, and
    the update of that second pass. *)
Definition ubud_asked : BookingState :=
  apply_update (values ubud_review.1) {|
    upd_user_input := Some "Untuk 2 Orang";
    upd_extracted_data := None;
    upd_iteration_count := None;
    upd_status := None;
    upd_messages :=
      Some (messages (values ubud_review.1)
            ++ ["🔄 Memproses input tambahan: " +:+ "Untuk 2 Orang"])
  |}.

Definition ubud_second_pass : Update :=
  returned (extract_data_node loads_basic env_ready (Content ubud_text) ubud_asked)
    no_update.

(** * Properties *)

(** ** Computations in [io] *)

Lemma bind_returns_inv {A B} (m : io A) (f : A -> io B) out b :
  bind m f = (out, Returns b) ->
  exists o1 a o2, m = (o1, Returns a) /\ f a = (o2, Returns b) /\ out = o1 ++ o2.
Proof.
  destruct m as [o1 [a|e]]; simpl; [|discriminate].
  destruct (f a) as [o2 r] eqn:Hf. intros [= <- ->]. eauto 6.
Qed.

Lemma bind_returns {A B} (f : A -> io B) o1 a :
  bind (o1, Returns a) f = (o1 ++ stdout (f a), result (f a)).
Proof. simpl. by destruct (f a). Qed.

Lemma bind_ret {A B} (f : A -> io B) a : bind (ret a) f = f a.
Proof. unfold ret. rewrite bind_returns. by destruct (f a). Qed.

Lemma bind_silent {A B} (m : io A) (f : A -> io B) :
  stdout m = [] -> (forall a, stdout (f a) = []) -> stdout (bind m f) = [].
Proof.
  destruct m as [o [a|e]]; simpl; intros -> Hf; [|done].
  specialize (Hf a). by destruct (f a).
Qed.

Arguments replace : simpl never.
Arguments format_comma : simpl never.
Arguments str_int : simpl never.
Arguments indonesian : simpl never.
Arguments strftime_dBY : simpl never.
Arguments strftime_ymd : simpl never.
Arguments strptime_ymd : simpl never.
Arguments join : simpl never.
Arguments lower : simpl never.

(** ** The review gate *)

Lemma display_date_returns v : exists w, display_date v = ([], Returns w).
Proof.
  unfold display_date, strptime.
  destruct v; simpl; eauto. destruct (strptime_ymd s); simpl; eauto.
Qed.

Lemma format_with_comma_silent v : stdout (format_with_comma v) = [].
Proof. by destruct v. Qed.

(** [format_display_data] prints nothing. *)
Lemma format_display_data_stdout data : stdout (format_display_data data) = [].
Proof.
  unfold format_display_data.
  destruct (display_date_returns (get data "tanggal_checkin")) as [w1 H1].
  destruct (display_date_returns (get data "tanggal_checkout")) as [w2 H2].
  rewrite H1, H2.
  apply bind_silent.
  { destruct (truthy (get data "budget")); [|done].
    apply bind_silent; [apply format_with_comma_silent | done]. }
  intros d1. apply bind_silent; [by destruct (truthy _) |].
  intros d2. apply bind_silent; [by destruct (truthy _) | done].
Qed.

(** The review suspended with [state] exactly when the record could be
    formatted for display; the decision is then read by the same code. *)
Lemma human_review_node_suspended state out p :
  human_review_node state None = (out, Returns (Interrupt p)) ->
  exists display_data,
    format_display_data (extracted_data state) = ([], Returns display_data).
Proof.
  unfold human_review_node. intros H.
  apply bind_returns_inv in H as (o1 & dd & o2 & Hf & _ & _).
  pose proof (format_display_data_stdout (extracted_data state)) as Ho.
  rewrite Hf in Ho. simpl in Ho. subst o1. eauto.
Qed.

(** The loop over the required fields collects, in their order, the labels
    of the fields whose value is false. *)
Lemma missing_labels_filter extracted_data :
  missing_labels extracted_data
  = (filter (fun fl => truthy (get extracted_data fl.1) = false) required_fields).*2.
Proof.
  unfold missing_labels, required_fields. simpl.
  rewrite !filter_cons, filter_nil. simpl.
  destruct (truthy (get extracted_data "lokasi")),
    (truthy (get extracted_data "tanggal_checkin")),
    (truthy (get extracted_data "jumlah_malam")),
    (truthy (get extracted_data "jumlah_tamu")); reflexivity.
Qed.

Lemma missing_labels_elem extracted_data field label :
  (field, label) ∈ required_fields ->
  label ∈ missing_labels extracted_data <-> truthy (get extracted_data field) = false.
Proof.
  intros Hin. rewrite missing_labels_filter.
  rewrite list_elem_of_fmap. split.
  - intros [[f l] [-> Hf]]. apply list_elem_of_filter in Hf as [Hf Hr].
    simpl in *. unfold required_fields in *.
    repeat (apply elem_of_cons in Hin as [Hin|Hin]; [|]);
      try (by apply elem_of_nil in Hin);
      repeat (apply elem_of_cons in Hr as [Hr|Hr]; [|]);
      try (by apply elem_of_nil in Hr);
      by simplify_eq.
  - intros Hf. exists (field, label). split; [done|].
    apply list_elem_of_filter. done.
Qed.

Lemma string_app_assoc (a b c : string) : (a +:+ b) +:+ c = a +:+ b +:+ c.
Proof.
  induction a as [|x a IH]; [done|].
  change (String x ((a +:+ b) +:+ c) = String x (a +:+ b +:+ c)). by rewrite IH.
Qed.

Lemma string_app_nil_r (a : string) : a +:+ "" = a.
Proof.
  induction a as [|x a IH]; [done|].
  change (String x (a +:+ "") = String x a). by rewrite IH.
Qed.

(** A label that is joined appears in the joined text. *)
Lemma join_contains sep label (labels : list string) :
  label ∈ labels ->
  exists before after, join sep labels = before +:+ label +:+ after.
Proof.
  unfold join. induction labels as [|x l IH]; intros Hin.
  - by apply elem_of_nil in Hin.
  - apply elem_of_cons in Hin as [->|Hin].
    + destruct l as [|y l]; simpl.
      * exists "", "". by rewrite string_app_nil_r.
      * by exists "", (sep +:+ String.concat sep (y :: l)).
    + destruct (IH Hin) as (b & a & Heq).
      destruct l as [|y l]; [by apply elem_of_nil in Hin|].
      exists (x +:+ sep +:+ b), a.
      change (String.concat sep (x :: y :: l))
        with (x +:+ sep +:+ String.concat sep (y :: l)).
      rewrite Heq. by rewrite !string_app_assoc.
Qed.

Lemma finish_is_not_affirm s : py_in s finish = true -> py_in s affirm = false.
Proof.
  unfold py_in, finish, affirm. simpl. rewrite !orb_false_r.
  intros [H|H]%orb_true_iff; apply String.eqb_eq in H; by subst.
Qed.

(** The node, once the review is suspended and a decision comes back. *)
Lemma human_review_node_resumed state out p human_decision :
  human_review_node state None = (out, Returns (Interrupt p)) ->
  exists display_data,
    human_review_node state (Some human_decision)
    = interrupt (Some human_decision) (review_payload state display_data)
        (fun human_decision =>
           if py_in (lower human_decision) affirm then
             match missing_labels (extracted_data state) with
             | (_ :: _) as missing =>
                 ret (Route {|
                   goto := extract_data;
                   update := {|
                     upd_user_input :=
                       Some ("Data masih kurang: " +:+ join ", " missing
                             +:+ ". Silakan lengkapi informasi yang belum disebutkan.");
                     upd_extracted_data := None;
                     upd_iteration_count := None;
                     upd_status := None;
                     upd_messages :=
                       Some (messages state
                             ++ ["⚠️ Data belum lengkap: " +:+ join ", " missing])
                   |}
                 |})
             | [] => ret (Route {| goto := finalize; update := no_update |})
             end
           else if py_in (lower human_decision) finish then
             ret (Route {| goto := finalize; update := no_update |})
           else
             ret (Route {|
               goto := extract_data;
               update := {|
                 upd_user_input := Some human_decision;
                 upd_extracted_data := None;
                 upd_iteration_count := None;
                 upd_status := None;
                 upd_messages :=
                   Some (messages state
                         ++ ["🔄 Memproses input tambahan: " +:+ human_decision])
               |}
             |})).
Proof.
  intros H. destruct (human_review_node_suspended _ _ _ H) as [dd Hdd].
  exists dd. unfold human_review_node. rewrite Hdd.
  rewrite bind_returns. simpl.
  by repeat case_match.
Qed.

(** C4, as the code has it.  When the decision, in lower case, is one of
    the affirm words, the gate looks at the four required fields
    (location, check-in date, nights, guest count), and what it tests of a
    field is the truth value of what [get] returns: a field counts as
    missing when it is absent, null, or present with a value that is false
    in Python's sense (0 nights, 0 guests, an empty location).  If some
    count as missing it routes to the extraction step with a [user_input]
    that names exactly their labels, in their order, and appends an audit
    message; if all four are true it routes to finalisation.  The
    statement is about every state at which the review was suspended,
    which is where a decision is read. *)
Theorem affirm_checks_required_fields state human_decision out p :
  human_review_node state None = (out, Returns (Interrupt p)) ->
  py_in (lower human_decision) affirm = true ->
  required_fields.*1 = ["lokasi"; "tanggal_checkin"; "jumlah_malam"; "jumlah_tamu"]
  /\ let missing :=
       (filter (fun fl => truthy (get (extracted_data state) fl.1) = false)
               required_fields).*2 in
     human_review_node state (Some human_decision)
     = ([], Returns (Route
         match missing with
         | [] => {| goto := finalize; update := no_update |}
         | _ => {|
             goto := extract_data;
             update := {|
               upd_user_input :=
                 Some ("Data masih kurang: " +:+ join ", " missing
                       +:+ ". Silakan lengkapi informasi yang belum disebutkan.");
               upd_extracted_data := None;
               upd_iteration_count := None;
               upd_status := None;
               upd_messages :=
                 Some (messages state
                       ++ ["⚠️ Data belum lengkap: " +:+ join ", " missing])
             |}
           |}
         end)).
Proof.
  intros Hs Ha. split; [done|].
  destruct (human_review_node_resumed _ _ _ human_decision Hs) as [dd ->].
  unfold interrupt. rewrite Ha, <- missing_labels_filter.
  by destruct (missing_labels (extracted_data state)).
Qed.

Lemma review_of_ubud_without_guests_suspends :
  exists p,
    human_review_node (reviewing ubud_without_guests) None
    = ([], Returns (Interrupt p)).
Proof. eexists. vm_compute. reflexivity. Qed.

Lemma affirm_checks_required_fields_witness :
  exists p,
    human_review_node (reviewing ubud_without_guests) None
    = ([], Returns (Interrupt p))
    /\ py_in (lower "Setuju") affirm = true
    /\ human_review_node (reviewing ubud_without_guests) (Some "Setuju")
       = ([], Returns (Route {|
           goto := extract_data;
           update := {|
             upd_user_input :=
               Some "Data masih kurang: jumlah tamu. Silakan lengkapi informasi yang belum disebutkan.";
             upd_extracted_data := None;
             upd_iteration_count := None;
             upd_status := None;
             upd_messages :=
               Some ["✅ Data diekstrak (iterasi 1)";
                     "⚠️ Data belum lengkap: jumlah tamu"]
           |}
         |})).
Proof.
  destruct review_of_ubud_without_guests_suspends as [p Hp].
  exists p. split; [exact Hp|]. split; [reflexivity|].
  destruct (affirm_checks_required_fields _ "Setuju" _ _ Hp eq_refl) as [_ ->].
  vm_compute. reflexivity.
Defined.

(** With the four fields present the same decision finalises. *)
Example affirm_with_all_fields_finalizes :
  human_review_node (reviewing ubud_complete) (Some "OK")
  = ([], Returns (Route {| goto := finalize; update := no_update |})).
Proof. vm_compute. reflexivity. Qed.

(** All four fields are present, the guest count with the value 0: the
    affirm decision does not finalise, the guest count is asked for. *)
Lemma present_field_with_value_zero_is_asked_for :
  ubud_zero_guests !! "lokasi" = Some (JStr "Ubud")
  /\ ubud_zero_guests !! "tanggal_checkin" = Some (JStr "2025-06-20")
  /\ ubud_zero_guests !! "jumlah_malam" = Some (JInt 5)
  /\ ubud_zero_guests !! "jumlah_tamu" = Some (JInt 0)
  /\ py_in (lower "setuju") affirm = true
  /\ human_review_node (reviewing ubud_zero_guests) (Some "setuju")
     = ([], Returns (Route {|
         goto := extract_data;
         update := {|
           upd_user_input :=
             Some "Data masih kurang: jumlah tamu. Silakan lengkapi informasi yang belum disebutkan.";
           upd_extracted_data := None;
           upd_iteration_count := None;
           upd_status := None;
           upd_messages :=
             Some ["✅ Data diekstrak (iterasi 1)";
                   "⚠️ Data belum lengkap: jumlah tamu"]
         |}
       |})).
Proof. repeat split; vm_compute; reflexivity. Qed.

(** C5. When the decision, in lower case, is one of the finish words, the
    gate routes to finalisation whatever the record holds: the required
    fields are not looked at. *)
Theorem finish_bypasses_completeness state human_decision out p :
  human_review_node state None = (out, Returns (Interrupt p)) ->
  py_in (lower human_decision) finish = true ->
  human_review_node state (Some human_decision)
  = ([], Returns (Route {| goto := finalize; update := no_update |})).
Proof.
  intros Hs Hf.
  destruct (human_review_node_resumed _ _ _ human_decision Hs) as [dd ->].
  unfold interrupt. by rewrite (finish_is_not_affirm _ Hf), Hf.
Qed.

Lemma review_of_empty_record_suspends :
  exists p, human_review_node (reviewing ∅) None = ([], Returns (Interrupt p)).
Proof. eexists. vm_compute. reflexivity. Qed.

Lemma finish_bypasses_completeness_witness :
  exists p,
    human_review_node (reviewing ∅) None = ([], Returns (Interrupt p))
    /\ py_in (lower "SELESAI") finish = true
    /\ missing_labels ∅
       = ["lokasi tujuan"; "tanggal check-in"; "jumlah malam"; "jumlah tamu"]
    /\ human_review_node (reviewing ∅) (Some "SELESAI")
       = ([], Returns (Route {| goto := finalize; update := no_update |})).
Proof.
  destruct review_of_empty_record_suspends as [p Hp].
  exists p. split; [exact Hp|]. split; [reflexivity|]. split; [reflexivity|].
  exact (finish_bypasses_completeness _ "SELESAI" _ _ Hp eq_refl).
Defined.

(** C10. On an affirmative decision a required field whose value is false
    in Python's sense (nights 0, guest count 0, an empty location) counts
    as missing: the gate routes back to the extraction step and the
    [user_input] it writes names the field's label. *)
Theorem falsy_required_field_is_missing state human_decision out p field label :
  human_review_node state None = (out, Returns (Interrupt p)) ->
  py_in (lower human_decision) affirm = true ->
  (field, label) ∈ required_fields ->
  truthy (get (extracted_data state) field) = false ->
  truthy (JInt 0) = false /\ truthy (JStr "") = false
  /\ exists missing before after,
       label ∈ missing
       /\ join ", " missing = before +:+ label +:+ after
       /\ human_review_node state (Some human_decision)
          = ([], Returns (Route {|
              goto := extract_data;
              update := {|
                upd_user_input :=
                  Some ("Data masih kurang: " +:+ join ", " missing
                        +:+ ". Silakan lengkapi informasi yang belum disebutkan.");
                upd_extracted_data := None;
                upd_iteration_count := None;
                upd_status := None;
                upd_messages :=
                  Some (messages state
                        ++ ["⚠️ Data belum lengkap: " +:+ join ", " missing])
              |}
            |})).
Proof.
  intros Hs Ha Hreq Hfalse. do 2 (split; [done|]).
  pose proof (proj2 (missing_labels_elem _ _ _ Hreq) Hfalse) as Hin.
  destruct (join_contains ", " _ _ Hin) as (before & after & Hjoin).
  exists (missing_labels (extracted_data state)), before, after.
  do 2 (split; [done|]).
  destruct (human_review_node_resumed _ _ _ human_decision Hs) as [dd ->].
  unfold interrupt. rewrite Ha.
  destruct (missing_labels (extracted_data state)); [|done].
  by apply elem_of_nil in Hin.
Qed.

Lemma review_of_ubud_zero_nights_suspends :
  exists p,
    human_review_node (reviewing ubud_zero_nights) None
    = ([], Returns (Interrupt p)).
Proof. eexists. vm_compute. reflexivity. Qed.

Lemma falsy_required_field_is_missing_witness :
  exists p,
    human_review_node (reviewing ubud_zero_nights) None
    = ([], Returns (Interrupt p))
    /\ py_in (lower "setuju") affirm = true
    /\ ("jumlah_malam", "jumlah malam") ∈ required_fields
    /\ get (extracted_data (reviewing ubud_zero_nights)) "jumlah_malam" = JInt 0
    /\ exists u,
         human_review_node (reviewing ubud_zero_nights) (Some "setuju")
         = ([], Returns (Route {| goto := extract_data; update := u |}))
         /\ upd_user_input u
            = Some "Data masih kurang: jumlah malam. Silakan lengkapi informasi yang belum disebutkan.".
Proof.
  destruct review_of_ubud_zero_nights_suspends as [p Hp].
  exists p. split; [exact Hp|]. split; [reflexivity|].
  split; [by apply (bool_decide_unpack _)|]. split; [reflexivity|].
  destruct (falsy_required_field_is_missing _ "setuju" _ _
              "jumlah_malam" "jumlah malam" Hp eq_refl)
    as (_ & _ & missing & before & after & _ & _ & Hrun).
  - by apply (bool_decide_unpack _).
  - reflexivity.
  - eexists. split; [vm_compute; reflexivity | vm_compute; reflexivity].
Defined.

(** ** The extraction step *)

Section Extraction.

Context (json_loads : string -> outcome json).

Lemma extract_data_node_unavailable env r state :
  setup_gemini env = None ->
  extract_data_node json_loads env r state
  = ([banner],
     Returns (error_update state "Gemini not available" "❌ Gemini tidak tersedia")).
Proof. unfold extract_data_node. by intros ->. Qed.

Lemma extract_data_node_undecoded env m r state e :
  setup_gemini env = Some m ->
  decoded_record json_loads r = Raises e ->
  extract_data_node json_loads env r state
  = ([banner; "❌ Error ekstraksi: " +:+ exn_str e],
     Returns (error_update state (exn_str e) ("❌ Error: " +:+ exn_str e))).
Proof.
  unfold extract_data_node, decoded_record. intros -> H.
  destruct r as [e'|text]; simpl in *; [by simplify_eq|].
  destruct (json_loads (clean_response text)) as [v|e']; simpl in *; [|by simplify_eq].
  destruct v; simpl in *; by simplify_eq.
Qed.

Lemma extract_data_node_decoded env m r state C :
  setup_gemini env = Some m ->
  decoded_record json_loads r = Returns C ->
  extract_data_node json_loads env r state
  = match reconcile_dates C with
    | (out, Returns D) => (banner :: out, Returns (extracted_update state D))
    | (out, Raises e) =>
        (banner :: out ++ ["❌ Error ekstraksi: " +:+ exn_str e],
         Returns (error_update state (exn_str e) ("❌ Error: " +:+ exn_str e)))
    end.
Proof.
  unfold extract_data_node, decoded_record. intros -> H.
  destruct r as [e'|text]; simpl in *; [by simplify_eq|].
  destruct (json_loads (clean_response text)) as [v|e']; simpl in *; [|by simplify_eq].
  destruct v; simpl in *; simplify_eq.
  destruct (reconcile_dates (dict_of_items items)) as [out [D|e]]; simpl;
    by rewrite ?app_nil_r.
Qed.

End Extraction.

(** ** Dates *)

Lemma strptime_ymd_valid s d : strptime_ymd s = Some d -> valid_date d = true.
Proof.
  unfold strptime_ymd. destruct (match_ymd s) as [[d' [|? ?]]|]; [|done..].
  destruct (valid_date d') eqn:Hv; [|done]. by intros [= <-].
Qed.

Lemma strptime_ymd_truthy s d : strptime_ymd s = Some d -> truthy (JStr s) = true.
Proof. by destruct s. Qed.

Lemma strptime_of_str s d : strptime_ymd s = Some d -> strptime (JStr s) = ret d.
Proof. unfold strptime. by intros ->. Qed.

Lemma days_before_year_bounds y :
  1 <= y <= 9999 -> 0 <= days_before_year y <= 3651694.
Proof. unfold days_before_year. intros. Z.div_mod_to_equations. lia. Qed.

Lemma days_before_leap_year_bounds y :
  1 <= y <= 9999 -> is_leap y = true -> 0 <= days_before_year y <= 3650599.
Proof.
  unfold is_leap, days_before_year. intros Hy [H4 _]%andb_true_iff.
  apply Z.eqb_eq in H4. Z.div_mod_to_equations. lia.
Qed.

Lemma toordinal_bounds d : valid_date d = true -> 1 <= toordinal d <= MAXORDINAL.
Proof.
  unfold valid_date, toordinal, MAXORDINAL. destruct d as [y m dd]. simpl.
  rewrite !andb_true_iff, !Z.leb_le. intros [[[[[Hy1 Hy2] Hm1] Hm2] Hd1] Hd2].
  pose proof (days_before_year_bounds y (conj Hy1 Hy2)).
  pose proof (days_before_leap_year_bounds y (conj Hy1 Hy2)).
  unfold days_in_month, days_before_month in *.
  assert (m = 1 \/ m = 2 \/ m = 3 \/ m = 4 \/ m = 5 \/ m = 6 \/ m = 7
          \/ m = 8 \/ m = 9 \/ m = 10 \/ m = 11 \/ m = 12) as Hm by lia.
  destruct (is_leap y);
    repeat (destruct Hm as [->|Hm]); try subst m; simpl in *; lia.
Qed.

Lemma holds_from_spec f start count z :
  holds_from f start count = true ->
  start <= z < start + Z.of_nat count -> f z = true.
Proof.
  revert start. induction count as [|count IH]; intros start H Hz; [lia|].
  simpl in H. apply andb_true_iff in H as [H0 H].
  destruct (Z.eq_dec z start) as [->|]; [done|].
  apply (IH (start + 1)); [done|lia].
Qed.

Lemma year_checked : holds_from year_ok 1000 (Z.to_nat 9000) = true.
Proof. vm_compute. reflexivity. Qed.

Lemma short_year_checked : holds_from short_year_ok 1 999 = true.
Proof. vm_compute. reflexivity. Qed.

Lemma md_checked : holds_from (fun m => holds_from (md_ok m) 1 31) 1 12 = true.
Proof. vm_compute. reflexivity. Qed.

Lemma month_day_checked :
  holds_from (month_day_ok false) 0 365 = true
  /\ holds_from (month_day_ok true) 0 366 = true.
Proof. split; vm_compute; reflexivity. Qed.

Lemma month_day_ok_spec leapyear n :
  month_day_ok leapyear n = true ->
  exists m d,
    month_day leapyear n = (m, d)
    /\ 1 <= m <= 12
    /\ 1 <= d <= DAYS_IN_MONTH m + (if (m =? 2) && leapyear then 1 else 0)
    /\ DAYS_BEFORE_MONTH m + (if (2 <? m) && leapyear then 1 else 0) + d = n + 1.
Proof.
  unfold month_day_ok. generalize (month_day leapyear n). intros [m d] H.
  apply andb_true_iff in H as [H H5].
  apply andb_true_iff in H as [H H4].
  apply andb_true_iff in H as [H H3].
  apply andb_true_iff in H as [H1 H2].
  apply Z.leb_le in H1. apply Z.leb_le in H2. apply Z.leb_le in H3.
  apply Z.leb_le in H4. apply Z.eqb_eq in H5.
  exists m, d. split; [reflexivity|]. split; [lia|]. split; [lia|]. exact H5.
Qed.

Lemma month_day_spec (leapyear : bool) n :
  0 <= n < (if leapyear then 366 else 365) ->
  exists m d,
    month_day leapyear n = (m, d)
    /\ 1 <= m <= 12
    /\ 1 <= d <= DAYS_IN_MONTH m + (if (m =? 2) && leapyear then 1 else 0)
    /\ DAYS_BEFORE_MONTH m + (if (2 <? m) && leapyear then 1 else 0) + d = n + 1.
Proof.
  intros Hn. apply month_day_ok_spec.
  destruct month_day_checked as [Hf Ht]. destruct leapyear.
  - apply (holds_from_spec _ _ _ _ Ht). lia.
  - apply (holds_from_spec _ _ _ _ Hf). lia.
Qed.

(** The year that starts after [a] cycles of 400 years, [b] of 100, [c] of 4
    and [d] years. *)
Lemma days_before_year_parts a b c d :
  0 <= b <= 3 -> 0 <= c <= 24 -> 0 <= d <= 3 ->
  days_before_year (a * 400 + 1 + b * 100 + c * 4 + d)
  = DI400Y * a + DI100Y * b + DI4Y * c + 365 * d.
Proof.
  intros. unfold days_before_year, DI400Y, DI100Y, DI4Y.
  Z.div_mod_to_equations. lia.
Qed.

Lemma is_leap_parts a b c d :
  0 <= b <= 3 -> 0 <= c <= 24 -> 0 <= d <= 3 ->
  is_leap (a * 400 + 1 + b * 100 + c * 4 + d)
  = (d =? 3) && (negb (c =? 24) || (b =? 3)).
Proof.
  intros Hb Hc Hd. unfold is_leap.
  set (y := a * 400 + 1 + b * 100 + c * 4 + d).
  assert (y mod 4 = (d + 1) mod 4) as H4
    by (subst y; Z.div_mod_to_equations; lia).
  assert (y mod 100 = (c * 4 + d + 1) mod 100) as H100
    by (subst y; Z.div_mod_to_equations; lia).
  assert (y mod 400 = (b * 100 + c * 4 + d + 1) mod 400) as H400
    by (subst y; Z.div_mod_to_equations; lia).
  rewrite H4, H100, H400. clear H4 H100 H400 y.
  destruct (Z.eqb_spec d 3) as [->|Hd3].
  - destruct (Z.eqb_spec c 24) as [->|Hc24].
    + destruct (Z.eqb_spec b 3) as [->|Hb3]; [reflexivity|].
      cbn [negb orb andb].
      assert ((b * 100 + 24 * 4 + 3 + 1) mod 400 <> 0)
        by (Z.div_mod_to_equations; lia).
      destruct (Z.eqb_spec ((b * 100 + 24 * 4 + 3 + 1) mod 400) 0); [done|].
      reflexivity.
    + cbn [negb orb andb].
      assert ((c * 4 + 3 + 1) mod 100 <> 0) by (Z.div_mod_to_equations; lia).
      destruct (Z.eqb_spec ((c * 4 + 3 + 1) mod 100) 0); [done|].
      reflexivity.
  - assert ((d + 1) mod 4 <> 0) by (Z.div_mod_to_equations; lia).
    destruct (Z.eqb_spec ((d + 1) mod 4) 0); [done|]. reflexivity.
Qed.

Lemma fromordinal_parts n :
  exists a b c d r,
    n - 1 = DI400Y * a + DI100Y * b + DI4Y * c + 365 * d + r
    /\ (0 <= b <= 4 /\ 0 <= c <= 24 /\ 0 <= d <= 4 /\ 0 <= r < 365)
    /\ (b = 4 -> c = 0 /\ d = 0 /\ r = 0)
    /\ (d = 4 -> r = 0 /\ c <= 23)
    /\ 0 <= DI100Y * b + DI4Y * c + 365 * d + r < DI400Y
    /\ fromordinal n
       = if (d =? 4) || (b =? 4)
         then Date (a * 400 + 1 + b * 100 + c * 4 + d - 1) 12 31
         else
           let '(m, dd) :=
             month_day ((d =? 3) && (negb (c =? 24) || (b =? 3))) r in
           Date (a * 400 + 1 + b * 100 + c * 4 + d) m dd.
Proof.
  exists ((n - 1) / DI400Y),
         ((n - 1) mod DI400Y / DI100Y),
         ((n - 1) mod DI400Y mod DI100Y / DI4Y),
         ((n - 1) mod DI400Y mod DI100Y mod DI4Y / 365),
         ((n - 1) mod DI400Y mod DI100Y mod DI4Y mod 365).
  split; [|split; [|split; [|split; [|split]]]].
  6: reflexivity.
  all: unfold DI400Y, DI100Y, DI4Y; Z.div_mod_to_equations; lia.
Qed.

Lemma toordinal_fromordinal n : toordinal (fromordinal n) = n.
Proof.
  destruct (fromordinal_parts n)
    as (a & b & c & d & r & Hn & (Hb & Hc & Hd & Hr) & Hb4 & Hd4 & _ & ->).
  destruct (Z.eqb_spec d 4) as [->|Hd'].
  - destruct (Hd4 eq_refl) as [-> Hc']. cbn [orb].
    replace (a * 400 + 1 + b * 100 + c * 4 + 4 - 1)
      with (a * 400 + 1 + b * 100 + c * 4 + 3) by lia.
    assert (b <> 4) as Hb' by (intros ->; destruct (Hb4 eq_refl) as (_ & ? & _); lia).
    unfold toordinal, days_before_month. cbn [year month day].
    rewrite days_before_year_parts, is_leap_parts by lia.
    destruct (Z.eqb_spec c 24) as [->|_]; [lia|].
    unfold DI400Y, DI100Y, DI4Y in *. cbn. lia.
  - destruct (Z.eqb_spec b 4) as [->|Hb'].
    + destruct (Hb4 eq_refl) as (-> & -> & ->). cbn [orb].
      replace (a * 400 + 1 + 4 * 100 + 0 * 4 + 0 - 1)
        with (a * 400 + 1 + 3 * 100 + 24 * 4 + 3) by lia.
      unfold toordinal, days_before_month. cbn [year month day].
      rewrite days_before_year_parts, is_leap_parts by lia.
      unfold DI400Y, DI100Y, DI4Y in *. cbn. lia.
    + cbn [orb].
      destruct (month_day_spec ((d =? 3) && (negb (c =? 24) || (b =? 3))) r)
        as (m & dd & -> & Hm & Hdd & Heq).
      { destruct (_ && _); lia. }
      unfold toordinal, days_before_month. cbn [year month day].
      rewrite days_before_year_parts, is_leap_parts by lia. lia.
Qed.

Lemma fromordinal_valid n :
  1 <= n <= MAXORDINAL -> valid_date (fromordinal n) = true.
Proof.
  intros Hrange.
  destruct (fromordinal_parts n)
    as (a & b & c & d & r & Hn & (Hb & Hc & Hd & Hr) & Hb4 & Hd4 & Hrest & ->).
  assert (0 <= a <= 24) as Ha
    by (unfold DI400Y, DI100Y, DI4Y, MAXORDINAL in *; lia).
  assert (forall y m dd,
             1 <= y <= 9999 -> 1 <= m <= 12 ->
             1 <= dd <= DAYS_IN_MONTH m + (if (m =? 2) && is_leap y then 1 else 0) ->
             valid_date (Date y m dd) = true) as Hvalid.
  { intros y m dd Hy Hm Hdd. unfold valid_date, days_in_month.
    cbn [year month day].
    repeat (apply andb_true_iff; split); apply Z.leb_le; try lia.
    destruct ((m =? 2) && is_leap y) eqn:Hl; [|lia].
    apply andb_true_iff in Hl as [->%Z.eqb_eq _]. cbn in Hdd. lia. }
  destruct (Z.eqb_spec d 4) as [->|Hd'].
  - destruct (Hd4 eq_refl) as [-> Hc']. cbn [orb].
    apply Hvalid; [|lia|cbn; lia].
    unfold DI400Y, DI100Y, DI4Y, MAXORDINAL in *. lia.
  - destruct (Z.eqb_spec b 4) as [->|Hb'].
    + destruct (Hb4 eq_refl) as (-> & -> & ->). cbn [orb].
      apply Hvalid; [|lia|cbn; lia].
      unfold DI400Y, DI100Y, DI4Y, MAXORDINAL in *. lia.
    + cbn [orb].
      destruct (month_day_spec ((d =? 3) && (negb (c =? 24) || (b =? 3))) r)
        as (m & dd & -> & Hm & Hdd & Heq).
      { destruct (_ && _); lia. }
      apply Hvalid; [|lia|].
      * unfold DI400Y, DI100Y, DI4Y, MAXORDINAL in *. lia.
      * rewrite is_leap_parts by lia. exact Hdd.
Qed.

Lemma year_ok_spec y :
  year_ok y = true ->
  exists a b c e,
    strftime_Y y = String a (String b (String c (String e EmptyString)))
    /\ digit_in 0 9 a = true /\ digit_in 0 9 b = true
    /\ digit_in 0 9 c = true /\ digit_in 0 9 e = true
    /\ ((code a - 48) * 10 + (code b - 48)) * 100
       + ((code c - 48) * 10 + (code e - 48)) = y.
Proof.
  unfold year_ok. generalize (strftime_Y y).
  intros [|a [|b [|c [|e [|? ?]]]]]; try discriminate.
  intros H.
  apply andb_true_iff in H as [H H5].
  apply andb_true_iff in H as [H H4].
  apply andb_true_iff in H as [H H3].
  apply andb_true_iff in H as [H1 H2].
  apply Z.eqb_eq in H5. exists a, b, c, e. repeat split; assumption.
Qed.

Lemma re_Y_digits a b c e rest :
  digit_in 0 9 a = true -> digit_in 0 9 b = true ->
  digit_in 0 9 c = true -> digit_in 0 9 e = true ->
  re_Y (String a (String b (String c (String e rest))))
  = [(((code a - 48) * 10 + (code b - 48)) * 100
      + ((code c - 48) * 10 + (code e - 48)), rest)].
Proof.
  intros Ha Hb Hc He. unfold re_Y, two_digits.
  rewrite Ha, Hb. cbn [andb mbind list_bind]. simpl.
  rewrite Hc, He. reflexivity.
Qed.

Lemma md_ok_spec m d :
  md_ok m d = true ->
  exists rest,
    match_md ("-" +:+ pad2 m +:+ "-" +:+ pad2 d) = (m, d, EmptyString) :: rest.
Proof.
  unfold md_ok. generalize (match_md ("-" +:+ pad2 m +:+ "-" +:+ pad2 d)).
  intros [|[[m' d'] [|? ?]] rest]; try discriminate.
  intros [Hm Hd]%andb_true_iff. apply Z.eqb_eq in Hm, Hd. subst. eauto.
Qed.

Lemma strptime_strftime dt :
  valid_date dt = true -> 1000 <= year dt ->
  strptime_ymd (strftime_ymd dt) = Some dt.
Proof.
  intros Hv Hy1000. pose proof Hv as Hv'. destruct dt as [y m d].
  unfold valid_date in Hv'. cbn [year month day] in Hv', Hy1000.
  apply andb_true_iff in Hv' as [Hv' H6].
  apply andb_true_iff in Hv' as [Hv' H5].
  apply andb_true_iff in Hv' as [Hv' H4].
  apply andb_true_iff in Hv' as [Hv' H3].
  apply andb_true_iff in Hv' as [H1 H2].
  apply Z.leb_le in H1, H2, H3, H4, H5, H6.
  assert (d <= 31) as Hd31.
  { unfold days_in_month in H6. destruct ((m =? 2) && is_leap y); [lia|].
    assert (DAYS_IN_MONTH m <= 31); [|lia].
    assert (m = 1 \/ m = 2 \/ m = 3 \/ m = 4 \/ m = 5 \/ m = 6 \/ m = 7
            \/ m = 8 \/ m = 9 \/ m = 10 \/ m = 11 \/ m = 12) as Hm by lia.
    repeat (destruct Hm as [->|Hm]); try subst m; cbn; lia. }
  assert (year_ok y = true) as Hy.
  { apply (holds_from_spec _ _ _ _ year_checked). rewrite Z2Nat.id by done. lia. }
  assert (md_ok m d = true) as Hmd.
  { assert (holds_from (md_ok m) 1 31 = true) as Hm.
    { apply (holds_from_spec (fun m => holds_from (md_ok m) 1 31) _ _ _ md_checked).
      lia. }
    apply (holds_from_spec _ _ _ _ Hm). lia. }
  destruct (year_ok_spec _ Hy) as (a & b & c & e & Hpad & Ha & Hb & Hc & He & Hval).
  destruct (md_ok_spec _ _ Hmd) as [rest Hrest].
  unfold strptime_ymd, match_ymd, strftime_ymd. cbn [year month day].
  rewrite Hpad.
  change (String a (String b (String c (String e EmptyString))) +:+ "-" +:+ pad2 m
          +:+ "-" +:+ pad2 d)
    with (String a (String b (String c (String e ("-" +:+ pad2 m +:+ "-" +:+ pad2 d))))).
  rewrite (re_Y_digits _ _ _ _ _ Ha Hb Hc He), Hval.
  cbn [mbind list_bind]. simpl. rewrite Hrest. cbn. by rewrite Hv.
Qed.

(** The pattern of the year finds no four digits in what [strftime] writes
    for a year below 1000. *)
Lemma re_Y_short_year y rest :
  short_year_ok y = true -> re_Y (strftime_Y y +:+ String "-" rest) = [].
Proof.
  unfold short_year_ok. generalize (strftime_Y y).
  intros [|a [|b [|c [|? ?]]]] H; try discriminate H.
  - change (String a "" +:+ String "-" rest) with (String a (String "-" rest)).
    unfold re_Y. cbn [two_digits]. rewrite H.
    replace (digit_in 0 9 "-") with false by reflexivity. reflexivity.
  - apply andb_true_iff in H as [Ha Hb].
    change (String a (String b "") +:+ String "-" rest)
      with (String a (String b (String "-" rest))).
    unfold re_Y. cbn [two_digits]. rewrite Ha, Hb. cbn [andb mbind list_bind].
    destruct rest as [|x rest]; [reflexivity|].
    cbn [two_digits].
    replace (digit_in 0 9 "-") with false by reflexivity. reflexivity.
  - apply andb_true_iff in H as [H Hc]. apply andb_true_iff in H as [Ha Hb].
    change (String a (String b (String c "")) +:+ String "-" rest)
      with (String a (String b (String c (String "-" rest)))).
    unfold re_Y. cbn [two_digits]. rewrite Ha, Hb. cbn [andb mbind list_bind].
    cbn [two_digits]. rewrite Hc.
    replace (digit_in 0 9 "-") with false by reflexivity. reflexivity.
Qed.

Lemma strptime_strftime_short_year dt :
  valid_date dt = true -> year dt < 1000 ->
  strptime_ymd (strftime_ymd dt) = None.
Proof.
  intros Hv Hy. pose proof Hv as Hv'. unfold valid_date in Hv'.
  repeat apply andb_true_iff in Hv' as [Hv' _].
  apply Z.leb_le in Hv'.
  assert (short_year_ok (year dt) = true) as Hs.
  { apply (holds_from_spec _ _ _ _ short_year_checked). lia. }
  unfold strptime_ymd, match_ymd, strftime_ymd.
  change (strftime_Y (year dt) +:+ "-" +:+ pad2 (month dt) +:+ "-" +:+ pad2 (day dt))
    with (strftime_Y (year dt)
          +:+ String "-" (pad2 (month dt) +:+ "-" +:+ pad2 (day dt))).
  by rewrite (re_Y_short_year _ _ Hs).
Qed.

Lemma strptime_strftime_year dt :
  valid_date dt = true ->
  strptime_ymd (strftime_ymd dt) = if 1000 <=? year dt then Some dt else None.
Proof.
  intros Hv. destruct (Z.leb_spec 1000 (year dt)).
  - by apply strptime_strftime.
  - by apply strptime_strftime_short_year.
Qed.

(** ** Reconciliation of the dates *)

Lemma reconcile_dates_invalid_range C ci co dci dco :
  get C "tanggal_checkin" = JStr ci ->
  get C "tanggal_checkout" = JStr co ->
  strptime_ymd ci = Some dci ->
  strptime_ymd co = Some dco ->
  date_le dco dci = true ->
  reconcile_dates C = ([range_warning], Returns C).
Proof.
  intros Hci Hco Hdci Hdco Hle. unfold reconcile_dates.
  rewrite Hci, Hco, (strptime_ymd_truthy _ _ Hdci), (strptime_ymd_truthy _ _ Hdco).
  cbn [andb].
  rewrite (strptime_of_str _ _ Hdci), (strptime_of_str _ _ Hdco), !bind_ret, Hle.
  reflexivity.
Qed.

Lemma reconcile_dates_derives_checkout C ci d n :
  get C "tanggal_checkin" = JStr ci ->
  strptime_ymd ci = Some d ->
  get C "jumlah_malam" = JInt n ->
  n <> 0 ->
  truthy (get C "tanggal_checkout") = false ->
  0 < toordinal d + n <= MAXORDINAL ->
  reconcile_dates C
  = ([], Returns (<["tanggal_checkout" :=
                      JStr (strftime_ymd (fromordinal (toordinal d + n)))]> C)).
Proof.
  intros Hci Hd Hn Hn0 Hco Hrange. unfold reconcile_dates.
  rewrite Hci, Hn, Hco, (strptime_ymd_truthy _ _ Hd).
  cbn [andb truthy]. destruct (Z.eqb_spec n 0) as [|_]; [done|]. cbn [negb].
  rewrite (strptime_of_str _ _ Hd), bind_ret.
  pose proof (toordinal_bounds d (strptime_ymd_valid _ _ Hd)) as Hb.
  unfold MAXORDINAL in *. unfold timedelta_days.
  destruct (Z.leb_spec (Z.abs n) 999999999) as [_|?]; [|lia].
  rewrite bind_ret. unfold date_add, MAXORDINAL.
  destruct (Z.ltb_spec 0 (toordinal d + n)) as [_|?]; [|lia].
  destruct (Z.leb_spec (toordinal d + n) 3652059) as [_|?]; [|lia].
  reflexivity.
Qed.

(** Whatever the record, the reconciliation returns it as it is, or with
    the nights computed, or with the checkout derived. *)
Lemma reconcile_dates_returns C out D :
  reconcile_dates C = (out, Returns D) ->
  D = C
  \/ (exists n, D = <["jumlah_malam" := JInt n]> C)
  \/ (exists s, D = <["tanggal_checkout" := JStr s]> C).
Proof.
  unfold reconcile_dates, try_except, bind, print, ret, raise.
  repeat case_match; intros; simplify_eq; eauto.
Qed.

Lemma reconcile_dates_result C out D :
  reconcile_dates C = (out, Returns D) ->
  D = C
  \/ (truthy (get C "tanggal_checkin") = true
      /\ truthy (get C "tanggal_checkout") = true
      /\ exists n, D = <["jumlah_malam" := JInt n]> C)
  \/ (truthy (get C "tanggal_checkin") = true
      /\ truthy (get C "tanggal_checkout") = false
      /\ truthy (get C "jumlah_malam") = true
      /\ exists s, D = <["tanggal_checkout" := JStr s]> C).
Proof.
  unfold reconcile_dates.
  destruct (truthy (get C "tanggal_checkin")) eqn:Hi,
    (truthy (get C "tanggal_checkout")) eqn:Ho; cbn [andb].
  - unfold try_except, bind, print, ret, raise.
    repeat case_match; intros; simplify_eq; first [by left | right; left; eauto].
  - destruct (truthy (get C "jumlah_malam")) eqn:Hn; [|intros [= _ <-]; by left].
    unfold try_except, bind, print, ret, raise.
    repeat case_match; intros; simplify_eq;
      first [by left | right; right; eauto 10].
  - intros [= _ <-]; by left.
  - intros [= _ <-]; by left.
Qed.

Lemma reconcile_dates_other_fields C out D k :
  reconcile_dates C = (out, Returns D) ->
  k <> "jumlah_malam" -> k <> "tanggal_checkout" ->
  D !! k = C !! k.
Proof.
  intros H Hk1 Hk2.
  destruct (reconcile_dates_returns _ _ _ H) as [->|[[n ->]|[s ->]]];
    [done| |]; by rewrite lookup_insert_ne.
Qed.

Section ExtractionProperties.

Context (json_loads : string -> outcome json) (py_repr : json -> string).

(** What the extraction step returns: the update of a success, or the
    update of a failure.  It does not raise. *)
Lemma extract_data_node_cases env r state :
  exists out,
    (exists D, extract_data_node json_loads env r state
               = (out, Returns (extracted_update state D)))
    \/ (exists marker line,
          extract_data_node json_loads env r state
          = (out, Returns (error_update state marker line))).
Proof.
  destruct (setup_gemini env) as [m|] eqn:Hm.
  - destruct (decoded_record json_loads r) as [C|e] eqn:HC.
    + rewrite (extract_data_node_decoded _ _ _ _ _ _ Hm HC).
      destruct (reconcile_dates C) as [out [D|e]]; eauto 6.
    + rewrite (extract_data_node_undecoded _ _ _ _ _ _ Hm HC). eauto 6.
  - rewrite (extract_data_node_unavailable _ _ _ _ Hm). eauto 6.
Qed.

(** C1, as the code has it.  The extraction step does not merge: after a
    pass that succeeds, the record in the state is what the reconciliation
    of the dates makes of the candidate record decoded from the reply, and
    nothing of the record held before enters it.  The reconciliation
    leaves the candidate as it is, or sets its nights (when it holds both
    dates), or sets its checkout (when it holds a check-in and nights and
    no checkout).  Every other field holds what the candidate holds, and
    is absent when the candidate lacks it. *)
Theorem extraction_keeps_candidate_fields env r state C out u :
  decoded_record json_loads r = Returns C ->
  extract_data_node json_loads env r state = (out, Returns u) ->
  upd_status u = Some "extracted" ->
  exists printed D,
    reconcile_dates C = (printed, Returns D)
    /\ extracted_data (apply_update state u) = D
    /\ (D = C
        \/ (truthy (get C "tanggal_checkin") = true
            /\ truthy (get C "tanggal_checkout") = true
            /\ exists n, D = <["jumlah_malam" := JInt n]> C)
        \/ (truthy (get C "tanggal_checkin") = true
            /\ truthy (get C "tanggal_checkout") = false
            /\ truthy (get C "jumlah_malam") = true
            /\ exists s, D = <["tanggal_checkout" := JStr s]> C))
    /\ forall k, k <> "jumlah_malam" -> k <> "tanggal_checkout" ->
                 D !! k = C !! k.
Proof.
  intros HC Hrun Hst.
  destruct (setup_gemini env) as [m|] eqn:Hm.
  - rewrite (extract_data_node_decoded _ _ _ _ _ _ Hm HC) in Hrun.
    destruct (reconcile_dates C) as [o [D|e]] eqn:HD; simplify_eq.
    exists o, D. split; [reflexivity|]. split; [reflexivity|].
    split; [exact (reconcile_dates_result _ _ _ HD)|].
    intros k Hk1 Hk2. exact (reconcile_dates_other_fields _ _ _ _ HD Hk1 Hk2).
  - rewrite (extract_data_node_unavailable _ _ _ _ Hm) in Hrun. by simplify_eq.
Qed.

(** The steps of the runner, one node at a time. *)
Lemma pregel_loop_extract_data steps env r resume state :
  pregel_loop json_loads py_repr (S steps) env r (Some extract_data) resume state
  = bind (extract_data_node json_loads env r state)
      (fun u => pregel_loop json_loads py_repr steps env r (Some human_review)
                  resume (apply_update state u)).
Proof. reflexivity. Qed.

Lemma pregel_loop_human_review steps env r resume state :
  pregel_loop json_loads py_repr (S steps) env r (Some human_review) resume state
  = bind (human_review_node state resume)
      (fun rv =>
         match rv with
         | Interrupt value =>
             ret ({| values := state; next := Some human_review |}, Some value)
         | Route c =>
             pregel_loop json_loads py_repr steps env r (Some (goto c)) None
               (apply_update state (update c))
         end).
Proof. reflexivity. Qed.

Lemma pregel_loop_finalize steps env r resume state :
  pregel_loop json_loads py_repr (S steps) env r (Some finalize) resume state
  = bind (finalize_node py_repr state)
      (fun u => pregel_loop json_loads py_repr steps env r None resume
                  (apply_update state u)).
Proof. reflexivity. Qed.

Lemma pregel_loop_END steps env r resume state :
  pregel_loop json_loads py_repr steps env r None resume state
  = ret ({| values := state; next := None |}, None).
Proof. by destruct steps. Qed.

(** A record that holds only the error marker can be shown for review. *)
Lemma review_of_error_marker state marker :
  extracted_data state = {["error" := JStr marker]} ->
  exists p, human_review_node state None = ([], Returns (Interrupt p)).
Proof.
  intros H. unfold human_review_node, format_display_data. rewrite H.
  assert (forall k, k <> "error" -> get {["error" := JStr marker]} k = JNull) as Hget.
  { intros k Hk. unfold get. by rewrite lookup_singleton_ne. }
  rewrite !Hget by done. cbn [truthy]. rewrite !bind_ret. eauto.
Qed.

(** C2. When the collaborator is unavailable, or its reply does not decode
    to a record (the call raises, the decoder raises, the decoded value is
    no record), or the record holds dates or nights of a type the date
    arithmetic rejects, the extraction step returns (it does not raise):
    the record of the state becomes an error marker, one diagnostic line
    is appended to the messages, and the run goes on to the review, where
    it is suspended. *)
Theorem extraction_failure_reaches_review env r state :
  setup_gemini env = None
  \/ (exists e, decoded_record json_loads r = Raises e)
  \/ (exists C printed e,
        decoded_record json_loads r = Returns C
        /\ reconcile_dates C = (printed, Raises e)) ->
  exists out marker line,
    extract_data_node json_loads env r state
    = (out, Returns (error_update state marker line))
    /\ let state' := apply_update state (error_update state marker line) in
       extracted_data state' = {["error" := JStr marker]}
       /\ status state' = "error"
       /\ messages state' = messages state ++ [line]
       /\ exists p,
            pregel_loop json_loads py_repr recursion_limit env r
              (Some extract_data) None state
            = (out, Returns ({| values := state'; next := Some human_review |},
                             Some p)).
Proof.
  intros Hfail.
  assert (exists out marker line,
             extract_data_node json_loads env r state
             = (out, Returns (error_update state marker line))) as
    (out & marker & line & Hrun).
  { destruct (setup_gemini env) as [m|] eqn:Hm.
    - destruct Hfail as [|[[e He]|(C & printed & e & HC & HR)]]; [done| |].
      + rewrite (extract_data_node_undecoded _ _ _ _ _ _ Hm He). eauto.
      + rewrite (extract_data_node_decoded _ _ _ _ _ _ Hm HC), HR. eauto.
    - rewrite (extract_data_node_unavailable _ _ _ _ Hm). eauto. }
  exists out, marker, line. split; [exact Hrun|]. cbv zeta.
  do 3 (split; [reflexivity|]).
  destruct (review_of_error_marker
              (apply_update state (error_update state marker line)) marker eq_refl)
    as [p Hp].
  exists p. unfold recursion_limit.
  rewrite pregel_loop_extract_data, Hrun, bind_returns.
  rewrite pregel_loop_human_review, Hp, bind_returns.
  by rewrite !app_nil_r.
Qed.

(** C7, as the code has it.  When the candidate record holds a check-in and
    a checkout date that are both well formed and the checkout is not after
    the check-in, the reconciliation returns the record as it is (nights
    and both dates untouched) and does not raise.  The warning is printed
    on the console; the messages of the state gain the usual line of a
    successful extraction and no warning. *)
Theorem invalid_range_keeps_record_and_warns env m r state C ci co dci dco :
  setup_gemini env = Some m ->
  decoded_record json_loads r = Returns C ->
  get C "tanggal_checkin" = JStr ci ->
  get C "tanggal_checkout" = JStr co ->
  strptime_ymd ci = Some dci ->
  strptime_ymd co = Some dco ->
  date_le dco dci = true ->
  reconcile_dates C = ([range_warning], Returns C)
  /\ exists u,
       extract_data_node json_loads env r state
       = ([banner; range_warning], Returns u)
       /\ extracted_data (apply_update state u) = C
       /\ messages (apply_update state u)
          = messages state
            ++ ["✅ Data diekstrak (iterasi "
                +:+ str_int (iteration_count state + 1) +:+ ")"].
Proof.
  intros Hm HC Hci Hco Hdci Hdco Hle.
  pose proof (reconcile_dates_invalid_range _ _ _ _ _ Hci Hco Hdci Hdco Hle) as Hrec.
  split; [exact Hrec|].
  exists (extracted_update state C).
  rewrite (extract_data_node_decoded _ _ _ _ _ _ Hm HC), Hrec.
  by split.
Qed.

(** C8, as the code has it.  When the candidate record holds a well formed
    check-in date and a number of nights other than 0, and no checkout
    (absent, null or empty), the reconciliation writes as checkout the
    text that [strftime] gives for the date that many days after the
    check-in, provided that date is in the calendar (years 1 to 9999).
    When the year of that date is 1000 or later the text reads back,
    through the same [strptime], as that date; a year below 1000 is
    written without leading zeros, and the text does not read back. *)
Theorem checkout_derived_from_checkin_and_nights C ci d n :
  get C "tanggal_checkin" = JStr ci ->
  strptime_ymd ci = Some d ->
  get C "jumlah_malam" = JInt n ->
  n <> 0 ->
  truthy (get C "tanggal_checkout") = false ->
  0 < toordinal d + n <= MAXORDINAL ->
  let checkout_date := fromordinal (toordinal d + n) in
  reconcile_dates C
  = ([], Returns (<["tanggal_checkout" := JStr (strftime_ymd checkout_date)]> C))
  /\ days_between checkout_date d = n
  /\ strptime_ymd (strftime_ymd checkout_date)
     = (if 1000 <=? year checkout_date then Some checkout_date else None).
Proof.
  intros Hci Hd Hn Hn0 Hco Hrange. cbv zeta. split; [|split].
  - exact (reconcile_dates_derives_checkout _ _ _ _ Hci Hd Hn Hn0 Hco Hrange).
  - unfold days_between. rewrite toordinal_fromordinal. lia.
  - apply strptime_strftime_year, fromordinal_valid. lia.
Qed.

End ExtractionProperties.

(** ** Steps and runs of the graph *)

(** What the review writes when it routes: nothing, or a new [user_input]
    and one more message. *)
Lemma human_review_node_update state resume out c :
  human_review_node state resume = (out, Returns (Route c)) ->
  update c = no_update
  \/ exists text line,
       update c = {|
         upd_user_input := Some text;
         upd_extracted_data := None;
         upd_iteration_count := None;
         upd_status := None;
         upd_messages := Some (messages state ++ [line])
       |}.
Proof.
  unfold human_review_node. intros H.
  apply bind_returns_inv in H as (o1 & dd & o2 & _ & H & _).
  destruct resume as [human_decision|]; [|done]. unfold interrupt in H.
  destruct (py_in (lower human_decision) affirm).
  - destruct (missing_labels (extracted_data state)); injection H as _ <-; eauto.
  - destruct (py_in (lower human_decision) finish); injection H as _ <-; eauto.
Qed.

Section Runs.

Context (json_loads : string -> outcome json) (py_repr : json -> string).

(** What finalisation writes: the status and one more message. *)
Lemma finalize_node_update state out u :
  finalize_node py_repr state = (out, Returns u) ->
  exists line,
    u = {|
      upd_user_input := None;
      upd_extracted_data := None;
      upd_iteration_count := None;
      upd_status := Some "completed";
      upd_messages := Some (messages state ++ [line])
    |}.
Proof.
  unfold finalize_node. intros H.
  apply bind_returns_inv in H as (? & [] & ? & _ & H & _).
  apply bind_returns_inv in H as (? & budget & ? & _ & H & _).
  apply bind_returns_inv in H as (? & preferensi & ? & _ & H & _).
  injection H as _ <-. eauto.
Qed.

(** One step changes the counter by nothing or by one, and the messages by
    lines added at the end. *)
Lemma node_step_shape state state' :
  node_step json_loads py_repr state state' ->
  (iteration_count state' = iteration_count state
   \/ iteration_count state' = iteration_count state + 1)
  /\ exists added, messages state' = messages state ++ added.
Proof.
  intros [env r s out u H|s resume out c H|s out u H].
  - destruct (extract_data_node_cases json_loads env r s)
      as [out' [[D H']|(marker & line & H')]]; rewrite H' in H;
      injection H as _ <-; cbn; eauto.
  - destruct (human_review_node_update _ _ _ _ H) as [->|(text & line & ->)]; cbn.
    + split; [by left|]. exists []. by rewrite app_nil_r.
    + eauto.
  - destruct (finalize_node_update _ _ _ H) as [line ->]; cbn. eauto.
Qed.

(** A run of the graph is a sequence of steps. *)
Lemma pregel_loop_steps steps env r n resume state out c p :
  pregel_loop json_loads py_repr steps env r n resume state = (out, Returns (c, p)) ->
  rtc (node_step json_loads py_repr) state (values c).
Proof.
  revert n resume state out.
  induction steps as [|steps IH]; intros n resume state out H.
  - destruct n; [done|]. injection H as _ <-. done.
  - destruct n as [[| |]|].
    + rewrite pregel_loop_extract_data in H.
      apply bind_returns_inv in H as (o1 & u & o2 & Hu & H & _).
      eapply rtc_l; [by eapply step_extract_data | by eapply IH].
    + rewrite pregel_loop_human_review in H.
      apply bind_returns_inv in H as (o1 & rv & o2 & Hrv & H & _).
      destruct rv as [value|cmd].
      * injection H as _ <- _. done.
      * eapply rtc_l; [by eapply step_human_review | by eapply IH].
    + rewrite pregel_loop_finalize in H.
      apply bind_returns_inv in H as (o1 & u & o2 & Hu & H & _).
      eapply rtc_l; [by eapply step_finalize | by eapply IH].
    + rewrite pregel_loop_END in H. injection H as _ <- _. done.
Qed.

(** C3, as the code has it.  An extraction attempt that succeeds adds one
    to [iteration_count]; an attempt that fails leaves it as it is.  No
    sequence of node executions lowers or resets it. *)
Theorem iteration_count_counts_successes env r state :
  (exists out u,
     extract_data_node json_loads env r state = (out, Returns u)
     /\ let state' := apply_update state u in
        (status state' = "extracted"
         /\ iteration_count state' = iteration_count state + 1)
        \/ (status state' = "error"
            /\ iteration_count state' = iteration_count state))
  /\ (forall state', rtc (node_step json_loads py_repr) state state' ->
                    iteration_count state <= iteration_count state').
Proof.
  split.
  - destruct (extract_data_node_cases json_loads env r state)
      as [out [[D H]|(marker & line & H)]]; rewrite H;
      eexists _, _; (split; [reflexivity|]); cbv zeta; [left|right]; by split.
  - intros state' Hsteps. clear env r.
    induction Hsteps as [s|s1 s2 s3 Hstep _ IH]; [lia|].
    destruct (node_step_shape _ _ Hstep) as [[?|?] _]; lia.
Qed.

(** C9. The messages only grow at the end: after any node execution, and
    so after any sequence of them, the messages are those before followed
    by the lines added (none, or more). *)
Theorem messages_append_only state state' :
  rtc (node_step json_loads py_repr) state state' ->
  exists added, messages state' = messages state ++ added.
Proof.
  induction 1 as [s|s1 s2 s3 Hstep _ [added2 IH]].
  - exists []. by rewrite app_nil_r.
  - destruct (node_step_shape _ _ Hstep) as [_ [added1 H1]].
    exists (added1 ++ added2). by rewrite IH, H1, app_assoc.
Qed.

(** The review node run with no decision pending suspends the run. *)
Lemma human_review_node_pending state out rv :
  human_review_node state None = (out, Returns rv) -> exists p, rv = Interrupt p.
Proof.
  unfold human_review_node. intros H.
  apply bind_returns_inv in H as (o1 & dd & o2 & _ & H & _).
  injection H as _ <-. eauto.
Qed.

Lemma run_from_pending_review steps env r state out c p :
  pregel_loop json_loads py_repr steps env r (Some human_review) None state
  = (out, Returns (c, p)) ->
  c = {| values := state; next := Some human_review |}.
Proof.
  destruct steps as [|steps]; [done|]. rewrite pregel_loop_human_review.
  intros H. apply bind_returns_inv in H as (o1 & rv & o2 & Hrv & H & _).
  destruct (human_review_node_pending _ _ _ Hrv) as [value ->].
  by injection H as _ <- _.
Qed.

Lemma run_from_extract_data steps env r state out c p :
  pregel_loop json_loads py_repr steps env r (Some extract_data) None state
  = (out, Returns (c, p)) ->
  next c = Some human_review /\ status (values c) <> "completed".
Proof.
  destruct steps as [|steps]; [done|]. rewrite pregel_loop_extract_data.
  intros H. apply bind_returns_inv in H as (o1 & u & o2 & Hu & H & _).
  apply run_from_pending_review in H as ->. split; [done|]. cbn.
  destruct (extract_data_node_cases json_loads env r state)
    as [out' [[D H']|(marker & line & H')]]; rewrite H' in Hu;
    by injection Hu as _ <-.
Qed.

Lemma run_from_finalize steps env r resume state out c p :
  pregel_loop json_loads py_repr steps env r (Some finalize) resume state
  = (out, Returns (c, p)) ->
  next c = None /\ status (values c) = "completed".
Proof.
  destruct steps as [|steps]; [done|]. rewrite pregel_loop_finalize.
  intros H. apply bind_returns_inv in H as (o1 & u & o2 & Hu & H & _).
  rewrite pregel_loop_END in H. injection H as _ <- _.
  by destruct (finalize_node_update _ _ _ Hu) as [line ->].
Qed.

Lemma run_from_resumed_review steps env r resume state out c p :
  status state <> "completed" ->
  pregel_loop json_loads py_repr steps env r (Some human_review) resume state
  = (out, Returns (c, p)) ->
  (next c = Some human_review /\ status (values c) <> "completed")
  \/ (next c = None /\ status (values c) = "completed").
Proof.
  intros Hs. destruct steps as [|steps]; [done|].
  rewrite pregel_loop_human_review.
  intros H. apply bind_returns_inv in H as (o1 & rv & o2 & Hrv & H & _).
  destruct rv as [value|cmd].
  - injection H as _ <- _. by left.
  - destruct (goto cmd) eqn:Hgoto.
    + left. exact (run_from_extract_data _ _ _ _ _ _ _ H).
    + apply run_from_pending_review in H as ->. left. split; [done|].
      cbn. by destruct (human_review_node_update _ _ _ _ Hrv)
             as [->|(text & line & ->)].
    + right. exact (run_from_finalize _ _ _ _ _ _ _ _ H).
Qed.

Lemma invoke_initial_eq env r state :
  invoke_initial json_loads py_repr env r state
  = pregel_loop json_loads py_repr recursion_limit env r (Some extract_data)
      None state.
Proof. reflexivity. Qed.

Lemma invoke_resume_eq env r c human_input :
  invoke_resume json_loads py_repr env r c human_input
  = pregel_loop json_loads py_repr recursion_limit env r (next c)
      (Some human_input) (values c).
Proof. reflexivity. Qed.

(** Where a session stands: suspended at the review and not completed, or
    at the end and completed. *)
Lemma session_position c :
  session json_loads py_repr c ->
  (next c = Some human_review /\ status (values c) <> "completed")
  \/ (next c = None /\ status (values c) = "completed").
Proof.
  induction 1 as [ui env r out c p H|c env r h out c' p _ IH H].
  - left. rewrite invoke_initial_eq in H.
    exact (run_from_extract_data _ _ _ _ _ _ _ H).
  - rewrite invoke_resume_eq in H.
    destruct IH as [[Hn Hs]|[Hn Hs]]; rewrite Hn in H.
    + exact (run_from_resumed_review _ _ _ _ _ _ _ _ Hs H).
    + rewrite pregel_loop_END in H. injection H as _ <- _. by right.
Qed.

(** C6. Resuming a session that is completed runs no node: nothing is
    printed, no interrupt is raised, and the checkpoint that comes back is
    the stored one, with the same record, the same [iteration_count] and
    the same messages. *)
Theorem resume_completed_is_idempotent c env r human_input :
  session json_loads py_repr c ->
  status (values c) = "completed" ->
  invoke_resume json_loads py_repr env r c human_input = ([], Returns (c, None)).
Proof.
  intros Hc Hs.
  destruct (session_position c Hc) as [[_ Hne]|[Hn _]]; [contradiction|].
  rewrite invoke_resume_eq, Hn, pregel_loop_END.
  destruct c as [v n]. cbn in Hn. by rewrite Hn.
Qed.

End Runs.

(** ** The theorems at concrete replies *)

Lemma extraction_failure_reaches_review_witness :
  exists e,
    decoded_record loads_basic (Content "Maaf, saya tidak mengerti.") = Raises e
    /\ exists out p,
         pregel_loop loads_basic repr_basic recursion_limit env_ready
           (Content "Maaf, saya tidak mengerti.") (Some extract_data) None
           (initial_state "hotel di ubud")
         = (out,
            Returns
              ({| values := {|
                    user_input := "hotel di ubud";
                    extracted_data := {["error" := JStr (exn_str e)]};
                    iteration_count := 0;
                    status := "error";
                    messages := ["❌ Error: " +:+ exn_str e]
                  |};
                  next := Some human_review |},
               Some p)).
Proof.
  eexists. split; [reflexivity|].
  destruct (extraction_failure_reaches_review loads_basic repr_basic env_ready
              (Content "Maaf, saya tidak mengerti.") (initial_state "hotel di ubud")
              (or_intror (or_introl (ex_intro _ _ eq_refl))))
    as (out & marker & line & Hrun & _ & _ & _ & p & Hloop).
  exists out, p. rewrite Hloop.
  assert (marker = "Expecting value" /\ line = "❌ Error: Expecting value")
    as [-> ->]; [|reflexivity].
  vm_compute in Hrun. by simplify_eq.
Defined.

(** The reply of the prompt's own wrong example, on a state that holds a
    location and a budget: the pass succeeds, and both are gone. *)
Lemma extraction_replaces_existing_record :
  decoded_record loads_basic (Content spa_only_text) = Returns spa_only_record
  /\ extract_data_node loads_basic env_ready (Content spa_only_text) nusa_dua_state
     = ([banner], Returns (extracted_update nusa_dua_state spa_only_record))
  /\ extracted_data nusa_dua_state !! "budget" = Some (JInt 2000000)
  /\ spa_only_record !! "budget" = None
  /\ extracted_data
       (apply_update nusa_dua_state
          (extracted_update nusa_dua_state spa_only_record)) !! "budget"
     = None
  /\ extracted_data nusa_dua_state !! "lokasi" = Some (JStr "Nusa Dua")
  /\ spa_only_record !! "lokasi" = Some JNull
  /\ extracted_data
       (apply_update nusa_dua_state
          (extracted_update nusa_dua_state spa_only_record)) !! "lokasi"
     = Some JNull.
Proof. repeat split; vm_compute; reflexivity. Qed.

Lemma extraction_keeps_candidate_fields_witness :
  decoded_record loads_basic (Content spa_only_text) = Returns spa_only_record
  /\ extract_data_node loads_basic env_ready (Content spa_only_text) nusa_dua_state
     = ([banner], Returns (extracted_update nusa_dua_state spa_only_record))
  /\ reconcile_dates spa_only_record = ([], Returns spa_only_record)
  /\ extracted_data
       (apply_update nusa_dua_state
          (extracted_update nusa_dua_state spa_only_record))
     = spa_only_record.
Proof.
  assert (decoded_record loads_basic (Content spa_only_text)
          = Returns spa_only_record) as HC by (vm_compute; reflexivity).
  assert (extract_data_node loads_basic env_ready (Content spa_only_text)
            nusa_dua_state
          = ([banner], Returns (extracted_update nusa_dua_state spa_only_record)))
    as Hrun by (vm_compute; reflexivity).
  assert (reconcile_dates spa_only_record = ([], Returns spa_only_record))
    as HD by (vm_compute; reflexivity).
  split; [exact HC|]. split; [exact Hrun|]. split; [exact HD|].
  destruct (extraction_keeps_candidate_fields loads_basic env_ready
              (Content spa_only_text) nusa_dua_state spa_only_record [banner]
              (extracted_update nusa_dua_state spa_only_record)
              HC Hrun eq_refl) as (printed & D & HD' & Hd & _).
  rewrite HD in HD'. injection HD' as _ <-. exact Hd.
Defined.

(** An attempt without a configured collaborator leaves the counter at 0. *)
Lemma failed_attempt_is_not_counted :
  extract_data_node loads_basic env_no_key (Content ubud_text)
    (initial_state "hotel di ubud")
  = ([banner],
     Returns (error_update (initial_state "hotel di ubud")
                "Gemini not available" "❌ Gemini tidak tersedia"))
  /\ iteration_count (initial_state "hotel di ubud") = 0
  /\ iteration_count
       (apply_update (initial_state "hotel di ubud")
          (error_update (initial_state "hotel di ubud")
             "Gemini not available" "❌ Gemini tidak tersedia"))
     = 0.
Proof. repeat split; vm_compute; reflexivity. Qed.

(** The checkout before the check-in: the warning is on the console, and the
    messages hold the line of a successful extraction only. *)
Lemma range_warning_is_not_a_message :
  extract_data_node loads_basic env_ready (Content reversed_dates_text)
    (initial_state "hotel")
  = ([banner; range_warning],
     Returns (extracted_update (initial_state "hotel") reversed_dates_record))
  /\ messages
       (apply_update (initial_state "hotel")
          (extracted_update (initial_state "hotel") reversed_dates_record))
     = ["✅ Data diekstrak (iterasi 1)"]
  /\ range_warning ∉ messages
       (apply_update (initial_state "hotel")
          (extracted_update (initial_state "hotel") reversed_dates_record)).
Proof.
  split; [vm_compute; reflexivity|]. split; [vm_compute; reflexivity|].
  intros Hin. vm_compute in Hin.
  apply list_elem_of_singleton in Hin. discriminate Hin.
Qed.

Lemma invalid_range_keeps_record_and_warns_witness :
  setup_gemini env_ready
  = Some (ChatGoogleGenerativeAI "gemini-2.5-flash-preview-05-20" 1000)
  /\ decoded_record loads_basic (Content reversed_dates_text)
     = Returns reversed_dates_record
  /\ strptime_ymd "2025-06-25" = Some (Date 2025 6 25)
  /\ strptime_ymd "2025-06-20" = Some (Date 2025 6 20)
  /\ date_le (Date 2025 6 20) (Date 2025 6 25) = true
  /\ reconcile_dates reversed_dates_record
     = ([range_warning], Returns reversed_dates_record).
Proof.
  assert (decoded_record loads_basic (Content reversed_dates_text)
          = Returns reversed_dates_record) as HC by (vm_compute; reflexivity).
  do 5 (split; [first [exact HC | vm_compute; reflexivity]|]).
  exact (proj1 (invalid_range_keeps_record_and_warns loads_basic env_ready _
                  (Content reversed_dates_text) (initial_state "hotel")
                  reversed_dates_record "2025-06-25" "2025-06-20"
                  (Date 2025 6 25) (Date 2025 6 20)
                  eq_refl HC eq_refl eq_refl eq_refl eq_refl eq_refl)).
Defined.

(** A check-in and 0 nights: no checkout is derived. *)
Lemma zero_nights_derive_no_checkout :
  decoded_record loads_basic (Content zero_nights_text) = Returns zero_nights_record
  /\ get zero_nights_record "tanggal_checkin" = JStr "2025-06-20"
  /\ get zero_nights_record "jumlah_malam" = JInt 0
  /\ zero_nights_record !! "tanggal_checkout" = None
  /\ exists D,
       reconcile_dates zero_nights_record = ([], Returns D)
       /\ D !! "tanggal_checkout" = None.
Proof.
  do 4 (split; [vm_compute; reflexivity|]).
  exists zero_nights_record. split; vm_compute; reflexivity.
Qed.

Lemma checkout_derived_from_checkin_and_nights_witness :
  get five_nights_record "tanggal_checkin" = JStr "2025-06-20"
  /\ strptime_ymd "2025-06-20" = Some (Date 2025 6 20)
  /\ get five_nights_record "jumlah_malam" = JInt 5
  /\ truthy (get five_nights_record "tanggal_checkout") = false
  /\ fromordinal (toordinal (Date 2025 6 20) + 5) = Date 2025 6 25
  /\ strftime_ymd (Date 2025 6 25) = "2025-06-25"
  /\ reconcile_dates five_nights_record
     = ([], Returns (<["tanggal_checkout" := JStr "2025-06-25"]> five_nights_record))
  /\ days_between (Date 2025 6 25) (Date 2025 6 20) = 5
  /\ strptime_ymd "2025-06-25" = Some (Date 2025 6 25).
Proof.
  do 4 (split; [vm_compute; reflexivity|]).
  assert (fromordinal (toordinal (Date 2025 6 20) + 5) = Date 2025 6 25)
    as Hdate by (vm_compute; reflexivity).
  assert (strftime_ymd (Date 2025 6 25) = "2025-06-25")
    as Hfmt by (vm_compute; reflexivity).
  split; [exact Hdate|]. split; [exact Hfmt|].
  rewrite <- Hfmt, <- Hdate.
  destruct (checkout_derived_from_checkin_and_nights five_nights_record
              "2025-06-20" (Date 2025 6 20) 5
              eq_refl eq_refl eq_refl ltac:(discriminate) eq_refl
              ltac:(vm_compute; split; [reflexivity | discriminate]))
    as (Hr & Hn & Hp).
  split; [exact Hr|]. split; [exact Hn|].
  rewrite Hp, Hdate. reflexivity.
Defined.

(** A check-in in the year 500: the checkout is written with three digits
    for the year, which [strptime] does not take. *)
Example short_year_checkout_does_not_read_back :
  strptime_ymd "0500-01-01" = Some (Date 500 1 1)
  /\ reconcile_dates
       (list_to_map [("tanggal_checkin", JStr "0500-01-01"); ("jumlah_malam", JInt 1)])
     = ([], Returns
              (list_to_map [("tanggal_checkin", JStr "0500-01-01");
                            ("jumlah_malam", JInt 1);
                            ("tanggal_checkout", JStr "500-01-02")]))
  /\ strptime_ymd "500-01-02" = None.
Proof. repeat split; vm_compute; reflexivity. Qed.

(** The session of the example reaches the end with one iteration; a
    further resume gives back the same checkpoint. *)
Lemma ubud_session :
  invoke_initial loads_basic repr_basic env_ready (Content ubud_text)
    (initial_state "hotel di ubud, 20-25 juni 2025, 2 orang")
  = ([banner], Returns (ubud_review.1, ubud_review.2))
  /\ invoke_resume loads_basic repr_basic env_ready (Content "")
       ubud_review.1 "setuju"
     = (["✅ Finalisasi data booking..."],
        Returns (ubud_completed.1, ubud_completed.2)).
Proof. split; vm_compute; reflexivity. Qed.

Lemma resume_completed_is_idempotent_witness :
  session loads_basic repr_basic ubud_completed.1
  /\ status (values ubud_completed.1) = "completed"
  /\ iteration_count (values ubud_completed.1) = 1
  /\ invoke_resume loads_basic repr_basic env_ready (Content ubud_text)
       ubud_completed.1 "setuju"
     = ([], Returns (ubud_completed.1, None)).
Proof.
  destruct ubud_session as [Hstart Hresume].
  assert (session loads_basic repr_basic ubud_completed.1) as Hs.
  { eapply session_resumed; [|exact Hresume].
    eapply session_started. exact Hstart. }
  split; [exact Hs|]. do 2 (split; [vm_compute; reflexivity|]).
  exact (resume_completed_is_idempotent loads_basic repr_basic
           ubud_completed.1 env_ready (Content ubud_text) "setuju" Hs eq_refl).
Defined.

Lemma messages_append_only_witness :
  rtc (node_step loads_basic repr_basic)
    (values ubud_review.1) (values ubud_completed.1)
  /\ exists added,
       messages (values ubud_completed.1)
       = messages (values ubud_review.1) ++ added.
Proof.
  destruct ubud_session as [_ Hresume].
  assert (rtc (node_step loads_basic repr_basic)
            (values ubud_review.1) (values ubud_completed.1)) as Hsteps.
  { rewrite invoke_resume_eq in Hresume.
    exact (pregel_loop_steps _ _ _ _ _ _ _ _ _ _ _ Hresume). }
  split; [exact Hsteps|].
  exact (messages_append_only loads_basic repr_basic _ _ Hsteps).
Defined.

(** A record whose check-in is a number: the date arithmetic raises a
    [TypeError], which the step turns into the error marker. *)
Example ill_typed_dates_are_contained :
  extract_data_node loads_basic env_ready
    (Content (object_text [("tanggal_checkin", "20250620"); ("jumlah_malam", "2")]))
    (initial_state "hotel")
  = ([banner;
      "❌ Error ekstraksi: strptime() argument 1 must be str, not int"],
     Returns (error_update (initial_state "hotel")
                "strptime() argument 1 must be str, not int"
                "❌ Error: strptime() argument 1 must be str, not int")).
Proof. vm_compute. reflexivity. Qed.

(** A budget that is a text cannot be formatted: the review node raises
    before it interrupts, so no decision is ever read at such a state. *)
Example unformattable_budget_stops_the_review :
  human_review_node (reviewing {["budget" := JStr "2 juta"]}) None
  = ([], Raises (Exn ValueError "Cannot specify ',' with 's'.")).
Proof. vm_compute. reflexivity. Qed.

(** * Further properties *)

(** ** The review and what it shows *)

(** What the review returns once a decision is pending: the node got past
    the formatting of the record, and routes by the decision alone. *)
Lemma human_review_node_decided state human_decision out rv :
  human_review_node state (Some human_decision) = (out, Returns rv) ->
  exists p, human_review_node state None = ([], Returns (Interrupt p)).
Proof.
  unfold human_review_node. intros H.
  apply bind_returns_inv in H as (o1 & dd & o2 & Hf & _ & _).
  pose proof (format_display_data_stdout (extracted_data state)) as Ho.
  rewrite Hf in Ho. cbn in Ho. subst o1. rewrite Hf. eexists. reflexivity.
Qed.

(** A decision that is neither an affirm word nor a finish word routes back
    to the extraction with the text as the input. *)
Lemma other_text_routes_to_extraction state human_decision out p :
  human_review_node state None = (out, Returns (Interrupt p)) ->
  py_in (lower human_decision) affirm = false ->
  py_in (lower human_decision) finish = false ->
  human_review_node state (Some human_decision)
  = ([], Returns (Route {|
      goto := extract_data;
      update := {|
        upd_user_input := Some human_decision;
        upd_extracted_data := None;
        upd_iteration_count := None;
        upd_status := None;
        upd_messages :=
          Some (messages state
                ++ ["🔄 Memproses input tambahan: " +:+ human_decision])
      |}
    |})).
Proof.
  intros Hs Ha Hf.
  destruct (human_review_node_resumed _ _ _ human_decision Hs) as [dd ->].
  unfold interrupt. by rewrite Ha, Hf.
Qed.

Lemma format_display_data_returns data :
  formattable_budget (get data "budget") = true ->
  exists dd, format_display_data data = ([], Returns dd).
Proof.
  intros Hb.
  pose proof (format_display_data_stdout data) as Ho.
  unfold format_display_data in *.
  destruct (display_date_returns (get data "tanggal_checkin")) as [w1 H1].
  destruct (display_date_returns (get data "tanggal_checkout")) as [w2 H2].
  rewrite H1, H2 in *. unfold formattable_budget in Hb.
  destruct (truthy (get data "budget")) eqn:Ht.
  - cbn [negb orb] in Hb.
    destruct (get data "budget"); try discriminate; cbn [format_with_comma];
      rewrite !bind_ret; repeat (destruct (truthy _); rewrite ?bind_ret); eauto.
  - rewrite !bind_ret; repeat (destruct (truthy _); rewrite ?bind_ret); eauto.
Qed.

Lemma format_display_data_raises data :
  formattable_budget (get data "budget") = false ->
  exists e, format_display_data data = ([], Raises e)
            /\ (exn_type e = ValueError \/ exn_type e = TypeError).
Proof.
  intros Hb. unfold format_display_data, formattable_budget in *.
  destruct (truthy (get data "budget")) eqn:Ht; [|discriminate].
  cbn [negb orb] in Hb.
  destruct (get data "budget"); try discriminate; cbn; eauto.
Qed.

Lemma human_review_node_formattable state :
  formattable_budget (get (extracted_data state) "budget") = true ->
  exists p, human_review_node state None = ([], Returns (Interrupt p)).
Proof.
  intros Hb. destruct (format_display_data_returns _ Hb) as [dd Hdd].
  unfold human_review_node. rewrite Hdd. eexists. reflexivity.
Qed.

Lemma human_review_node_unformattable state :
  formattable_budget (get (extracted_data state) "budget") = false ->
  exists e,
    (exn_type e = ValueError \/ exn_type e = TypeError)
    /\ forall resume, human_review_node state resume = ([], Raises e).
Proof.
  intros Hb. destruct (format_display_data_raises _ Hb) as (e & He & Hk).
  exists e. split; [exact Hk|]. intros resume.
  unfold human_review_node. by rewrite He.
Qed.

Lemma format_display_data_budget_raises data e :
  truthy (get data "budget") = true ->
  format_with_comma (get data "budget") = ([], Raises e) ->
  format_display_data data = ([], Raises e).
Proof. intros Ht H. unfold format_display_data. by rewrite Ht, H. Qed.

(** X1. Whether the review node reaches its [interrupt()] is decided by the
    budget of the record.  With a budget that is a non-empty text,
    [format_display_data] raises the [ValueError] of the thousands
    separator on a text, and with a non-empty list or dict the
    [TypeError] of a value without a format, before the interrupt and
    whatever resume value is pending.  With every other budget among the
    decoded values (none, a boolean, an integer, an empty text, list or
    dict) the node, run without a decision, interrupts. *)
Theorem review_suspends_by_budget state :
  match get (extracted_data state) "budget" with
  | JStr (String _ _) =>
      forall resume,
        human_review_node state resume
        = ([], Raises (Exn ValueError "Cannot specify ',' with 's'."))
  | JList (_ :: _) | JObj (_ :: _) =>
      forall resume,
        human_review_node state resume
        = ([], Raises
                 (Exn TypeError
                    ("unsupported format string passed to "
                     +:+ type_name (get (extracted_data state) "budget")
                     +:+ ".__format__")))
  | _ => exists p, human_review_node state None = ([], Returns (Interrupt p))
  end.
Proof.
  assert (formattable_budget (get (extracted_data state) "budget") = true ->
          exists p, human_review_node state None = ([], Returns (Interrupt p)))
    as Hok by apply human_review_node_formattable.
  assert (forall e,
            truthy (get (extracted_data state) "budget") = true ->
            format_with_comma (get (extracted_data state) "budget") = ([], Raises e) ->
            forall resume, human_review_node state resume = ([], Raises e))
    as Hraise.
  { intros e Ht He resume. unfold human_review_node.
    by rewrite (format_display_data_budget_raises _ _ Ht He). }
  destruct (get (extracted_data state) "budget")
    as [|b|n|[|a s]|[|x items]|[|x items]] eqn:Hb.
  - apply Hok. reflexivity.
  - apply Hok. unfold formattable_budget. apply orb_true_r.
  - apply Hok. unfold formattable_budget. apply orb_true_r.
  - apply Hok. reflexivity.
  - apply Hraise; reflexivity.
  - apply Hok. reflexivity.
  - apply Hraise; reflexivity.
  - apply Hok. reflexivity.
  - apply Hraise; reflexivity.
Qed.

(** X2. The budget text shown at the review (the [budget_display] entry
    that [format_display_data] adds) is the text [format_budget] gives for
    the same budget in the final summary. *)
Theorem display_budget_is_summary_budget data out dd :
  format_display_data data = (out, Returns dd) ->
  exists text,
    format_budget (get data "budget") = ([], Returns text)
    /\ dd !! "budget_display" = Some (JStr text).
Proof.
  unfold format_display_data, format_budget.
  destruct (display_date_returns (get data "tanggal_checkin")) as [w1 H1].
  destruct (display_date_returns (get data "tanggal_checkout")) as [w2 H2].
  rewrite H1, H2.
  destruct (truthy (get data "budget")); cbn [negb].
  - destruct (format_with_comma (get data "budget")) as [o [text|e]] eqn:Hf;
      [|intros H; cbn in H; discriminate].
    pose proof (format_with_comma_silent (get data "budget")) as Ho.
    rewrite Hf in Ho. cbn in Ho. subst o.
    rewrite !bind_returns. cbn [stdout result ret fst snd app].
    intros H. exists (replace ("Rp " +:+ text) "," "."). split; [reflexivity|].
    revert H.
    destruct (truthy (get data "tanggal_checkin")),
      (truthy (get data "tanggal_checkout"));
      cbn; intros [= _ <-];
      rewrite ?lookup_insert_ne by done; apply lookup_insert_eq.
  - intros H. exists "Tidak disebutkan". split; [reflexivity|].
    revert H.
    destruct (truthy (get data "tanggal_checkin")),
      (truthy (get data "tanggal_checkout"));
      cbn; intros [= _ <-];
      rewrite ?lookup_insert_ne by done; apply lookup_insert_eq.
Qed.

Section MoreRuns.

Context (json_loads : string -> outcome json) (py_repr : json -> string).

(** X3. A resume of a pending review reaches [END] only when the decision
    was a finish word, or an affirm word with every required field true.
    The call then leaves the status [completed], and [user_input], the
    record and the iteration count as they were. *)
Theorem session_ends_only_on_a_decision env r c human_input out c' p :
  next c = Some human_review ->
  invoke_resume json_loads py_repr env r c human_input = (out, Returns (c', p)) ->
  next c' = None ->
  (py_in (lower human_input) finish = true
   \/ (py_in (lower human_input) affirm = true
       /\ forall field label,
            (field, label) ∈ required_fields ->
            truthy (get (extracted_data (values c)) field) = true))
  /\ status (values c') = "completed"
  /\ user_input (values c') = user_input (values c)
  /\ extracted_data (values c') = extracted_data (values c)
  /\ iteration_count (values c') = iteration_count (values c).
Proof.
  intros Hn Hrun Hend. rewrite invoke_resume_eq, Hn in Hrun.
  unfold recursion_limit in Hrun. rewrite pregel_loop_human_review in Hrun.
  apply bind_returns_inv in Hrun as (o1 & rv & o2 & Hrv & Hrun & _).
  destruct (human_review_node_decided _ _ _ _ Hrv) as [p0 Hp0].
  destruct (human_review_node_resumed _ _ _ human_input Hp0) as [dd Hdd].
  rewrite Hdd in Hrv. unfold interrupt in Hrv.
  assert (forall state o c1 p1,
             pregel_loop json_loads py_repr 24 env r (Some finalize) None state
             = (o, Returns (c1, p1)) ->
             status (values c1) = "completed"
             /\ user_input (values c1) = user_input state
             /\ extracted_data (values c1) = extracted_data state
             /\ iteration_count (values c1) = iteration_count state) as Hfin.
  { intros state o c1 p1 H. rewrite pregel_loop_finalize in H.
    apply bind_returns_inv in H as (? & u & ? & Hu & H & _).
    rewrite pregel_loop_END in H. injection H as _ <- _.
    by destruct (finalize_node_update _ _ _ _ Hu) as [line ->]. }
  assert (forall state o c1 p1,
             pregel_loop json_loads py_repr 24 env r (Some extract_data) None state
             = (o, Returns (c1, p1)) -> next c1 <> None) as Hext.
  { intros state o c1 p1 H.
    destruct (run_from_extract_data _ _ _ _ _ _ _ _ _ H) as [-> _]. done. }
  destruct (py_in (lower human_input) affirm) eqn:Ha.
  - destruct (missing_labels (extracted_data (values c))) as [|l ls] eqn:Hm;
      injection Hrv as _ <-; cbn [goto update] in Hrun.
    + split; [|exact (Hfin _ _ _ _ Hrun)].
      right. split; [done|]. intros field label Hin.
      destruct (truthy (get (extracted_data (values c)) field)) eqn:Ht; [done|].
      apply (missing_labels_elem _ _ _ Hin) in Ht. rewrite Hm in Ht.
      by apply elem_of_nil in Ht.
    + by destruct (Hext _ _ _ _ Hrun).
  - destruct (py_in (lower human_input) finish) eqn:Hf;
      injection Hrv as _ <-; cbn [goto update] in Hrun.
    + split; [by left|exact (Hfin _ _ _ _ Hrun)].
    + by destruct (Hext _ _ _ _ Hrun).
Qed.

Lemma node_step_marked state state' :
  node_step json_loads py_repr state state' ->
  marked_when_error state -> marked_when_error state'.
Proof.
  intros [env r s out u H|s resume out c H|s out u H] Hs.
  - destruct (extract_data_node_cases json_loads env r s)
      as [out' [[D H']|(marker & line & H')]]; rewrite H' in H;
      injection H as _ <-; intros Hst; cbn in *; [discriminate|eauto].
  - destruct (human_review_node_update _ _ _ _ H) as [->|(text & line & ->)];
      exact Hs.
  - destruct (finalize_node_update _ _ _ _ H) as [line ->].
    intros Hst. cbn in Hst. discriminate.
Qed.

Lemma steps_marked state state' :
  rtc (node_step json_loads py_repr) state state' ->
  marked_when_error state -> marked_when_error state'.
Proof. induction 1; eauto using node_step_marked. Qed.

Lemma session_marked c :
  session json_loads py_repr c -> marked_when_error (values c).
Proof.
  induction 1 as [ui env r out c p H|c env r h out c' p _ IH H].
  - rewrite invoke_initial_eq in H.
    eapply steps_marked; [exact (pregel_loop_steps _ _ _ _ _ _ _ _ _ _ _ H)|].
    intros Hst. discriminate Hst.
  - rewrite invoke_resume_eq in H.
    eapply steps_marked; [exact (pregel_loop_steps _ _ _ _ _ _ _ _ _ _ _ H)|].
    exact IH.
Qed.

End MoreRuns.

(** ** What the interrupt shows of the record *)

(** [format_display_data] adds entries to a copy of the record: the other
    keys keep their values. *)
Lemma format_display_data_keeps data out dd key :
  format_display_data data = (out, Returns dd) ->
  key <> "budget_display" ->
  key <> "tanggal_checkin_display" \/ truthy (get data "tanggal_checkin") = false ->
  key <> "tanggal_checkout_display" \/ truthy (get data "tanggal_checkout") = false ->
  dd !! key = data !! key.
Proof.
  unfold format_display_data. intros H Hb Hi Ho.
  apply bind_returns_inv in H as (? & d1 & ? & H1 & H & _).
  apply bind_returns_inv in H as (? & d2 & ? & H2 & H & _).
  apply bind_returns_inv in H as (? & d3 & ? & H3 & H & _).
  injection H as _ <-.
  assert (d1 !! key = data !! key) as E1.
  { destruct (truthy (get data "budget")).
    - apply bind_returns_inv in H1 as (? & t & ? & _ & H1 & _).
      injection H1 as _ <-. by rewrite lookup_insert_ne.
    - injection H1 as _ <-. by rewrite lookup_insert_ne. }
  assert (d2 !! key = d1 !! key) as E2.
  { destruct (truthy (get data "tanggal_checkin")).
    - apply bind_returns_inv in H2 as (? & t & ? & _ & H2 & _).
      injection H2 as _ <-. destruct Hi as [Hi|Hi]; [|discriminate Hi].
      by rewrite lookup_insert_ne.
    - by injection H2 as _ <-. }
  assert (d3 !! key = d2 !! key) as E3.
  { destruct (truthy (get data "tanggal_checkout")).
    - apply bind_returns_inv in H3 as (? & t & ? & _ & H3 & _).
      injection H3 as _ <-. destruct Ho as [Ho|Ho]; [|discriminate Ho].
      by rewrite lookup_insert_ne.
    - by injection H3 as _ <-. }
  congruence.
Qed.

(** X4. A required field that the affirm check counts as missing is shown
    to the human as "Belum disebutkan" in the value of the interrupt (for
    the check-in, as long as the record itself holds no true
    [tanggal_checkin_display]). *)
Theorem missing_field_is_shown_as_not_mentioned state out p field label :
  human_review_node state None = (out, Returns (Interrupt p)) ->
  (field, label) ∈ required_fields ->
  truthy (get (extracted_data state) field) = false ->
  (field = "tanggal_checkin" ->
   truthy (get (extracted_data state) "tanggal_checkin_display") = false) ->
  display p !! field = Some (JStr "Belum disebutkan").
Proof.
  intros H Hin Hf Hd. unfold human_review_node in H.
  apply bind_returns_inv in H as (? & dd & ? & Hdd & H & _).
  injection H as _ <-.
  assert (forall key,
            key <> "budget_display" -> key <> "tanggal_checkout_display" ->
            key <> "tanggal_checkin_display"
            \/ truthy (get (extracted_data state) "tanggal_checkin") = false ->
            get dd key = get (extracted_data state) key) as Hget.
  { intros key ? ? ?. unfold get.
    by rewrite (format_display_data_keeps _ _ _ key Hdd) by auto. }
  unfold review_payload. cbn [display].
  unfold required_fields in Hin.
  repeat (apply elem_of_cons in Hin as [Hin|Hin]);
    [| | | |by apply elem_of_nil in Hin];
    injection Hin as -> ->; cbn [list_to_map foldr uncurry Datatypes.uncurry];
    rewrite ?lookup_insert_ne by done; rewrite lookup_insert_eq; unfold py_or.
  - rewrite (Hget "lokasi") by auto. by rewrite Hf.
  - rewrite (Hget "tanggal_checkin_display") by auto. by rewrite (Hd eq_refl).
  - rewrite (Hget "jumlah_malam") by auto. by rewrite Hf.
  - rewrite (Hget "jumlah_tamu") by auto. by rewrite Hf.
Qed.

(** ** The iteration count and the messages *)

Lemma string_prefix_app p x : String.prefix p (p +:+ x) = true.
Proof.
  induction p as [|a p IH]; [by destruct x|].
  change (String a p +:+ x) with (String a (p +:+ x)).
  cbn [String.prefix]. by destruct (ascii_dec a a).
Qed.

Lemma success_line rest :
  is_success_line ("✅ Data diekstrak (iterasi " +:+ rest) = true.
Proof. apply string_prefix_app. Qed.

Lemma count_lines_app f l1 l2 :
  count_lines f (l1 ++ l2) = count_lines f l1 + count_lines f l2.
Proof. induction l1 as [|x l1 IH]; cbn [count_lines app]; lia. Qed.

Lemma human_review_node_line state resume out c :
  human_review_node state resume = (out, Returns (Route c)) ->
  update c = no_update
  \/ exists text line,
       is_success_line line = false
       /\ update c = {|
            upd_user_input := Some text;
            upd_extracted_data := None;
            upd_iteration_count := None;
            upd_status := None;
            upd_messages := Some (messages state ++ [line])
          |}.
Proof.
  unfold human_review_node. intros H.
  apply bind_returns_inv in H as (o1 & dd & o2 & _ & H & _).
  destruct resume as [human_decision|]; [|done]. unfold interrupt in H.
  destruct (py_in (lower human_decision) affirm).
  - destruct (missing_labels (extracted_data state)); injection H as _ <-;
      [by left|right]. eexists _, _. split; [|reflexivity]. reflexivity.
  - destruct (py_in (lower human_decision) finish); injection H as _ <-;
      [by left|right]. eexists _, _. split; [|reflexivity]. reflexivity.
Qed.

Section Counting.

Context (json_loads : string -> outcome json) (py_repr : json -> string).

Lemma extract_data_node_line env r state :
  exists out,
    (exists D, extract_data_node json_loads env r state
               = (out, Returns (extracted_update state D)))
    \/ (exists marker line,
          is_success_line line = false
          /\ extract_data_node json_loads env r state
             = (out, Returns (error_update state marker line))).
Proof.
  destruct (setup_gemini env) as [m|] eqn:Hm.
  - destruct (decoded_record json_loads r) as [C|e] eqn:HC.
    + rewrite (extract_data_node_decoded _ _ _ _ _ _ Hm HC).
      destruct (reconcile_dates C) as [out [D|e]]; [eauto|].
      eexists. right. eexists _, _. split; [|reflexivity]. reflexivity.
    + rewrite (extract_data_node_undecoded _ _ _ _ _ _ Hm HC).
      eexists. right. eexists _, _. split; [|reflexivity]. reflexivity.
  - rewrite (extract_data_node_unavailable _ _ _ _ Hm).
    eexists. right. eexists _, _. split; [|reflexivity]. reflexivity.
Qed.

Lemma finalize_node_line state out u :
  finalize_node py_repr state = (out, Returns u) ->
  exists line,
    is_success_line line = false
    /\ u = {|
         upd_user_input := None;
         upd_extracted_data := None;
         upd_iteration_count := None;
         upd_status := Some "completed";
         upd_messages := Some (messages state ++ [line])
       |}.
Proof.
  unfold finalize_node. intros H.
  apply bind_returns_inv in H as (? & [] & ? & _ & H & _).
  apply bind_returns_inv in H as (? & budget & ? & _ & H & _).
  apply bind_returns_inv in H as (? & preferensi & ? & _ & H & _).
  injection H as _ <-. eexists. split; [|reflexivity]. reflexivity.
Qed.

Lemma node_step_counted state state' :
  node_step json_loads py_repr state state' -> counted state -> counted state'.
Proof.
  unfold counted.
  intros [env r s out u H|s resume out c H|s out u H] Hs.
  - destruct (extract_data_node_line env r s)
      as [out' [[D H']|(marker & line & Hl & H')]]; rewrite H' in H;
      injection H as _ <-; unfold apply_update, extracted_update, error_update;
      cbn [from_option id upd_iteration_count upd_messages iteration_count
             messages];
      rewrite count_lines_app; cbn [count_lines].
    + rewrite success_line. lia.
    + rewrite Hl. lia.
  - destruct (human_review_node_line _ _ _ _ H) as [->|(text & line & Hl & ->)];
      [exact Hs|].
    unfold apply_update.
    cbn [from_option id upd_iteration_count upd_messages iteration_count
           messages].
    rewrite count_lines_app. cbn [count_lines]. rewrite Hl. lia.
  - destruct (finalize_node_line _ _ _ H) as (line & Hl & ->).
    unfold apply_update.
    cbn [from_option id upd_iteration_count upd_messages iteration_count
           messages].
    rewrite count_lines_app. cbn [count_lines]. rewrite Hl. lia.
Qed.

Lemma steps_counted state state' :
  rtc (node_step json_loads py_repr) state state' -> counted state -> counted state'.
Proof. induction 1; eauto using node_step_counted. Qed.

(** X5. In every checkpoint of a session [iteration_count] is the number
    of messages that start with the text of a successful extraction,
    "✅ Data diekstrak (iterasi ". *)
Theorem iteration_count_is_the_number_of_success_lines c :
  session json_loads py_repr c ->
  iteration_count (values c) = count_lines is_success_line (messages (values c)).
Proof.
  induction 1 as [ui env r out c p H|c env r h out c' p _ IH H].
  - rewrite invoke_initial_eq in H.
    eapply steps_counted; [exact (pregel_loop_steps _ _ _ _ _ _ _ _ _ _ _ H)|].
    reflexivity.
  - rewrite invoke_resume_eq in H.
    eapply steps_counted; [exact (pregel_loop_steps _ _ _ _ _ _ _ _ _ _ _ H)|].
    exact IH.
Qed.

End Counting.

(** ** The calls of the graph *)

Lemma bind_within_limit {A B} (m : io A) (k : A -> io B) :
  within_limit m ->
  (forall out a, m = (out, Returns a) -> within_limit (k a)) ->
  within_limit (bind m k).
Proof.
  destruct m as [out [a|e]]; intros Hm Hk.
  - specialize (Hk out a eq_refl). unfold within_limit in *.
    unfold bind. cbn [snd fst]. destruct (k a) as [out' [b|e]]; exact Hk.
  - exact Hm.
Qed.

Lemma human_review_node_within_limit state resume :
  within_limit (human_review_node state resume).
Proof.
  destruct (formattable_budget (get (extracted_data state) "budget")) eqn:Hb.
  - destruct (format_display_data_returns _ Hb) as [dd Hdd].
    unfold human_review_node. rewrite Hdd.
    change ([], Returns dd) with (ret (A:=dict) dd). rewrite bind_ret.
    unfold interrupt. destruct resume as [h|]; [|exact I].
    destruct (py_in (lower h) affirm).
    + destruct (missing_labels _); exact I.
    + destruct (py_in (lower h) finish); exact I.
  - destruct (format_display_data_raises _ Hb) as (e & He & Hk).
    unfold human_review_node. rewrite He. exact Hk.
Qed.

Lemma human_review_node_goto state resume out c :
  human_review_node state resume = (out, Returns (Route c)) ->
  goto c = extract_data \/ goto c = finalize.
Proof.
  unfold human_review_node. intros H.
  apply bind_returns_inv in H as (o1 & dd & o2 & _ & H & _).
  destruct resume as [human_decision|]; [|done]. unfold interrupt in H.
  destruct (py_in (lower human_decision) affirm).
  - destruct (missing_labels (extracted_data state)); injection H as _ <-; auto.
  - destruct (py_in (lower human_decision) finish); injection H as _ <-; auto.
Qed.

Section Limit.

Context (json_loads : string -> outcome json) (py_repr : json -> string).

Lemma str_items_within_limit i items : within_limit (str_items i items).
Proof.
  revert i. induction items as [|v items IH]; intros i; [exact I|].
  destruct v; try (right; reflexivity).
  cbn [str_items]. apply bind_within_limit; [apply IH|]. intros; exact I.
Qed.

Lemma finalize_node_within_limit state :
  within_limit (finalize_node py_repr state).
Proof.
  unfold finalize_node.
  apply bind_within_limit; [exact I|]. intros _ _ _.
  apply bind_within_limit.
  { unfold format_budget. destruct (negb _); [exact I|].
    apply bind_within_limit; [|intros; exact I].
    destruct (get (extracted_data state) "budget") as [|[]| | | |];
      first [exact I|left; reflexivity|right; reflexivity]. }
  intros _ budget _. apply bind_within_limit; [|intros; exact I].
  destruct (truthy _); [|exact I].
  unfold join_value.
  destruct (get_or _ _ _); try exact I; try (right; reflexivity).
  apply bind_within_limit; [apply str_items_within_limit|]. intros; exact I.
Qed.

Lemma extract_data_node_within_limit env r state out a :
  extract_data_node json_loads env r state = (out, a) -> exists u, a = Returns u.
Proof.
  destruct (extract_data_node_cases json_loads env r state)
    as [out' [[D H]|(marker & line & H)]]; rewrite H; intros [= _ <-]; eauto.
Qed.

Lemma pending_review_within_limit steps env r state :
  within_limit
    (pregel_loop json_loads py_repr (S steps) env r (Some human_review) None state).
Proof.
  rewrite pregel_loop_human_review.
  apply bind_within_limit; [apply human_review_node_within_limit|].
  intros out rv H.
  destruct (human_review_node_pending _ _ _ H) as [p ->]. exact I.
Qed.

Lemma extraction_within_limit steps env r state :
  within_limit
    (pregel_loop json_loads py_repr (S (S steps)) env r (Some extract_data) None
       state).
Proof.
  rewrite pregel_loop_extract_data.
  destruct (extract_data_node json_loads env r state) as [out a] eqn:H.
  destruct (extract_data_node_within_limit _ _ _ _ _ H) as [u ->].
  apply bind_within_limit; [exact I|]. intros _ u' _.
  apply pending_review_within_limit.
Qed.

Lemma finalize_within_limit steps env r resume state :
  within_limit
    (pregel_loop json_loads py_repr (S steps) env r (Some finalize) resume state).
Proof.
  rewrite pregel_loop_finalize.
  apply bind_within_limit; [apply finalize_node_within_limit|].
  intros out u _. rewrite pregel_loop_END. exact I.
Qed.

Lemma review_within_limit steps env r resume state :
  within_limit
    (pregel_loop json_loads py_repr (S (S (S steps))) env r (Some human_review)
       resume state).
Proof.
  rewrite pregel_loop_human_review.
  apply bind_within_limit; [apply human_review_node_within_limit|].
  intros out [p|c] H; [exact I|].
  destruct (human_review_node_goto _ _ _ _ H) as [-> | ->].
  - apply extraction_within_limit.
  - apply finalize_within_limit.
Qed.

Lemma call_within_limit steps env r n resume state :
  within_limit
    (pregel_loop json_loads py_repr (S (S (S (S steps)))) env r n resume state).
Proof.
  destruct n as [[| |]|].
  - rewrite pregel_loop_extract_data.
    destruct (extract_data_node json_loads env r state) as [out a] eqn:H.
    destruct (extract_data_node_within_limit _ _ _ _ _ H) as [u ->].
    apply bind_within_limit; [exact I|]. intros _ u' _.
    apply review_within_limit.
  - apply review_within_limit.
  - apply finalize_within_limit.
  - rewrite pregel_loop_END. exact I.
Qed.

(** X6. No call of the graph runs into the recursion limit.  Four node
    runs are enough for a call from any node, with or without a resume
    value; so a first call and a resume from any checkpoint return, or
    raise the [ValueError] or [TypeError] of a value that cannot be
    formatted, and never [GraphRecursionError]. *)
Theorem calls_stay_within_the_recursion_limit env r :
  (forall steps n resume state,
     within_limit
       (pregel_loop json_loads py_repr (4 + steps) env r n resume state))
  /\ (forall state,
        within_limit (invoke_initial json_loads py_repr env r state)
        /\ result (invoke_initial json_loads py_repr env r state)
           <> Raises GraphRecursionError)
  /\ (forall c human_input,
        within_limit (invoke_resume json_loads py_repr env r c human_input)
        /\ result (invoke_resume json_loads py_repr env r c human_input)
           <> Raises GraphRecursionError).
Proof.
  assert (forall A (m : io A), within_limit m ->
            within_limit m /\ result m <> Raises GraphRecursionError) as Hw.
  { intros A m H. split; [exact H|]. unfold within_limit in H. intros He.
    rewrite He in H. destruct H as [H|H]; discriminate H. }
  split; [|split].
  - intros steps n resume state. exact (call_within_limit steps env r n resume state).
  - intros state. apply Hw. rewrite invoke_initial_eq.
    exact (call_within_limit 21 env r _ _ _).
  - intros c human_input. apply Hw. rewrite invoke_resume_eq.
    exact (call_within_limit 21 env r _ _ _).
Qed.

(** X7. In a checkpoint of a session whose status is [error] the record is
    the error marker alone: what earlier passes extracted is gone, all four
    required fields count as missing, and the review of it suspends. *)
Theorem failed_extraction_leaves_only_the_marker c :
  session json_loads py_repr c ->
  status (values c) = "error" ->
  (exists marker, extracted_data (values c) = {["error" := JStr marker]})
  /\ missing_labels (extracted_data (values c)) = required_fields.*2
  /\ exists p, human_review_node (values c) None = ([], Returns (Interrupt p)).
Proof.
  intros Hc Hs. destruct (session_marked _ _ _ Hc Hs) as [marker Hm].
  split; [eauto|]. split; [|exact (review_of_error_marker _ _ Hm)].
  rewrite Hm. unfold missing_labels, required_fields, get.
  cbn [foldl fmap list_fmap snd].
  rewrite !lookup_singleton_ne by done. reflexivity.
Qed.

(** X8. A decision that is neither an affirm word nor a finish word is a
    correction.  Resuming a pending review with it writes the text to
    [user_input], appends the line that echoes it and runs the extraction
    step again within the same call.  The call then stops at the review of
    the new record, or raises the formatting error of that record's
    budget. *)
Theorem correction_reruns_extraction env r c human_input :
  next c = Some human_review ->
  formattable_budget (get (extracted_data (values c)) "budget") = true ->
  py_in (lower human_input) affirm = false ->
  py_in (lower human_input) finish = false ->
  let asked :=
    apply_update (values c) {|
      upd_user_input := Some human_input;
      upd_extracted_data := None;
      upd_iteration_count := None;
      upd_status := None;
      upd_messages :=
        Some (messages (values c)
              ++ ["🔄 Memproses input tambahan: " +:+ human_input])
    |} in
  exists out u,
    extract_data_node json_loads env r asked = (out, Returns u)
    /\ let state' := apply_update asked u in
       user_input state' = human_input
       /\ if formattable_budget (get (extracted_data state') "budget")
          then exists p,
                 invoke_resume json_loads py_repr env r c human_input
                 = (out, Returns ({| values := state'; next := Some human_review |},
                                  Some p))
          else exists e,
                 formatting_error e
                 /\ invoke_resume json_loads py_repr env r c human_input
                    = (out, Raises e).
Proof.
  intros Hn Hb Ha Hf asked.
  destruct (human_review_node_formattable _ Hb) as [p0 Hp0].
  pose proof (other_text_routes_to_extraction _ human_input _ _ Hp0 Ha Hf) as Hrv.
  fold asked in Hrv.
  destruct (extract_data_node json_loads env r asked) as [out a] eqn:Hx.
  destruct (extract_data_node_within_limit _ _ _ _ _ Hx) as [u ->].
  exists out, u. split; [reflexivity|]. cbv zeta.
  assert (user_input (apply_update asked u) = human_input) as Hui.
  { destruct (extract_data_node_cases json_loads env r asked)
      as [out' [[D H]|(marker & line & H)]]; rewrite H in Hx;
      injection Hx as _ <-; reflexivity. }
  split; [exact Hui|].
  assert (invoke_resume json_loads py_repr env r c human_input
          = bind (out, Returns u)
              (fun u => pregel_loop json_loads py_repr 23 env r
                          (Some human_review) None (apply_update asked u)))
    as Hrun.
  { rewrite invoke_resume_eq, Hn. unfold recursion_limit.
    rewrite pregel_loop_human_review, Hrv.
    change ([], Returns ?x) with (ret x). rewrite bind_ret.
    cbn [goto update]. fold asked.
    rewrite pregel_loop_extract_data, Hx. reflexivity. }
  rewrite Hrun, bind_returns, pregel_loop_human_review.
  destruct (formattable_budget (get (extracted_data (apply_update asked u)) "budget"))
    eqn:Hb'.
  - destruct (human_review_node_formattable _ Hb') as [p Hp].
    exists p. rewrite Hp.
    change ([], Returns ?x) with (ret x). rewrite bind_ret.
    unfold ret, stdout, result. cbn [fst snd]. by rewrite app_nil_r.
  - destruct (human_review_node_unformattable _ Hb') as (e & He & Hraise).
    exists e. split; [exact He|]. rewrite Hraise.
    unfold bind, stdout, result. cbn [fst snd]. by rewrite app_nil_r.
Qed.

End Limit.

(** ** The order of dates and the reconciliation *)

Lemma days_before_next_year y :
  days_before_year (y + 1)
  = days_before_year y + 365 + (if is_leap y then 1 else 0).
Proof.
  unfold days_before_year, is_leap.
  replace (y + 1 - 1) with y by lia.
  destruct (Z.eqb_spec (y mod 4) 0) as [H4|H4];
    destruct (Z.eqb_spec (y mod 100) 0) as [H100|H100];
    destruct (Z.eqb_spec (y mod 400) 0) as [H400|H400];
    cbn [negb andb orb]; Z.div_mod_to_equations; lia.
Qed.

Lemma days_before_year_mono y y' :
  y <= y' -> days_before_year y <= days_before_year y'.
Proof. unfold days_before_year. intros. Z.div_mod_to_equations. lia. Qed.

Lemma month_cases m :
  1 <= m <= 12 ->
  m = 1 \/ m = 2 \/ m = 3 \/ m = 4 \/ m = 5 \/ m = 6
  \/ m = 7 \/ m = 8 \/ m = 9 \/ m = 10 \/ m = 11 \/ m = 12.
Proof. lia. Qed.

Lemma valid_date_bounds d :
  valid_date d = true ->
  1 <= year d <= 9999 /\ 1 <= month d <= 12
  /\ 1 <= day d <= days_in_month (year d) (month d).
Proof. unfold valid_date. intros H. repeat apply andb_true_iff in H as [H ?]. lia. Qed.

Lemma day_of_year_bounds y m d :
  1 <= m <= 12 -> 1 <= d <= days_in_month y m ->
  1 <= days_before_month y m + d <= 365 + (if is_leap y then 1 else 0).
Proof.
  intros Hm. unfold days_in_month, days_before_month.
  destruct (is_leap y);
    destruct (month_cases m Hm) as [->|[->|[->|[->|[->|[->|[->|[->|[->|[->|[->| ->]]]]]]]]]]];
    cbn; lia.
Qed.

Lemma days_before_month_next y m m' d :
  1 <= m -> m < m' -> m' <= 12 -> d <= days_in_month y m ->
  days_before_month y m + d <= days_before_month y m'.
Proof.
  intros H1 Hlt H12. unfold days_in_month, days_before_month.
  assert (1 <= m <= 12) as Hm by lia. assert (1 <= m' <= 12) as Hm' by lia.
  destruct (is_leap y);
    destruct (month_cases m Hm) as [->|[->|[->|[->|[->|[->|[->|[->|[->|[->|[->| ->]]]]]]]]]]];
    destruct (month_cases m' Hm') as [->|[->|[->|[->|[->|[->|[->|[->|[->|[->|[->| ->]]]]]]]]]]];
    try lia; cbn; lia.
Qed.

(** The order of two dates is the order of their day numbers. *)
Lemma toordinal_lt a b :
  valid_date a = true -> valid_date b = true ->
  date_le b a = false -> toordinal a < toordinal b.
Proof.
  intros (Hya & Hma & Hda)%valid_date_bounds (Hyb & Hmb & Hdb)%valid_date_bounds.
  unfold date_le, toordinal.
  destruct (Z.eqb_spec (year b) (year a)) as [Hy|Hy].
  - rewrite Hy in *. destruct (Z.eqb_spec (month b) (month a)) as [Hm|Hm].
    + rewrite Hm. intros H%Z.leb_gt. lia.
    + intros H%Z.ltb_ge.
      pose proof (days_before_month_next (year a) (month a) (month b) (day a)).
      lia.
  - intros H%Z.ltb_ge.
    pose proof (day_of_year_bounds (year a) (month a) (day a) Hma Hda).
    pose proof (day_of_year_bounds (year b) (month b) (day b) Hmb Hdb).
    pose proof (days_before_next_year (year a)).
    pose proof (days_before_year_mono (year a + 1) (year b)). lia.
Qed.

Lemma date_le_antisym a b :
  date_le a b = true -> date_le b a = true -> a = b.
Proof.
  unfold date_le. destruct a as [ya ma da], b as [yb mb db].
  cbn [year month day].
  destruct (Z.eqb_spec ya yb) as [->|Hy].
  - rewrite Z.eqb_refl. destruct (Z.eqb_spec ma mb) as [->|Hm].
    + rewrite Z.eqb_refl. intros H1%Z.leb_le H2%Z.leb_le. f_equal. lia.
    + destruct (Z.eqb_spec mb ma) as [->|_]; [done|].
      intros H1%Z.ltb_lt H2%Z.ltb_lt. lia.
  - destruct (Z.eqb_spec yb ya) as [->|_]; [done|].
    intros H1%Z.ltb_lt H2%Z.ltb_lt. lia.
Qed.

Lemma toordinal_inj a b :
  valid_date a = true -> valid_date b = true ->
  toordinal a = toordinal b -> a = b.
Proof.
  intros Ha Hb Heq.
  destruct (date_le b a) eqn:Hba.
  - destruct (date_le a b) eqn:Hab.
    + by apply date_le_antisym.
    + pose proof (toordinal_lt b a Hb Ha Hab). lia.
  - pose proof (toordinal_lt a b Ha Hb Hba). lia.
Qed.

Lemma fromordinal_toordinal d :
  valid_date d = true -> fromordinal (toordinal d) = d.
Proof.
  intros Hd. pose proof (toordinal_bounds d Hd) as Hn.
  apply toordinal_inj; [by apply fromordinal_valid|done|].
  apply toordinal_fromordinal.
Qed.

Lemma reconcile_dates_valid_range C ci co dci dco :
  get C "tanggal_checkin" = JStr ci ->
  get C "tanggal_checkout" = JStr co ->
  strptime_ymd ci = Some dci ->
  strptime_ymd co = Some dco ->
  date_le dco dci = false ->
  reconcile_dates C
  = ([], Returns (<["jumlah_malam" := JInt (days_between dco dci)]> C)).
Proof.
  intros Hci Hco Hdci Hdco Hle. unfold reconcile_dates.
  rewrite Hci, Hco, (strptime_ymd_truthy _ _ Hdci), (strptime_ymd_truthy _ _ Hdco).
  cbn [andb].
  rewrite (strptime_of_str _ _ Hdci), (strptime_of_str _ _ Hdco), !bind_ret, Hle.
  reflexivity.
Qed.

Lemma reconcile_dates_unreadable C ci co :
  get C "tanggal_checkin" = JStr ci ->
  get C "tanggal_checkout" = JStr co ->
  ci <> "" -> co <> "" ->
  strptime_ymd ci = None \/ strptime_ymd co = None ->
  reconcile_dates C = (["⚠️ Warning: Format tanggal tidak valid"], Returns C).
Proof.
  intros Hci Hco Hi Ho Hbad. unfold reconcile_dates. rewrite Hci, Hco.
  assert (truthy (JStr ci) = true) as -> by (by destruct ci).
  assert (truthy (JStr co) = true) as -> by (by destruct co).
  cbn [andb]. unfold strptime.
  destruct (strptime_ymd ci) as [dci|].
  - destruct Hbad as [?|Hbad]; [done|]. rewrite Hbad. reflexivity.
  - reflexivity.
Qed.

Lemma strftime_ymd_nonempty d : strftime_ymd d <> "".
Proof.
  unfold strftime_ymd. destruct (strftime_Y (year d)); discriminate.
Qed.

(** A record with a check-in that parses and a checkout written by
    [strftime], checked again: the range is looked at when the year has
    four digits, and the text is not read at all when it has fewer. *)
Lemma reconcile_dates_derived (D : dict) ci checkin_date checkout_date :
  get D "tanggal_checkin" = JStr ci ->
  get D "tanggal_checkout" = JStr (strftime_ymd checkout_date) ->
  strptime_ymd ci = Some checkin_date ->
  valid_date checkout_date = true ->
  reconcile_dates D
  = if 1000 <=? year checkout_date
    then
      if date_le checkout_date checkin_date
      then ([range_warning], Returns D)
      else ([], Returns (<["jumlah_malam" :=
                             JInt (days_between checkout_date checkin_date)]> D))
    else (["⚠️ Warning: Format tanggal tidak valid"], Returns D).
Proof.
  intros Hci Hco Hdci Hvo.
  pose proof (strptime_strftime_year _ Hvo) as Hparse.
  destruct (1000 <=? year checkout_date).
  - destruct (date_le checkout_date checkin_date) eqn:Hle.
    + by apply (reconcile_dates_invalid_range D ci (strftime_ymd checkout_date)
                  checkin_date checkout_date).
    + by apply (reconcile_dates_valid_range D ci (strftime_ymd checkout_date)
                  checkin_date checkout_date).
  - apply (reconcile_dates_unreadable D ci (strftime_ymd checkout_date));
      [done|done| |apply strftime_ymd_nonempty|by right].
    intros ->. discriminate Hdci.
Qed.

Lemma get_insert_eq (C : dict) k v : get (<[k := v]> C) k = v.
Proof. unfold get. by rewrite lookup_insert_eq. Qed.

Lemma get_insert_ne (C : dict) k k' v : k <> k' -> get (<[k := v]> C) k' = get C k'.
Proof. intros. unfold get. by rewrite lookup_insert_ne. Qed.

(** X9. When the check-in and the checkout both parse and the checkout is
    the later one, the extraction overwrites [jumlah_malam] with the number
    of days between them.  That number is at least 1, the check-in plus
    that many days is the checkout, and a second pass over the result
    changes nothing. *)
Theorem nights_follow_the_dates C ci co checkin_date checkout_date :
  get C "tanggal_checkin" = JStr ci ->
  get C "tanggal_checkout" = JStr co ->
  strptime_ymd ci = Some checkin_date ->
  strptime_ymd co = Some checkout_date ->
  date_le checkout_date checkin_date = false ->
  let nights := days_between checkout_date checkin_date in
  let D := <["jumlah_malam" := JInt nights]> C in
  reconcile_dates C = ([], Returns D)
  /\ 1 <= nights
  /\ date_add checkin_date nights = ([], Returns checkout_date)
  /\ reconcile_dates D = ([], Returns D).
Proof.
  intros Hci Hco Hdci Hdco Hle nights D.
  pose proof (strptime_ymd_valid _ _ Hdci) as Hvi.
  pose proof (strptime_ymd_valid _ _ Hdco) as Hvo.
  pose proof (toordinal_lt _ _ Hvi Hvo Hle) as Hlt.
  pose proof (toordinal_bounds _ Hvo) as Hbo.
  split; [exact (reconcile_dates_valid_range _ _ _ _ _ Hci Hco Hdci Hdco Hle)|].
  split; [unfold nights, days_between; lia|].
  split.
  - unfold date_add, nights, days_between.
    replace (toordinal checkin_date + (toordinal checkout_date - toordinal checkin_date))
      with (toordinal checkout_date) by lia.
    rewrite (fromordinal_toordinal _ Hvo).
    destruct (Z.ltb_spec 0 (toordinal checkout_date)); [|lia].
    destruct (Z.leb_spec (toordinal checkout_date) MAXORDINAL); [|lia].
    reflexivity.
  - rewrite (reconcile_dates_valid_range D ci co checkin_date checkout_date);
      try done.
    + unfold D. by rewrite insert_insert_eq.
    + unfold D. by rewrite get_insert_ne.
    + unfold D. by rewrite get_insert_ne.
Qed.

(** X10. A checkout derived from the check-in and a positive number of
    nights is later than the check-in.  Checked again, the record that
    holds it stays as it is: without a warning when the year of the
    checkout has four digits, and with the format warning when that year
    is below 1000, which [strftime] writes with fewer digits than
    [strptime] takes. *)
Theorem derived_checkout_is_stable C ci checkin_date n :
  get C "tanggal_checkin" = JStr ci ->
  strptime_ymd ci = Some checkin_date ->
  get C "jumlah_malam" = JInt n ->
  truthy (get C "tanggal_checkout") = false ->
  0 < n ->
  toordinal checkin_date + n <= MAXORDINAL ->
  let checkout_date := fromordinal (toordinal checkin_date + n) in
  let D := <["tanggal_checkout" := JStr (strftime_ymd checkout_date)]> C in
  reconcile_dates C = ([], Returns D)
  /\ date_le checkout_date checkin_date = false
  /\ reconcile_dates D
     = (if 1000 <=? year checkout_date then [] else ["⚠️ Warning: Format tanggal tidak valid"],
        Returns D).
Proof.
  intros Hci Hdci Hn Hco Hpos Hmax checkout_date D.
  pose proof (strptime_ymd_valid _ _ Hdci) as Hvi.
  pose proof (toordinal_bounds _ Hvi) as Hbi.
  assert (valid_date checkout_date = true) as Hvo
    by (apply fromordinal_valid; lia).
  assert (toordinal checkout_date = toordinal checkin_date + n) as Hto
    by apply toordinal_fromordinal.
  assert (date_le checkout_date checkin_date = false) as Hle.
  { destruct (date_le checkout_date checkin_date) eqn:Hle; [|done].
    destruct (date_le checkin_date checkout_date) eqn:Hle'.
    - assert (checkin_date = checkout_date) as Heq
        by (by apply date_le_antisym).
      rewrite <- Heq in Hto. lia.
    - pose proof (toordinal_lt _ _ Hvo Hvi Hle'). lia. }
  split.
  { apply (reconcile_dates_derives_checkout C ci checkin_date n); try done; lia. }
  split; [exact Hle|].
  rewrite (reconcile_dates_derived D ci checkin_date checkout_date), Hle.
  - destruct (1000 <=? year checkout_date); [|reflexivity].
    unfold days_between. rewrite Hto.
    replace (toordinal checkin_date + n - toordinal checkin_date) with n by lia.
    f_equal. f_equal. apply insert_id. unfold D.
    rewrite lookup_insert_ne by done.
    unfold get in Hn. destruct (C !! "jumlah_malam") as [v|]; cbn in Hn; by subst.
  - unfold D. by rewrite get_insert_ne.
  - unfold D. by rewrite get_insert_eq.
  - done.
  - done.
Qed.

(** X11. When the check-in and the checkout are non-empty texts and one of
    them does not parse as [%Y-%m-%d], the decoded record is kept as it is
    and the format warning is printed. *)
Theorem unreadable_date_keeps_record C ci co :
  get C "tanggal_checkin" = JStr ci ->
  get C "tanggal_checkout" = JStr co ->
  ci <> "" -> co <> "" ->
  strptime_ymd ci = None \/ strptime_ymd co = None ->
  reconcile_dates C = (["⚠️ Warning: Format tanggal tidak valid"], Returns C).
Proof.
  intros Hci Hco Hi Ho Hbad. unfold reconcile_dates. rewrite Hci, Hco.
  assert (truthy (JStr ci) = true) as -> by (by destruct ci).
  assert (truthy (JStr co) = true) as -> by (by destruct co).
  cbn [andb]. unfold strptime.
  destruct (strptime_ymd ci) as [dci|].
  - destruct Hbad as [?|Hbad]; [done|]. rewrite Hbad. reflexivity.
  - reflexivity.
Qed.

Lemma toordinal_le a b :
  valid_date a = true -> valid_date b = true ->
  toordinal a <= toordinal b -> date_le a b = true.
Proof.
  intros Ha Hb Hle. destruct (date_le a b) eqn:H; [done|].
  pose proof (toordinal_lt b a Hb Ha H). lia.
Qed.

(** X12. A negative number of nights derives a checkout before the
    check-in, and the pass that derives it prints no warning.  A warning
    comes only when such a record is checked again: the range warning when
    the year of the checkout has four digits, the format warning when that
    year is below 1000. *)
Theorem negative_nights_derive_an_earlier_checkout C ci checkin_date n :
  get C "tanggal_checkin" = JStr ci ->
  strptime_ymd ci = Some checkin_date ->
  get C "jumlah_malam" = JInt n ->
  truthy (get C "tanggal_checkout") = false ->
  n < 0 ->
  0 < toordinal checkin_date + n ->
  let checkout_date := fromordinal (toordinal checkin_date + n) in
  let D := <["tanggal_checkout" := JStr (strftime_ymd checkout_date)]> C in
  reconcile_dates C = ([], Returns D)
  /\ date_le checkout_date checkin_date = true
  /\ checkout_date <> checkin_date
  /\ reconcile_dates D
     = (if 1000 <=? year checkout_date
        then [range_warning] else ["⚠️ Warning: Format tanggal tidak valid"],
        Returns D).
Proof.
  intros Hci Hdci Hn Hco Hneg Hpos checkout_date D.
  pose proof (strptime_ymd_valid _ _ Hdci) as Hvi.
  pose proof (toordinal_bounds _ Hvi) as Hbi.
  assert (valid_date checkout_date = true) as Hvo
    by (apply fromordinal_valid; lia).
  assert (toordinal checkout_date = toordinal checkin_date + n) as Hto
    by apply toordinal_fromordinal.
  assert (date_le checkout_date checkin_date = true) as Hle
    by (apply toordinal_le; [done|done|lia]).
  split.
  { apply (reconcile_dates_derives_checkout C ci checkin_date n); try done; lia. }
  split; [exact Hle|]. split.
  { intros Heq. rewrite Heq in Hto. lia. }
  rewrite (reconcile_dates_derived D ci checkin_date checkout_date), Hle.
  - by destruct (1000 <=? year checkout_date).
  - unfold D. by rewrite get_insert_ne.
  - unfold D. by rewrite get_insert_eq.
  - done.
  - done.
Qed.

(** ** Replacement in strings: the displayed date and the fenced reply *)

Lemma string_app_cons a (x y : string) : String a x +:+ y = String a (x +:+ y).
Proof. reflexivity. Qed.

Lemma prefix_nil_l s : String.prefix "" s = true.
Proof. by destruct s. Qed.

Lemma prefix_cons a b (p s : string) :
  String.prefix (String a p) (String b s)
  = if ascii_dec a b then String.prefix p s else false.
Proof. reflexivity. Qed.

Lemma prefix_length p s :
  String.prefix p s = true -> (String.length p <= String.length s)%nat.
Proof.
  revert s. induction p as [|a p IH]; intros [|b s]; cbn [String.length];
    try lia; try discriminate.
  rewrite prefix_cons. destruct (ascii_dec a b); [|discriminate].
  intros H%IH. lia.
Qed.

(** A character that [old] does not hold ends every attempt to match it. *)
Lemma prefix_separator c old x y :
  has_char c old = false ->
  old <> "" ->
  String.prefix old (x +:+ String c y) = String.prefix old x.
Proof.
  revert x. induction old as [|o old IH]; intros x Hc Hne; [done|].
  cbn [has_char] in Hc. destruct (ascii_dec c o) as [|Hco]; [discriminate|].
  destruct x as [|a x].
  - change ("" +:+ String c y) with (String c y). rewrite prefix_cons.
    destruct (ascii_dec o c); [by subst|]. reflexivity.
  - rewrite string_app_cons, !prefix_cons. destruct (ascii_dec o a); [|done].
    destruct old as [|o' old'].
    + by rewrite !prefix_nil_l.
    + by apply IH.
Qed.

Lemma replace_from_separator c old new x y skip :
  has_char c old = false ->
  old <> "" ->
  (skip <= String.length x)%nat ->
  replace_from old new skip (x +:+ String c y)
  = replace_from old new skip x +:+ String c (replace_from old new O y).
Proof.
  intros Hc Hne. revert skip. induction x as [|a x IH]; intros skip Hk.
  - cbn [String.length] in Hk. assert (skip = O) as -> by lia.
    change ("" +:+ String c y) with (String c y).
    cbn [replace_from].
    replace (String.prefix old (String c y)) with false; [reflexivity|].
    symmetry. change (String c y) with ("" +:+ String c y).
    rewrite (prefix_separator c old "" y Hc Hne). by destruct old.
  - rewrite string_app_cons. cbn [String.length] in Hk.
    destruct skip as [|k]; cbn [replace_from].
    + rewrite <- string_app_cons, (prefix_separator c old (String a x) y Hc Hne).
      destruct (String.prefix old (String a x)) eqn:Hp.
      * rewrite IH.
        -- by rewrite string_app_assoc.
        -- apply prefix_length in Hp. cbn [String.length] in Hp. lia.
      * rewrite IH by lia. reflexivity.
    + apply IH. lia.
Qed.

Lemma replace_separator c old new x y :
  has_char c old = false ->
  old <> "" ->
  replace (x +:+ String c y) old new
  = replace x old new +:+ String c (replace y old new).
Proof.
  intros Hc Hne. unfold replace. destruct old as [|o old]; [done|].
  apply replace_from_separator; [done|done|lia].
Qed.

(** Digits are no part of a word that starts with a letter. *)
Lemma replace_digits o old new x :
  digit_in 0 9 o = false ->
  digits_only x = true ->
  replace x (String o old) new = x.
Proof.
  intros Ho. unfold replace. induction x as [|a x IH]; [done|].
  cbn [digits_only]. intros [Ha Hx]%andb_true_iff.
  cbn [replace_from]. rewrite prefix_cons.
  destruct (ascii_dec o a) as [->|_]; [congruence|]. by rewrite IH.
Qed.

Lemma indonesian_separator x y :
  indonesian (x +:+ String " " y) = indonesian x +:+ String " " (indonesian y).
Proof.
  unfold indonesian, month_mapping. cbn [foldl].
  by rewrite !replace_separator.
Qed.

Lemma indonesian_digits x : digits_only x = true -> indonesian x = x.
Proof.
  intros Hx. unfold indonesian, month_mapping. cbn [foldl].
  by repeat rewrite (replace_digits _ _ _ x) by done.
Qed.

Lemma pad2_checked : holds_from (fun d => digits_only (pad2 d)) 1 31 = true.
Proof. vm_compute. reflexivity. Qed.

Lemma year_digits y : 1 <= y <= 9999 -> digits_only (strftime_Y y) = true.
Proof.
  intros Hy. destruct (Z.lt_ge_cases y 1000) as [Hlt|Hge].
  - assert (short_year_ok y = true) as H.
    { apply (holds_from_spec _ _ _ _ short_year_checked). lia. }
    revert H. unfold short_year_ok. generalize (strftime_Y y).
    intros [|a [|b [|c [|? ?]]]] H; try discriminate H; cbn [digits_only].
    + by rewrite H.
    + apply andb_true_iff in H as [-> ->]. reflexivity.
    + apply andb_true_iff in H as [H ->]. apply andb_true_iff in H as [-> ->].
      reflexivity.
  - destruct (year_ok_spec y) as (a & b & c & e & -> & Ha & Hb & Hc & He & _).
    { apply (holds_from_spec _ _ _ _ year_checked). rewrite Z2Nat.id by done. lia. }
    cbn [digits_only]. by rewrite Ha, Hb, Hc, He.
Qed.

Lemma days_in_month_max y m : days_in_month y m <= 31.
Proof.
  unfold days_in_month. destruct ((m =? 2) && is_leap y); [lia|].
  unfold DAYS_IN_MONTH.
  repeat match goal with |- context [match ?x with _ => _ end] => destruct x end;
    lia.
Qed.

(** X13. A date text that parses is displayed as the day with two digits,
    the Indonesian name that [month_mapping] gives for its month, and the
    year as [strftime] writes it (its decimal digits, so [999] for the
    year 999): the twelve replacements touch nothing but the month
    name. *)
Theorem parsed_date_is_shown_in_indonesian s d :
  strptime_ymd s = Some d ->
  exists name,
    month_mapping !! Z.to_nat (month d - 1) = Some (month_name (month d), name)
    /\ display_date (JStr s)
       = ([], Returns (JStr (pad2 (day d) +:+ " " +:+ name +:+ " "
                             +:+ strftime_Y (year d)))).
Proof.
  intros Hs.
  destruct (valid_date_bounds _ (strptime_ymd_valid _ _ Hs)) as (Hy & Hm & Hd).
  pose proof (days_in_month_max (year d) (month d)) as Hmax.
  assert (digits_only (pad2 (day d)) = true) as Hd2.
  { apply (holds_from_spec _ _ _ _ pad2_checked). lia. }
  pose proof (year_digits _ Hy) as Hy4.
  unfold display_date. rewrite (strptime_of_str _ _ Hs), bind_ret.
  unfold strftime_dBY.
  change (pad2 (day d) +:+ " " +:+ month_name (month d) +:+ " "
          +:+ strftime_Y (year d))
    with (pad2 (day d) +:+ String " " (month_name (month d)
                                        +:+ String " " (strftime_Y (year d)))).
  rewrite !indonesian_separator, (indonesian_digits _ Hd2),
    (indonesian_digits _ Hy4).
  destruct (month_cases _ Hm)
    as [->|[->|[->|[->|[->|[->|[->|[->|[->|[->|[->| ->]]]]]]]]]]];
    eexists; (split; [reflexivity|]); reflexivity.
Qed.

Lemma rstrip_app s t : rstrip t <> "" -> rstrip (s +:+ t) = s +:+ rstrip t.
Proof.
  intros Ht. induction s as [|a s IH]; [done|].
  rewrite !string_app_cons. cbn [rstrip]. rewrite IH.
  destruct (s +:+ rstrip t) eqn:Hs; [|reflexivity].
  destruct s; [|discriminate Hs]. by destruct Ht.
Qed.

Lemma replace_from_absent o old new x y :
  has_char o x = false ->
  replace_from (String o old) new O (x +:+ y)
  = x +:+ replace_from (String o old) new O y.
Proof.
  induction x as [|a x IH]; [done|].
  cbn [has_char]. destruct (ascii_dec o a) as [|Ho]; [done|]. intros Hx.
  rewrite !string_app_cons. cbn [replace_from]. rewrite <- string_app_cons.
  rewrite string_app_cons, prefix_cons.
  destruct (ascii_dec o a); [done|]. by rewrite IH.
Qed.

Lemma replace_from_skip old new x s :
  replace_from old new (String.length x) (x +:+ s) = replace_from old new O s.
Proof. induction x as [|a x IH]; [done|]. exact IH. Qed.

Lemma replace_from_match old new s :
  old <> "" ->
  replace_from old new O (old +:+ s) = new +:+ replace_from old new O s.
Proof.
  intros Hne. pose proof (string_prefix_app old s) as Hp.
  destruct old as [|o old]; [done|].
  rewrite string_app_cons in *. cbn [replace_from].
  rewrite Hp. cbn [String.length Nat.pred].
  by rewrite replace_from_skip.
Qed.

Lemma lstrip_absent c s : has_char c s = false -> has_char c (lstrip s) = false.
Proof.
  induction s as [|a s IH]; [done|]. intros H. cbn [lstrip].
  destruct (isspace a); [|done]. apply IH.
  cbn [has_char] in H. by destruct (ascii_dec c a).
Qed.

Lemma rstrip_absent c s : has_char c s = false -> has_char c (rstrip s) = false.
Proof.
  induction s as [|a s IH]; [done|]. cbn [has_char rstrip].
  destruct (ascii_dec c a) as [|Hc] eqn:Hdec; [done|]. intros H.
  specialize (IH H). destruct (rstrip s).
  - destruct (isspace a); [done|]. cbn [has_char]. by rewrite Hdec.
  - cbn [has_char]. by rewrite Hdec.
Qed.

Lemma strip_absent c s : has_char c s = false -> has_char c (strip s) = false.
Proof. intros. by apply lstrip_absent, rstrip_absent. Qed.

Lemma clean_response_bare text :
  has_char "`" text = false -> clean_response text = strip text.
Proof.
  intros H%strip_absent. unfold clean_response, startswith, fence_json, fence.
  destruct (strip text) as [|a s]; [done|].
  cbn [has_char] in H. rewrite !prefix_cons.
  by destruct (ascii_dec "`" a).
Qed.

Lemma clean_response_fenced body :
  has_char "`" body = false ->
  clean_response (fence_json +:+ body +:+ fence) = strip body.
Proof.
  intros Hb. unfold clean_response.
  assert (strip (fence_json +:+ body +:+ fence) = fence_json +:+ body +:+ fence)
    as ->.
  { unfold strip.
    rewrite <- (string_app_assoc fence_json body fence), rstrip_app by done.
    rewrite (string_app_assoc fence_json body). reflexivity. }
  unfold startswith. rewrite string_prefix_app.
  assert (replace (fence_json +:+ body +:+ fence) fence_json "" = body +:+ fence)
    as ->.
  { unfold replace, fence_json at 2.
    rewrite (replace_from_match fence_json) by done.
    unfold fence_json. by rewrite replace_from_absent. }
  assert (replace (body +:+ fence) fence "" = body) as ->.
  { unfold replace, fence. rewrite replace_from_absent by done.
    cbn. apply string_app_nil_r. }
  reflexivity.
Qed.

Section Fences.

Context (json_loads : string -> outcome json).

(** X14. A reply that wraps a body without backquotes in a [```json] fence
    is cleaned to the stripped body, and is decoded as the body alone
    would be. *)
Theorem fenced_reply_decodes_like_its_body body :
  has_char "`" body = false ->
  clean_response (fence_json +:+ body +:+ fence) = strip body
  /\ decoded_record json_loads (Content (fence_json +:+ body +:+ fence))
     = decoded_record json_loads (Content body).
Proof.
  intros Hb. split; [by apply clean_response_fenced|].
  unfold decoded_record.
  by rewrite clean_response_fenced, clean_response_bare.
Qed.

End Fences.

(** ** The console demo *)

Section DemoProperties.

Context (json_loads : string -> outcome json) (py_repr : json -> string).

Lemma pregel_loop_stopped_at steps env r n resume state out c p :
  pregel_loop json_loads py_repr steps env r n resume state = (out, Returns (c, p)) ->
  stopped_at c p.
Proof.
  revert n resume state out.
  induction steps as [|steps IH]; intros n resume state out H.
  - destruct n; [done|]. injection H as _ <- <-. done.
  - destruct n as [[| |]|].
    + rewrite pregel_loop_extract_data in H.
      apply bind_returns_inv in H as (o1 & u & o2 & Hu & H & _). by eapply IH.
    + rewrite pregel_loop_human_review in H.
      apply bind_returns_inv in H as (o1 & rv & o2 & Hrv & H & _).
      destruct rv as [value|cmd].
      * injection H as _ <- <-. done.
      * by eapply IH.
    + rewrite pregel_loop_finalize in H.
      apply bind_returns_inv in H as (o1 & u & o2 & Hu & H & _). by eapply IH.
    + rewrite pregel_loop_END in H. injection H as _ <- <-. done.
Qed.

Lemma finalize_node_summary state out u :
  finalize_node py_repr state = (out, Returns u) ->
  exists budget preferensi,
    u = {|
      upd_user_input := None;
      upd_extracted_data := None;
      upd_iteration_count := None;
      upd_status := Some "completed";
      upd_messages :=
        Some (messages state
              ++ [summary_message py_repr (extracted_data state)
                    (iteration_count state) budget preferensi])
    |}.
Proof.
  unfold finalize_node. intros H.
  apply bind_returns_inv in H as (? & [] & ? & _ & H & _).
  apply bind_returns_inv in H as (? & budget & ? & _ & H & _).
  apply bind_returns_inv in H as (? & preferensi & ? & _ & H & _).
  injection H as _ <-. eauto.
Qed.

Lemma human_review_node_route state resume out c :
  human_review_node state resume = (out, Returns (Route c)) ->
  goto c = extract_data \/ (goto c = finalize /\ update c = no_update).
Proof.
  unfold human_review_node. intros H.
  apply bind_returns_inv in H as (o1 & dd & o2 & _ & H & _).
  destruct resume as [human_decision|]; [|done]. unfold interrupt in H.
  destruct (py_in (lower human_decision) affirm).
  - destruct (missing_labels (extracted_data state)); injection H as _ <-; auto.
  - destruct (py_in (lower human_decision) finish); injection H as _ <-; auto.
Qed.

(** The resume that ends a session ran [finalize] on the pending state. *)
Lemma finishing_resume env r c human_input out c' :
  next c = Some human_review ->
  invoke_resume json_loads py_repr env r c human_input = (out, Returns (c', None)) ->
  status (values c') = "completed"
  /\ exists budget preferensi,
       messages (values c')
       = messages (values c)
         ++ [summary_message py_repr (extracted_data (values c'))
               (iteration_count (values c')) budget preferensi].
Proof.
  intros Hn Hrun. rewrite invoke_resume_eq, Hn in Hrun.
  unfold recursion_limit in Hrun. rewrite pregel_loop_human_review in Hrun.
  apply bind_returns_inv in Hrun as (o1 & rv & o2 & Hrv & Hrun & _).
  destruct rv as [value|cmd]; [discriminate Hrun|].
  destruct (human_review_node_route _ _ _ _ Hrv) as [Hg|[Hg Hu]];
    rewrite Hg in Hrun.
  - pose proof (pregel_loop_stopped_at _ _ _ _ _ _ _ _ _ Hrun) as Hs.
    destruct (run_from_extract_data _ _ _ _ _ _ _ _ _ Hrun) as [Hn' _].
    cbn [stopped_at] in Hs. congruence.
  - rewrite Hu in Hrun. rewrite pregel_loop_finalize in Hrun.
    apply bind_returns_inv in Hrun as (? & u & ? & Hfin & H & _).
    rewrite pregel_loop_END in H. injection H as _ <-.
    destruct (finalize_node_summary _ _ _ Hfin) as (budget & preferensi & ->).
    split; [reflexivity|]. exists budget, preferensi. reflexivity.
Qed.

Lemma contains_here needle rest : contains needle (needle +:+ rest) = true.
Proof.
  destruct needle as [|a needle].
  - by destruct rest.
  - rewrite string_app_cons. cbn [contains]. rewrite <- string_app_cons.
    by rewrite string_prefix_app.
Qed.

Lemma contains_later needle a hay :
  contains needle hay = true -> contains needle (String a hay) = true.
Proof. intros H. cbn [contains]. rewrite H. apply orb_true_r. Qed.

Lemma summary_message_marked final_data iteration_count budget preferensi :
  contains "DATA BOOKING FINAL"
    (summary_message py_repr final_data iteration_count budget preferensi)
  = true.
Proof.
  unfold summary_message, nl.
  change (String (ascii_of_nat 10) "" +:+ "🎉 DATA BOOKING FINAL:" +:+ ?rest)
    with (String (ascii_of_nat 10)
            (String "240" (String "159" (String "142" (String "137" (String " "
               ("DATA BOOKING FINAL" +:+ String ":" rest))))))).
  do 6 apply contains_later. apply contains_here.
Qed.

Lemma interrupt_loop_result env replies call stdin c interrupted events stdin' c' :
  session json_loads py_repr c ->
  stopped_at c interrupted ->
  interrupt_loop json_loads py_repr env replies call stdin c interrupted
  = (events, stdin', Returns c') ->
  session json_loads py_repr c'
  /\ ((interrupted = None /\ c' = c)
      \/ exists c0 r human_input out,
           next c0 = Some human_review
           /\ invoke_resume json_loads py_repr env r c0 human_input
              = (out, Returns (c', None))).
Proof.
  revert call c interrupted events.
  induction stdin as [|line stdin IH]; intros call c interrupted events Hc Hs H.
  - destruct interrupted as [value|]; cbn [interrupt_loop] in H.
    + destruct (show_interrupt py_repr value) as [out [[]|e]]; discriminate H.
    + injection H as _ _ <-. auto.
  - destruct interrupted as [value|]; cbn [interrupt_loop] in H.
    + destruct (show_interrupt py_repr value) as [out [[]|e]]; [|discriminate H].
      destruct (bind _ _) as [out' [[c1 i1]|e]] eqn:Hcall; [|discriminate H].
      apply bind_returns_inv in Hcall as (? & [] & ? & _ & Hcall & _).
      destruct (interrupt_loop _ _ _ _ _ _ _ _) as [[ev s'] r] eqn:Hloop.
      injection H as _ -> ->.
      assert (session json_loads py_repr c1) as Hc1
        by (eapply session_resumed; [exact Hc|exact Hcall]).
      assert (stopped_at c1 i1) as Hs1.
      { rewrite invoke_resume_eq in Hcall.
        exact (pregel_loop_stopped_at _ _ _ _ _ _ _ _ _ Hcall). }
      destruct (IH _ _ _ _ Hc1 Hs1 Hloop) as [Hc' [[-> ->]|Hfin]].
      * split; [exact Hc'|]. right. eauto 10.
      * split; [exact Hc'|]. right. exact Hfin.
    + injection H as _ _ <-. auto.
Qed.

(** X15. When the interrupt loop of the demo ends without an exception, the
    checkpoint it ends with belongs to a session and has the status
    [completed]; its last message is the final summary, and the report
    prints both the success line and that summary. *)
Theorem demo_completes_with_the_summary env replies user_input stdin events
    stdin' c :
  demo_session json_loads py_repr env replies user_input stdin
  = (events, stdin', Returns c) ->
  session json_loads py_repr c
  /\ status (values c) = "completed"
  /\ exists earlier budget preferensi,
       let summary :=
         summary_message py_repr (extracted_data (values c))
           (iteration_count (values c)) budget preferensi in
       messages (values c) = earlier ++ [summary]
       /\ "✅ Proses HIL berhasil!" ∈ report (values c)
       /\ nl +:+ summary ∈ report (values c).
Proof.
  unfold demo_session. intros H.
  destruct (bind _ _) as [out [[c0 i0]|e]] eqn:Hcall; [|discriminate H].
  apply bind_returns_inv in Hcall as (? & [] & ? & _ & Hcall & _).
  destruct (interrupt_loop _ _ _ _ _ _ _ _) as [[ev s'] r] eqn:Hloop.
  injection H as _ -> ->.
  assert (session json_loads py_repr c0) as Hc0
    by (eapply session_started; exact Hcall).
  rewrite invoke_initial_eq in Hcall.
  pose proof (pregel_loop_stopped_at _ _ _ _ _ _ _ _ _ Hcall) as Hs0.
  destruct (run_from_extract_data _ _ _ _ _ _ _ _ _ Hcall) as [Hn0 _].
  destruct (interrupt_loop_result _ _ _ _ _ _ _ _ _ Hc0 Hs0 Hloop)
    as [Hc [[-> ->]|(c1 & r1 & h & out1 & Hn1 & Hfin)]].
  { cbn [stopped_at] in Hs0. congruence. }
  destruct (finishing_resume _ _ _ _ _ _ Hn1 Hfin)
    as (Hst & budget & preferensi & Hm).
  split; [exact Hc|]. split; [exact Hst|].
  exists (messages (values c1)), budget, preferensi. cbv zeta.
  split; [exact Hm|]. unfold report. rewrite Hst. cbn [String.eqb Ascii.eqb Bool.eqb].
  split.
  - apply elem_of_app. right. apply elem_of_app. left. apply list_elem_of_here.
  - apply elem_of_app. right. apply elem_of_app. left.
    apply list_elem_of_further, list_elem_of_In, in_map, list_elem_of_In.
    apply list_elem_of_filter. split; [apply summary_message_marked|].
    rewrite Hm. apply elem_of_app. right. apply list_elem_of_here.
Qed.

(** X16. The exits of the demo before the graph is called.  Exactly when
    [setup_gemini] would give no model, the demo prints one of its two
    requirement errors after the header and reads no input.  Otherwise it
    asks for the query: at the end of the input the [EOFError] of that
    first [input()] leaves the function, a blank query is answered with
    "❌ Input tidak boleh kosong!", and with any line to read the demo
    returns normally. *)
Theorem demo_stops_before_the_graph env replies stdin :
  (setup_gemini env = None ->
   exists line,
     (line = "❌ LangChain Google GenAI tidak tersedia!"
      \/ line = "❌ GOOGLE_API_KEY tidak ditemukan!")
     /\ run_langgraph_hil_demo json_loads py_repr env replies stdin
        = (demo_header ++ [Printed line], stdin, Returns tt))
  /\ (setup_gemini env <> None ->
      match stdin with
      | [] =>
          run_langgraph_hil_demo json_loads py_repr env replies stdin
          = (demo_header ++ query_prompt, [], Raises EOFError)
      | line :: rest =>
          (strip line = "" ->
           run_langgraph_hil_demo json_loads py_repr env replies stdin
           = (demo_header ++ query_prompt
                ++ [Printed "❌ Input tidak boleh kosong!"],
              rest, Returns tt))
          /\ (run_langgraph_hil_demo json_loads py_repr env replies stdin).2
             = Returns tt
      end).
Proof.
  unfold setup_gemini, run_langgraph_hil_demo.
  destruct (negb (GEMINI_AVAILABLE env)); cbn [orb].
  { split; [eauto|done]. }
  destruct (negb match GOOGLE_API_KEY env with
                 | Some key => negb (String.eqb key "")
                 | None => false
                 end).
  { split; [eauto|done]. }
  split; [done|]. intros _. destruct stdin as [|line rest]; [reflexivity|].
  split.
  - by intros ->.
  - destruct (String.eqb (strip line) ""); [reflexivity|].
    by destruct (demo_session _ _ _ _ _ _) as [[ev s'] [c|e]].
Qed.

Lemma interrupt_loop_strip env replies stdin1 stdin2 call c interrupted :
  map strip stdin1 = map strip stdin2 ->
  let run1 := interrupt_loop json_loads py_repr env replies call stdin1 c interrupted in
  let run2 := interrupt_loop json_loads py_repr env replies call stdin2 c interrupted in
  run1.1.1 = run2.1.1 /\ run1.2 = run2.2
  /\ map strip run1.1.2 = map strip run2.1.2.
Proof.
  cbv zeta. revert stdin2 call c interrupted.
  induction stdin1 as [|line1 stdin1 IH];
    intros [|line2 stdin2] call c interrupted Heq; try discriminate Heq.
  - done.
  - injection Heq as Hline Heq.
    destruct interrupted as [value|]; cbn [interrupt_loop];
      [|cbn [fst snd map]; by rewrite Hline, Heq].
    destruct (show_interrupt py_repr value) as [out [[]|e]];
      [|cbn [fst snd map]; by rewrite Hline, Heq].
    rewrite Hline.
    destruct (bind _ _) as [out' [[c1 i1]|e]];
      [|cbn [fst snd map]; by rewrite Heq].
    specialize (IH stdin2 (S call) c1 i1 Heq).
    destruct (interrupt_loop _ _ _ _ _ stdin1 _ _) as [[ev1 s1] r1].
    destruct (interrupt_loop _ _ _ _ _ stdin2 _ _) as [[ev2 s2] r2].
    cbn [fst snd] in *. destruct IH as (-> & -> & ->). done.
Qed.

(** X17. Blanks around the lines typed at the prompts make no difference:
    two inputs whose lines are equal after [strip()] give the same output
    and the same outcome, and leave the same lines unread up to blanks. *)
Theorem demo_ignores_surrounding_blanks env replies stdin1 stdin2 :
  map strip stdin1 = map strip stdin2 ->
  let run1 := run_langgraph_hil_demo json_loads py_repr env replies stdin1 in
  let run2 := run_langgraph_hil_demo json_loads py_repr env replies stdin2 in
  run1.1.1 = run2.1.1 /\ run1.2 = run2.2
  /\ map strip run1.1.2 = map strip run2.1.2.
Proof.
  intros Heq. cbv zeta. unfold run_langgraph_hil_demo.
  destruct (negb (GEMINI_AVAILABLE env)); [done|].
  destruct (negb match GOOGLE_API_KEY env with
                 | Some key => negb (String.eqb key "")
                 | None => false
                 end); [done|].
  destruct stdin1 as [|line1 stdin1], stdin2 as [|line2 stdin2];
    try discriminate Heq; [done|].
  injection Heq as Hline Heq. rewrite Hline.
  destruct (String.eqb (strip line2) ""); [done|].
  unfold demo_session.
  destruct (bind _ _) as [out [[c0 i0]|e]]; [|done].
  pose proof (interrupt_loop_strip env replies stdin1 stdin2 1 c0 i0 Heq) as H.
  cbv zeta in H.
  destruct (interrupt_loop _ _ _ _ _ stdin1 _ _) as [[ev1 s1] r1].
  destruct (interrupt_loop _ _ _ _ _ stdin2 _ _) as [[ev2 s2] r2].
  cbn [fst snd] in H. destruct H as (-> & -> & Hs).
  by destruct r2.
Qed.

End DemoProperties.

(** ** The positions of a session *)

Lemma human_review_node_silent state out p :
  human_review_node state None = (out, Returns (Interrupt p)) ->
  human_review_node state None = ([], Returns (Interrupt p)).
Proof.
  intros H. destruct (human_review_node_suspended _ _ _ H) as [dd Hdd].
  revert H. unfold human_review_node. rewrite Hdd. intros [= <- <-]. reflexivity.
Qed.

Lemma human_review_node_routes state human_decision out rv :
  human_review_node state (Some human_decision) = (out, Returns rv) ->
  exists c, rv = Route c.
Proof.
  unfold human_review_node. intros H.
  apply bind_returns_inv in H as (o1 & dd & o2 & _ & H & _).
  unfold interrupt in H.
  destruct (py_in (lower human_decision) affirm).
  - destruct (missing_labels (extracted_data state)); injection H as _ <-; eauto.
  - destruct (py_in (lower human_decision) finish); injection H as _ <-; eauto.
Qed.

Section Sessions.

Context (json_loads : string -> outcome json) (py_repr : json -> string).

Lemma extraction_then_review steps env r state out c p :
  pregel_loop json_loads py_repr steps env r (Some extract_data) None state
  = (out, Returns (c, p)) ->
  pending_or_ended c.
Proof.
  destruct steps as [|steps]; [done|]. rewrite pregel_loop_extract_data.
  intros H. apply bind_returns_inv in H as (o1 & u & o2 & Hu & H & _).
  destruct steps as [|steps]; [done|]. rewrite pregel_loop_human_review in H.
  apply bind_returns_inv in H as (o3 & rv & o4 & Hrv & H & _).
  destruct (human_review_node_pending _ _ _ Hrv) as [value ->].
  injection H as _ <- _. left. cbn [next values].
  split; [reflexivity|]. split.
  - destruct (extract_data_node_cases json_loads env r state)
      as [out' [[D H']|(marker & line & H')]]; rewrite H' in Hu;
      injection Hu as _ <-; [by left|by right].
  - exists value. by apply human_review_node_silent in Hrv.
Qed.

(** X18. Every checkpoint of a session is in one of two positions.  Either
    the graph waits at the review: the status is [extracted] or [error],
    and the review node, run without a decision, interrupts without
    printing.  Or the graph is at [END] and the status is [completed].
    The status [start] of the initial state does not survive a call. *)
Theorem session_is_pending_or_ended c :
  session json_loads py_repr c ->
  (next c = Some human_review
   /\ (status (values c) = "extracted" \/ status (values c) = "error")
   /\ exists p, human_review_node (values c) None = ([], Returns (Interrupt p)))
  \/ (next c = None /\ status (values c) = "completed").
Proof.
  induction 1 as [ui env r out c p H|c env r h out c' p _ IH H].
  - rewrite invoke_initial_eq in H. exact (extraction_then_review _ _ _ _ _ _ _ H).
  - rewrite invoke_resume_eq in H.
    destruct IH as [(Hn & _ & _)|[Hn Hs]]; rewrite Hn in H.
    + unfold recursion_limit in H. rewrite pregel_loop_human_review in H.
      apply bind_returns_inv in H as (o1 & rv & o2 & Hrv & H & _).
      destruct (human_review_node_routes _ _ _ _ Hrv) as [cmd ->].
      destruct (human_review_node_route _ _ _ _ Hrv) as [Hg|[Hg _]];
        rewrite Hg in H.
      * exact (extraction_then_review _ _ _ _ _ _ _ H).
      * right. exact (run_from_finalize _ _ _ _ _ _ _ _ _ _ H).
    + rewrite pregel_loop_END in H. injection H as _ <- _. by right.
Qed.

End Sessions.

(** ** Finalisation *)

Lemma str_items_returns i items :
  forallb (fun item => match item with JStr _ => true | _ => false end) items
  = true ->
  exists parts, str_items i items = ([], Returns parts).
Proof.
  revert i. induction items as [|v items IH]; intros i H; [by eexists|].
  cbn [forallb] in H. apply andb_true_iff in H as [Hv H].
  destruct v; try discriminate Hv. cbn [str_items].
  destruct (IH (i + 1) H) as [parts ->]. eexists. reflexivity.
Qed.

Lemma str_items_raises i items :
  forallb (fun item => match item with JStr _ => true | _ => false end) items
  = false ->
  exists e, exn_type e = TypeError /\ str_items i items = ([], Raises e).
Proof.
  revert i. induction items as [|v items IH]; intros i H; [discriminate H|].
  cbn [forallb] in H.
  destruct v; try (eexists; split; [|reflexivity]; reflexivity).
  cbn [andb] in H. cbn [str_items].
  destruct (IH (i + 1) H) as (e & He & ->). exists e. split; [exact He|reflexivity].
Qed.

Lemma join_value_returns sep v :
  joinable v = true -> exists text, join_value sep v = ([], Returns text).
Proof.
  destruct v; try discriminate; cbn [joinable join_value]; try by eexists.
  intros [parts ->]%(str_items_returns 0). eexists. reflexivity.
Qed.

Lemma join_value_raises sep v :
  joinable v = false ->
  exists e, exn_type e = TypeError /\ join_value sep v = ([], Raises e).
Proof.
  destruct v; try discriminate; cbn [joinable join_value];
    try (eexists; split; [|reflexivity]; reflexivity).
  intros (e & He & ->)%(str_items_raises 0). exists e. split; [exact He|reflexivity].
Qed.

Lemma format_budget_returns v :
  formattable_budget v = true -> exists text, format_budget v = ([], Returns text).
Proof.
  unfold formattable_budget, format_budget.
  destruct (truthy v); cbn [negb orb]; [|by eexists].
  destruct v; try discriminate; intros _; cbn [format_with_comma];
    rewrite bind_ret; by eexists.
Qed.

Lemma get_or_truthy (d : dict) key fallback :
  truthy (get d key) = true -> get_or d key fallback = get d key.
Proof. unfold get, get_or. by destruct (d !! key). Qed.

Section Finalize.

Context (py_repr : json -> string).

Lemma finalize_node_budget_raises state e :
  truthy (get (extracted_data state) "budget") = true ->
  format_with_comma (get (extracted_data state) "budget") = ([], Raises e) ->
  finalize_node py_repr state = (["✅ Finalisasi data booking..."], Raises e).
Proof. intros Ht H. unfold finalize_node, format_budget. by rewrite Ht, H. Qed.

(** X19. How [finalize_node] ends is decided by the budget and the
    preferences of the record.  With a budget that is a non-empty text it
    raises the [ValueError] of the thousands separator on a text, with a
    non-empty list or dict the [TypeError] of a value without a format.
    With every other budget among the decoded values it raises a
    [TypeError] when the preferences are true and cannot be joined (a
    number, or a list that holds something else than texts), and returns
    otherwise.  In every case it has printed its one line; when it returns
    the status is [completed], and [user_input], the record and the
    iteration count are as they were. *)
Theorem finalize_returns_by_budget_and_preferences state :
  let final_data := extracted_data state in
  match get final_data "budget" with
  | JStr (String _ _) =>
      finalize_node py_repr state
      = (["✅ Finalisasi data booking..."],
         Raises (Exn ValueError "Cannot specify ',' with 's'."))
  | JList (_ :: _) | JObj (_ :: _) =>
      finalize_node py_repr state
      = (["✅ Finalisasi data booking..."],
         Raises
           (Exn TypeError
              ("unsupported format string passed to "
               +:+ type_name (get final_data "budget") +:+ ".__format__")))
  | _ =>
      if truthy (get final_data "preferensi")
         && negb (joinable (get final_data "preferensi"))
      then
        exists e,
          exn_type e = TypeError
          /\ finalize_node py_repr state
             = (["✅ Finalisasi data booking..."], Raises e)
      else
        exists u,
          finalize_node py_repr state
          = (["✅ Finalisasi data booking..."], Returns u)
          /\ status (apply_update state u) = "completed"
          /\ user_input (apply_update state u) = user_input state
          /\ extracted_data (apply_update state u) = final_data
          /\ iteration_count (apply_update state u) = iteration_count state
  end.
Proof.
  cbv zeta.
  assert (formattable_budget (get (extracted_data state) "budget") = true ->
          if truthy (get (extracted_data state) "preferensi")
             && negb (joinable (get (extracted_data state) "preferensi"))
          then
            exists e,
              exn_type e = TypeError
              /\ finalize_node py_repr state
                 = (["✅ Finalisasi data booking..."], Raises e)
          else
            exists u,
              finalize_node py_repr state
              = (["✅ Finalisasi data booking..."], Returns u)
              /\ status (apply_update state u) = "completed"
              /\ user_input (apply_update state u) = user_input state
              /\ extracted_data (apply_update state u) = extracted_data state
              /\ iteration_count (apply_update state u) = iteration_count state)
    as Hok.
  { intros Hf. destruct (format_budget_returns _ Hf) as [budget Hbud].
    destruct (truthy (get (extracted_data state) "preferensi")) eqn:Ht; cbn [andb].
    - destruct (joinable (get (extracted_data state) "preferensi")) eqn:Hj;
        cbn [negb].
      + destruct (join_value_returns ", " _ Hj) as [preferensi Hp].
        unfold finalize_node. rewrite Hbud, Ht, (get_or_truthy _ _ _ Ht), Hp.
        eexists. split; [reflexivity|]. done.
      + destruct (join_value_raises ", " _ Hj) as (e & He & Hp).
        exists e. split; [exact He|].
        unfold finalize_node. rewrite Hbud, Ht, (get_or_truthy _ _ _ Ht), Hp.
        reflexivity.
    - unfold finalize_node. rewrite Hbud, Ht.
      eexists. split; [reflexivity|]. done. }
  destruct (get (extracted_data state) "budget")
    as [|b|n|[|a s]|[|x items]|[|x items]] eqn:Hb.
  - apply Hok. reflexivity.
  - apply Hok. unfold formattable_budget. apply orb_true_r.
  - apply Hok. unfold formattable_budget. apply orb_true_r.
  - apply Hok. reflexivity.
  - apply finalize_node_budget_raises; rewrite Hb; reflexivity.
  - apply Hok. reflexivity.
  - apply finalize_node_budget_raises; rewrite Hb; reflexivity.
  - apply Hok. reflexivity.
  - apply finalize_node_budget_raises; rewrite Hb; reflexivity.
Qed.

End Finalize.

(** ** The further properties at concrete inputs *)

Lemma correction_reruns_extraction_witness :
  next ubud_review.1 = Some human_review
  /\ formattable_budget (get (extracted_data (values ubud_review.1)) "budget") = true
  /\ py_in (lower "Untuk 2 Orang") affirm = false
  /\ py_in (lower "Untuk 2 Orang") finish = false
  /\ extract_data_node loads_basic env_ready (Content ubud_text) ubud_asked
     = ([banner], Returns ubud_second_pass)
  /\ user_input (apply_update ubud_asked ubud_second_pass) = "Untuk 2 Orang"
  /\ iteration_count (apply_update ubud_asked ubud_second_pass) = 2
  /\ exists p,
       invoke_resume loads_basic repr_basic env_ready (Content ubud_text)
         ubud_review.1 "Untuk 2 Orang"
       = ([banner],
          Returns ({| values := apply_update ubud_asked ubud_second_pass;
                      next := Some human_review |}, Some p)).
Proof.
  assert (next ubud_review.1 = Some human_review) as H1 by (vm_compute; reflexivity).
  assert (formattable_budget (get (extracted_data (values ubud_review.1)) "budget")
          = true) as H2 by (vm_compute; reflexivity).
  assert (extract_data_node loads_basic env_ready (Content ubud_text) ubud_asked
          = ([banner], Returns ubud_second_pass)) as H3 by (vm_compute; reflexivity).
  assert (formattable_budget
            (get (extracted_data (apply_update ubud_asked ubud_second_pass)) "budget")
          = true) as H4 by (vm_compute; reflexivity).
  do 4 (split; [first [exact H1 | exact H2 | reflexivity]|]).
  split; [exact H3|]. do 2 (split; [vm_compute; reflexivity|]).
  destruct (correction_reruns_extraction loads_basic repr_basic env_ready
              (Content ubud_text) ubud_review.1 "Untuk 2 Orang"
              H1 H2 eq_refl eq_refl) as (out & u & Hx & _ & Hrun).
  unfold ubud_asked in H3, H4 |- *. rewrite H3 in Hx. injection Hx as <- <-.
  rewrite H4 in Hrun. exact Hrun.
Defined.

Lemma display_budget_is_summary_budget_witness :
  exists dd,
    format_display_data (extracted_data nusa_dua_state) = ([], Returns dd)
    /\ format_budget (get (extracted_data nusa_dua_state) "budget")
       = ([], Returns "Rp 2.000.000")
    /\ dd !! "budget_display" = Some (JStr "Rp 2.000.000").
Proof.
  exists (returned (format_display_data (extracted_data nusa_dua_state)) ∅).
  assert (format_display_data (extracted_data nusa_dua_state)
          = ([], Returns (returned (format_display_data
                                      (extracted_data nusa_dua_state)) ∅)))
    as H by (vm_compute; reflexivity).
  split; [exact H|].
  destruct (display_budget_is_summary_budget _ _ _ H) as (text & Hb & Hd).
  assert (text = "Rp 2.000.000") as ->
    by (vm_compute in Hb; by simplify_eq).
  split; [exact Hb|exact Hd].
Defined.

Lemma session_ends_only_on_a_decision_witness :
  next ubud_review.1 = Some human_review
  /\ invoke_resume loads_basic repr_basic env_ready (Content "")
       ubud_review.1 "setuju"
     = (["✅ Finalisasi data booking..."],
        Returns (ubud_completed.1, ubud_completed.2))
  /\ next ubud_completed.1 = None
  /\ py_in (lower "setuju") affirm = true
  /\ status (values ubud_completed.1) = "completed"
  /\ extracted_data (values ubud_completed.1)
     = extracted_data (values ubud_review.1).
Proof.
  destruct ubud_session as [_ Hresume].
  assert (next ubud_review.1 = Some human_review) as H1 by (vm_compute; reflexivity).
  assert (next ubud_completed.1 = None) as H2 by (vm_compute; reflexivity).
  split; [exact H1|]. split; [exact Hresume|]. split; [exact H2|].
  split; [reflexivity|].
  destruct (session_ends_only_on_a_decision loads_basic repr_basic env_ready
              (Content "") ubud_review.1 "setuju" _ _ _ H1 Hresume H2)
    as (_ & Hs & _ & Hd & _).
  split; [exact Hs|exact Hd].
Defined.

Lemma iteration_count_is_the_number_of_success_lines_witness :
  session loads_basic repr_basic ubud_completed.1
  /\ length (messages (values ubud_completed.1)) = 2%nat
  /\ count_lines is_success_line (messages (values ubud_completed.1)) = 1
  /\ iteration_count (values ubud_completed.1)
     = count_lines is_success_line (messages (values ubud_completed.1)).
Proof.
  destruct ubud_session as [Hstart Hresume].
  assert (session loads_basic repr_basic ubud_completed.1) as Hs.
  { eapply session_resumed; [|exact Hresume].
    eapply session_started. exact Hstart. }
  split; [exact Hs|]. do 2 (split; [vm_compute; reflexivity|]).
  exact (iteration_count_is_the_number_of_success_lines loads_basic repr_basic
           ubud_completed.1 Hs).
Defined.

Lemma failed_review_session :
  invoke_initial loads_basic repr_basic env_ready
    (Content "Maaf, saya tidak mengerti.") (initial_state "hotel di ubud")
  = ([banner; "❌ Error ekstraksi: Expecting value"],
     Returns (failed_review.1, failed_review.2)).
Proof. vm_compute. reflexivity. Qed.

Lemma failed_extraction_leaves_only_the_marker_witness :
  session loads_basic repr_basic failed_review.1
  /\ status (values failed_review.1) = "error"
  /\ extracted_data (values failed_review.1) = {["error" := JStr "Expecting value"]}
  /\ missing_labels (extracted_data (values failed_review.1))
     = ["lokasi tujuan"; "tanggal check-in"; "jumlah malam"; "jumlah tamu"]
  /\ exists p,
       human_review_node (values failed_review.1) None
       = ([], Returns (Interrupt p)).
Proof.
  assert (session loads_basic repr_basic failed_review.1) as Hs
    by (eapply session_started; exact failed_review_session).
  assert (status (values failed_review.1) = "error") as He
    by (vm_compute; reflexivity).
  split; [exact Hs|]. split; [exact He|]. split; [vm_compute; reflexivity|].
  destruct (failed_extraction_leaves_only_the_marker loads_basic repr_basic
              failed_review.1 Hs He) as (_ & Hm & Hp).
  split; [exact Hm|exact Hp].
Defined.

Lemma nights_follow_the_dates_witness :
  get wrong_nights_record "tanggal_checkin" = JStr "2025-06-20"
  /\ get wrong_nights_record "tanggal_checkout" = JStr "2025-06-25"
  /\ get wrong_nights_record "jumlah_malam" = JInt 2
  /\ strptime_ymd "2025-06-20" = Some (Date 2025 6 20)
  /\ strptime_ymd "2025-06-25" = Some (Date 2025 6 25)
  /\ date_le (Date 2025 6 25) (Date 2025 6 20) = false
  /\ days_between (Date 2025 6 25) (Date 2025 6 20) = 5
  /\ reconcile_dates wrong_nights_record
     = ([], Returns (<["jumlah_malam" := JInt 5]> wrong_nights_record))
  /\ date_add (Date 2025 6 20) 5 = ([], Returns (Date 2025 6 25)).
Proof.
  do 6 (split; [vm_compute; reflexivity|]).
  assert (days_between (Date 2025 6 25) (Date 2025 6 20) = 5) as Hn
    by (vm_compute; reflexivity).
  split; [exact Hn|]. rewrite <- Hn.
  destruct (nights_follow_the_dates wrong_nights_record "2025-06-20" "2025-06-25"
              (Date 2025 6 20) (Date 2025 6 25)
              eq_refl eq_refl eq_refl eq_refl eq_refl) as (Hr & _ & Ha & _).
  split; [exact Hr|exact Ha].
Defined.

Lemma derived_checkout_is_stable_witness :
  get five_nights_record "tanggal_checkin" = JStr "2025-06-20"
  /\ strptime_ymd "2025-06-20" = Some (Date 2025 6 20)
  /\ get five_nights_record "jumlah_malam" = JInt 5
  /\ truthy (get five_nights_record "tanggal_checkout") = false
  /\ strftime_ymd (fromordinal (toordinal (Date 2025 6 20) + 5)) = "2025-06-25"
  /\ reconcile_dates (<["tanggal_checkout" := JStr "2025-06-25"]> five_nights_record)
     = ([], Returns (<["tanggal_checkout" := JStr "2025-06-25"]> five_nights_record)).
Proof.
  do 4 (split; [vm_compute; reflexivity|]).
  assert (strftime_ymd (fromordinal (toordinal (Date 2025 6 20) + 5)) = "2025-06-25")
    as Hfmt by (vm_compute; reflexivity).
  split; [exact Hfmt|]. rewrite <- Hfmt.
  exact (proj2 (proj2 (derived_checkout_is_stable five_nights_record
                         "2025-06-20" (Date 2025 6 20) 5
                         eq_refl eq_refl eq_refl eq_refl eq_refl
                         ltac:(vm_compute; discriminate)))).
Defined.

Lemma negative_nights_derive_an_earlier_checkout_witness :
  get negative_nights_record "tanggal_checkin" = JStr "2025-06-20"
  /\ strptime_ymd "2025-06-20" = Some (Date 2025 6 20)
  /\ get negative_nights_record "jumlah_malam" = JInt (-5)
  /\ truthy (get negative_nights_record "tanggal_checkout") = false
  /\ strftime_ymd (fromordinal (toordinal (Date 2025 6 20) + -5)) = "2025-06-15"
  /\ reconcile_dates negative_nights_record
     = ([], Returns (<["tanggal_checkout" := JStr "2025-06-15"]>
                       negative_nights_record))
  /\ reconcile_dates (<["tanggal_checkout" := JStr "2025-06-15"]>
                        negative_nights_record)
     = ([range_warning],
        Returns (<["tanggal_checkout" := JStr "2025-06-15"]> negative_nights_record)).
Proof.
  do 4 (split; [vm_compute; reflexivity|]).
  assert (strftime_ymd (fromordinal (toordinal (Date 2025 6 20) + -5))
          = "2025-06-15") as Hfmt by (vm_compute; reflexivity).
  split; [exact Hfmt|]. rewrite <- Hfmt.
  destruct (negative_nights_derive_an_earlier_checkout negative_nights_record
              "2025-06-20" (Date 2025 6 20) (-5)
              eq_refl eq_refl eq_refl eq_refl eq_refl eq_refl)
    as (H1 & _ & _ & H2).
  split; [exact H1|exact H2].
Defined.

Lemma unreadable_date_keeps_record_witness :
  get unreadable_checkin_record "tanggal_checkin" = JStr "20 Juni 2025"
  /\ get unreadable_checkin_record "tanggal_checkout" = JStr "2025-06-25"
  /\ strptime_ymd "20 Juni 2025" = None
  /\ reconcile_dates unreadable_checkin_record
     = (["⚠️ Warning: Format tanggal tidak valid"],
        Returns unreadable_checkin_record).
Proof.
  do 3 (split; [vm_compute; reflexivity|]).
  exact (unreadable_date_keeps_record unreadable_checkin_record
           "20 Juni 2025" "2025-06-25" eq_refl eq_refl
           ltac:(discriminate) ltac:(discriminate) (or_introl eq_refl)).
Defined.

Lemma parsed_date_is_shown_in_indonesian_witness :
  strptime_ymd "2025-06-20" = Some (Date 2025 6 20)
  /\ month_mapping !! 5%nat = Some ("June", "Juni")
  /\ display_date (JStr "2025-06-20") = ([], Returns (JStr "20 Juni 2025")).
Proof.
  split; [vm_compute; reflexivity|]. split; [reflexivity|].
  destruct (parsed_date_is_shown_in_indonesian "2025-06-20" (Date 2025 6 20)
              eq_refl) as (name & Hm & ->).
  assert (name = "Juni") as -> by (vm_compute in Hm; by simplify_eq).
  vm_compute. reflexivity.
Defined.

(** The year 999 is displayed with its three digits. *)
Example short_year_is_displayed_unpadded :
  display_date (JStr "0999-01-05") = ([], Returns (JStr "05 Januari 999")).
Proof. vm_compute. reflexivity. Qed.

(** The record with the checkout derived in the year 500, checked again:
    the text of the checkout is not read, and the format warning is
    printed. *)
Example short_year_checkout_is_warned_about :
  reconcile_dates
    (list_to_map [("tanggal_checkin", JStr "0500-01-01");
                  ("jumlah_malam", JInt 1);
                  ("tanggal_checkout", JStr "500-01-02")])
  = (["⚠️ Warning: Format tanggal tidak valid"],
     Returns
       (list_to_map [("tanggal_checkin", JStr "0500-01-01");
                     ("jumlah_malam", JInt 1);
                     ("tanggal_checkout", JStr "500-01-02")])).
Proof. vm_compute. reflexivity. Qed.

Lemma fenced_reply_decodes_like_its_body_witness :
  has_char "`" (nl +:+ ubud_text +:+ nl) = false
  /\ clean_response (fence_json +:+ (nl +:+ ubud_text +:+ nl) +:+ fence) = ubud_text
  /\ decoded_record loads_basic
       (Content (fence_json +:+ (nl +:+ ubud_text +:+ nl) +:+ fence))
     = decoded_record loads_basic (Content (nl +:+ ubud_text +:+ nl)).
Proof.
  assert (has_char "`" (nl +:+ ubud_text +:+ nl) = false) as H
    by (vm_compute; reflexivity).
  split; [exact H|].
  destruct (fenced_reply_decodes_like_its_body loads_basic _ H) as [Hc Hd].
  split; [|exact Hd]. rewrite Hc. vm_compute. reflexivity.
Defined.

Lemma demo_completes_with_the_summary_witness :
  exists events,
    demo_session loads_basic repr_basic env_ready ubud_replies ubud_query
      ["  setuju "]
    = (events, [], Returns ubud_completed.1)
    /\ session loads_basic repr_basic ubud_completed.1
    /\ status (values ubud_completed.1) = "completed"
    /\ "✅ Proses HIL berhasil!" ∈ report (values ubud_completed.1).
Proof.
  exists (demo_session loads_basic repr_basic env_ready ubud_replies ubud_query
            ["  setuju "]).1.1.
  assert (demo_session loads_basic repr_basic env_ready ubud_replies ubud_query
            ["  setuju "]
          = ((demo_session loads_basic repr_basic env_ready ubud_replies
                ubud_query ["  setuju "]).1.1, [], Returns ubud_completed.1))
    as H by (vm_compute; reflexivity).
  split; [exact H|].
  destruct (demo_completes_with_the_summary loads_basic repr_basic _ _ _ _ _ _ _ H)
    as (Hs & Hst & earlier & budget & preferensi & _ & Hok & _).
  split; [exact Hs|]. split; [exact Hst|exact Hok].
Defined.

Lemma demo_ignores_surrounding_blanks_witness :
  map strip ["  " +:+ ubud_query; " selesai  "] = map strip [ubud_query; "selesai"]
  /\ (run_langgraph_hil_demo loads_basic repr_basic env_ready ubud_replies
        ["  " +:+ ubud_query; " selesai  "]).1.1
     = (run_langgraph_hil_demo loads_basic repr_basic env_ready ubud_replies
          [ubud_query; "selesai"]).1.1.
Proof.
  assert (map strip ["  " +:+ ubud_query; " selesai  "]
          = map strip [ubud_query; "selesai"]) as H by (vm_compute; reflexivity).
  split; [exact H|].
  exact (proj1 (demo_ignores_surrounding_blanks loads_basic repr_basic env_ready
                  ubud_replies _ _ H)).
Defined.

Lemma missing_field_is_shown_as_not_mentioned_witness :
  exists p,
    human_review_node (reviewing ubud_without_guests) None
    = ([], Returns (Interrupt p))
    /\ ("jumlah_tamu", "jumlah tamu") ∈ required_fields
    /\ truthy (get ubud_without_guests "jumlah_tamu") = false
    /\ display p !! "jumlah_tamu" = Some (JStr "Belum disebutkan")
    /\ display p !! "lokasi" = Some (JStr "Ubud").
Proof.
  destruct review_of_ubud_without_guests_suspends as [p Hp].
  assert (("jumlah_tamu", "jumlah tamu") ∈ required_fields) as Hin
    by (do 3 apply list_elem_of_further; apply list_elem_of_here).
  exists p. split; [exact Hp|]. split; [exact Hin|]. split; [reflexivity|].
  split.
  - exact (missing_field_is_shown_as_not_mentioned _ _ _ _ _ Hp Hin eq_refl
             ltac:(discriminate)).
  - vm_compute in Hp. injection Hp as <-. vm_compute. reflexivity.
Defined.

Lemma session_is_pending_or_ended_witness :
  session loads_basic repr_basic ubud_review.1
  /\ next ubud_review.1 = Some human_review
  /\ status (values ubud_review.1) = "extracted"
  /\ exists p,
       human_review_node (values ubud_review.1) None
       = ([], Returns (Interrupt p)).
Proof.
  destruct ubud_session as [Hstart _].
  assert (session loads_basic repr_basic ubud_review.1) as Hs
    by (eapply session_started; exact Hstart).
  split; [exact Hs|]. do 2 (split; [vm_compute; reflexivity|]).
  destruct (session_is_pending_or_ended loads_basic repr_basic _ Hs)
    as [(_ & _ & Hp)|[Hn _]]; [exact Hp|].
  vm_compute in Hn. discriminate Hn.
Defined.
